(** * StockTradebyZ: result cache and selection orchestration

    A shallow embedding of [src/result_storage.py] (class [ResultStorage])
    and of [run_selection] in [src/api_server.py], with the properties of
    the specification stated over it.

    Conventions of the embedding.
    - Python [str] is [string]; text is taken as its UTF-8 bytes.
    - Python [int] is [Z]; a pandas [Timestamp] is its nanosecond count
      since the epoch, or [NaT].
    - [float] values (the scores) are carried as IEEE values [spec_float];
      the code never computes with them.
    - A raised exception is an explicit [Raise] result; [try/except] is a
      [match] on it.
    - The file system is a tree of directories and files under [/],
      together with the working directory.  There are no symbolic links,
      permissions, name-length limits or resource exhaustion.
    - [json.dump] followed by [json.load] gives back the dumped value; a
      file holds such a value, or text that does not parse.
    - [strptime] is modelled on ASCII digits. *)

From Stdlib Require Import ZArith Ascii String List Bool Lia Sorted.
From Stdlib Require Import Floats.SpecFloat.
From stdpp Require Import base option list strings gmap.

Open Scope string_scope.
Open Scope Z_scope.
Open Scope list_scope.

(** ** Python values and exceptions *)

Inductive exn : Type :=
| FileNotFoundError
| FileExistsError
| NotADirectoryError
| IsADirectoryError
| JSONDecodeError
| ValidationError
| ValueError
| StrategyError
| HTTPException (status_code : Z).
(* All of them derive from [Exception]: an [except Exception] catches
   them. [StrategyError] stands for whatever a strategy raises. *)

Inductive res (A : Type) : Type :=
| Ok (a : A)
| Raise (e : exn).
Arguments Ok {A} a.
Arguments Raise {A} e.

Definition pyfloat : Type := spec_float.

(** The value [json.load] returns and [json.dump] takes: Python's view of
    a JSON document.  A dict is the list of its items in insertion order. *)
#[local] Unset Elimination Schemes.
Inductive json : Type :=
| JNull
| JBool (b : bool)
| JInt (z : Z)
| JFloat (f : pyfloat)
| JStr (s : string)
| JList (l : list json)
| JDict (d : list (string * json)).
#[local] Set Elimination Schemes.

(** ** Strings *)

Module Str.

Definition slash : ascii := "/"%char.
Definition dot : ascii := "."%char.

(** [sep in s] *)
Fixpoint has_char (c : ascii) (s : string) : bool :=
  match s with
  | EmptyString => false
  | String a s' => Ascii.eqb a c || has_char c s'
  end.

(** [s.split(sep)] for a one-character separator: never the empty list. *)
Fixpoint split_on (sep : ascii) (s : string) : list string :=
  match s with
  | EmptyString => [EmptyString]
  | String a s' =>
      if Ascii.eqb a sep then EmptyString :: split_on sep s'
      else match split_on sep s' with
           | [] => [String a EmptyString]
           | x :: xs => String a x :: xs
           end
  end.

(** [s.lstrip(c)] together with the number of characters removed. *)
Fixpoint lstrip_count (c : ascii) (s : string) : nat * string :=
  match s with
  | String a s' =>
      if Ascii.eqb a c then
        let '(n, r) := lstrip_count c s' in (S n, r)
      else (O, s)
  | EmptyString => (O, s)
  end.

(** [s.rfind(c)], [None] standing for -1. *)
Fixpoint rfind (c : ascii) (s : string) : option nat :=
  match s with
  | EmptyString => None
  | String a s' =>
      match rfind c s' with
      | Some i => Some (S i)
      | None => if Ascii.eqb a c then Some O else None
      end
  end.

(** [s.endswith(suf)] *)
Definition ends_with (suf s : string) : bool :=
  (String.length suf <=? String.length s)%nat &&
  String.eqb (substring (String.length s - String.length suf)
                        (String.length suf) s) suf.

End Str.

(** ** pathlib: pure POSIX paths *)

Module Pathlib.

(** The root of a path: none, [/], or the two slashes POSIX keeps apart. *)
Inductive anchor : Type := Relative | Root | Root2.

Record Path : Type := mkPath { p_anchor : anchor; p_parts : list string }.

(** [_PosixFlavour.splitroot] *)
Definition splitroot (part : string) : anchor * string :=
  match part with
  | String a _ =>
      if Ascii.eqb a Str.slash then
        let '(n, stripped) := Str.lstrip_count Str.slash part in
        if Nat.eqb n 2 then (Root2, stripped) else (Root, stripped)
      else (Relative, part)
  | EmptyString => (Relative, part)
  end.

(** The components kept by [parse_parts]: neither empty nor [.]. *)
Definition keep_part (x : string) : bool :=
  negb (String.eqb x "") && negb (String.eqb x ".").

(** [Path(s)] *)
Definition parse (s : string) : Path :=
  let '(a, rel) := splitroot s in
  mkPath a (List.filter keep_part (Str.split_on Str.slash rel)).

(** [base / seg]: an anchored segment replaces the base. *)
Definition joinpath (base : Path) (seg : string) : Path :=
  let q := parse seg in
  match p_anchor q with
  | Relative => mkPath (p_anchor base) (p_parts base ++ p_parts q)
  | _ => q
  end.

(** The path of a directory entry, as [iterdir] and [glob] build it: the
    entry's name is appended as it is. *)
Definition child (base : Path) (name : string) : Path :=
  mkPath (p_anchor base) (p_parts base ++ [name]).

(** [p.name] *)
Definition name (p : Path) : string := List.last (p_parts p) "".

(** [p.stem]: the name without its last suffix. *)
Definition stem (p : Path) : string :=
  let n := name p in
  match Str.rfind Str.dot n with
  | Some i =>
      if (0 <? i)%nat && (i <? String.length n - 1)%nat
      then substring 0 i n else n
  | None => n
  end.

End Pathlib.

Notation "p // s" := (Pathlib.joinpath p s) (at level 40, left associativity).

(** ** The file system *)

Module FS.
Import Pathlib.

(** What a file holds: a JSON document, or text [json.load] rejects. *)
Inductive content : Type :=
| Document (v : json)
| Garbage (raw : string).

#[local] Unset Elimination Schemes.
Inductive node : Type :=
| File (c : content)
| Dir (ents : list (string * node)).
#[local] Set Elimination Schemes.

(** A location is the list of names from [/] down to the node. *)
Definition loc : Type := list string.

Record filesys : Type := mkFs { fs_root : node; fs_cwd : loc }.

Fixpoint assoc (k : string) (l : list (string * node)) : option node :=
  match l with
  | [] => None
  | (k', v) :: l' => if String.eqb k' k then Some v else assoc k l'
  end.

(** Replace the entry named [k], or add it after the others. *)
Fixpoint assoc_set (k : string) (v : node) (l : list (string * node))
  : list (string * node) :=
  match l with
  | [] => [(k, v)]
  | (k', v') :: l' =>
      if String.eqb k' k then (k, v) :: l' else (k', v') :: assoc_set k v l'
  end.

Fixpoint find (t : node) (l : loc) : option node :=
  match l with
  | [] => Some t
  | c :: l' =>
      match t with
      | Dir ents =>
          match assoc c ents with
          | Some t' => find t' l'
          | None => None
          end
      | File _ => None
      end
  end.

(** Put [n] at [l]; the parent of [l] has to be a directory. *)
Fixpoint insert_at (t : node) (l : loc) (n : node) : option node :=
  match l with
  | [] => None
  | c :: l' =>
      match t with
      | Dir ents =>
          match l' with
          | [] => Some (Dir (assoc_set c n ents))
          | _ :: _ =>
              match assoc c ents with
              | Some t' =>
                  match insert_at t' l' n with
                  | Some t'' => Some (Dir (assoc_set c t'' ents))
                  | None => None
                  end
              | None => None
              end
          end
      | File _ => None
      end
  end.

(** Path resolution: every component is looked up in a directory; [..]
    goes to the parent (the parent of [/] is [/]). *)
Definition step (cur : loc) (c : string) : loc :=
  if String.eqb c ".." then removelast cur else cur ++ [c].

Fixpoint walk (t : node) (cur : loc) (ps : list string) : res loc :=
  match ps with
  | [] => Ok cur
  | c :: ps' =>
      match find t cur with
      | Some (Dir _) => walk t (step cur c) ps'
      | Some (File _) => Raise NotADirectoryError
      | None => Raise FileNotFoundError
      end
  end.

Definition start (fs : filesys) (p : Path) : loc :=
  match p_anchor p with
  | Relative => fs_cwd fs
  | _ => []
  end.

Definition resolve (fs : filesys) (p : Path) : res loc :=
  walk (fs_root fs) (start fs p) (p_parts p).

Definition lookup (fs : filesys) (p : Path) : res (option node) :=
  match resolve fs p with
  | Ok l => Ok (find (fs_root fs) l)
  | Raise e => Raise e
  end.

(** [p.exists()]: a path that does not resolve does not exist. *)
Definition exists_ (fs : filesys) (p : Path) : bool :=
  match lookup fs p with
  | Ok (Some _) => true
  | _ => false
  end.

(** [p.is_dir()] *)
Definition is_dir (fs : filesys) (p : Path) : bool :=
  match lookup fs p with
  | Ok (Some (Dir _)) => true
  | _ => false
  end.

Definition put (fs : filesys) (l : loc) (n : node) : res filesys :=
  match insert_at (fs_root fs) l n with
  | Some t' => Ok (mkFs t' (fs_cwd fs))
  | None => Raise FileNotFoundError
  end.

(** [os.mkdir(p)] *)
Definition os_mkdir (fs : filesys) (p : Path) : res filesys :=
  match resolve fs p with
  | Raise e => Raise e
  | Ok l =>
      match find (fs_root fs) l with
      | Some _ => Raise FileExistsError
      | None => put fs l (Dir [])
      end
  end.

(** [p.mkdir(parents=False, exist_ok=True)] *)
Definition mkdir_exist_ok (fs : filesys) (p : Path) : filesys * res unit :=
  match os_mkdir fs p with
  | Ok fs' => (fs', Ok tt)
  | Raise FileNotFoundError => (fs, Raise FileNotFoundError)
  | Raise e => if is_dir fs p then (fs, Ok tt) else (fs, Raise e)
  end.

(** [p.mkdir(parents=True, exist_ok=True)], by recursion on [p.parent]:
    the parts are taken last first.  On [FileNotFoundError] the parent is
    made first, unless the path is its own parent. *)
Fixpoint mkdir_parents_rev (a : anchor) (rparts : list string)
    (fs : filesys) : filesys * res unit :=
  let self := mkPath a (rev rparts) in
  match os_mkdir fs self with
  | Ok fs' => (fs', Ok tt)
  | Raise FileNotFoundError =>
      match rparts with
      | [] => (fs, Raise FileNotFoundError)
      | _ :: rparent =>
          match mkdir_parents_rev a rparent fs with
          | (fs1, Ok _) => mkdir_exist_ok fs1 self
          | (fs1, Raise e) => (fs1, Raise e)
          end
      end
  | Raise e => if is_dir fs self then (fs, Ok tt) else (fs, Raise e)
  end.

Definition mkdir_parents (fs : filesys) (p : Path) : filesys * res unit :=
  mkdir_parents_rev (p_anchor p) (rev (p_parts p)) fs.

(** [with p.open("w") as f: json.dump(v, f)]: the file is created or
    truncated, then written. *)
Definition write_json (fs : filesys) (p : Path) (v : json) : res filesys :=
  match resolve fs p with
  | Raise e => Raise e
  | Ok l =>
      match find (fs_root fs) l with
      | Some (Dir _) => Raise IsADirectoryError
      | _ => put fs l (File (Document v))
      end
  end.

(** [with p.open("r") as f: json.load(f)] *)
Definition read_json (fs : filesys) (p : Path) : res json :=
  match lookup fs p with
  | Raise e => Raise e
  | Ok None => Raise FileNotFoundError
  | Ok (Some (Dir _)) => Raise IsADirectoryError
  | Ok (Some (File (Garbage _))) => Raise JSONDecodeError
  | Ok (Some (File (Document v))) => Ok v
  end.

(** [p.iterdir()]: the entries of a directory, in the order the system
    gives them. *)
Definition iterdir (fs : filesys) (p : Path) : res (list Path) :=
  match lookup fs p with
  | Raise e => Raise e
  | Ok None => Raise FileNotFoundError
  | Ok (Some (File _)) => Raise NotADirectoryError
  | Ok (Some (Dir ents)) => Ok (map (fun e => child p (fst e)) ents)
  end.

(** [p.glob("*" + suffix)]: the entries whose name ends in [suffix];
    nothing when [p] is not a directory. *)
Definition glob_suffix (fs : filesys) (p : Path) (suffix : string) : list Path :=
  match lookup fs p with
  | Ok (Some (Dir ents)) =>
      map (fun e => child p (fst e))
          (List.filter (fun e => Str.ends_with suffix (fst e)) ents)
  | _ => []
  end.

End FS.

(** ** datetime.strptime and sorted *)

Module Datetime.

Definition digit_val (c : ascii) : option Z :=
  let n := nat_of_ascii c in
  if (48 <=? n)%nat && (n <=? 57)%nat then Some (Z.of_nat (n - 48)) else None.

(** A digit whose value lies in [lo, hi]: the class [[lo-hi]]. *)
Definition digit_in (lo hi : Z) (c : ascii) : option Z :=
  match digit_val c with
  | Some v => if (lo <=? v) && (v <=? hi) then Some v else None
  | None => None
  end.

(** [(?P<Y>\d\d\d\d)] (ASCII digits) *)
Definition re_Y (s : string) : option (Z * string) :=
  match s with
  | String a (String b (String c (String d r))) =>
      match digit_val a, digit_val b, digit_val c, digit_val d with
      | Some x, Some y, Some z, Some w => Some (1000 * x + 100 * y + 10 * z + w, r)
      | _, _, _, _ => None
      end
  | _ => None
  end.

(** One alternative made of two character classes, the first giving the
    tens. *)
Definition two (lo1 hi1 lo2 hi2 : Z) (s : string) : list (Z * string) :=
  match s with
  | String a (String b r) =>
      match digit_in lo1 hi1 a, digit_in lo2 hi2 b with
      | Some x, Some y => [(10 * x + y, r)]
      | _, _ => []
      end
  | _ => []
  end.

Definition one (lo hi : Z) (s : string) : list (Z * string) :=
  match s with
  | String a r =>
      match digit_in lo hi a with
      | Some x => [(x, r)]
      | None => []
      end
  | _ => []
  end.

(** A space followed by a digit of [[1-9]]. *)
Definition space_one (s : string) : list (Z * string) :=
  match s with
  | String a r => if Ascii.eqb a " "%char then one 1 9 r else []
  | _ => []
  end.

(** [(?P<m>1[0-2]|0[1-9]|[1-9])]: the alternatives that match, in the
    order the regex engine tries them. *)
Definition re_m (s : string) : list (Z * string) :=
  two 1 1 0 2 s ++ two 0 0 1 9 s ++ one 1 9 s.

(** [(?P<d>3[01]|[12]\d|0[1-9]|[1-9]| [1-9])] *)
Definition re_d (s : string) : list (Z * string) :=
  two 3 3 0 1 s ++ two 1 2 0 9 s ++ two 0 0 1 9 s ++ one 1 9 s ++ space_one s.

Definition dash (s : string) : option string :=
  match s with
  | String a r => if Ascii.eqb a "-"%char then Some r else None
  | _ => None
  end.

Fixpoint first_some {A B : Type} (f : A -> option B) (l : list A) : option B :=
  match l with
  | [] => None
  | x :: l' =>
      match f x with
      | Some y => Some y
      | None => first_some f l'
      end
  end.

(** [format_regex.match(data_string)] for the format [%Y-%m-%d]: the
    first match in backtracking order, with what it leaves unread. *)
Definition regex_match (s : string) : option (Z * Z * Z * string) :=
  match re_Y s with
  | Some (y, s1) =>
      match dash s1 with
      | Some s2 =>
          first_some
            (fun '(m, s3) =>
               match dash s3 with
               | Some s4 =>
                   match re_d s4 with
                   | (d, r) :: _ => Some (y, m, d, r)
                   | [] => None
                   end
               | None => None
               end)
            (re_m s2)
      | None => None
      end
  | None => None
  end.

Definition is_leap (y : Z) : bool :=
  (y mod 4 =? 0) && (negb (y mod 100 =? 0) || (y mod 400 =? 0)).

Definition days_in_month (y m : Z) : Z :=
  if m =? 2 then (if is_leap y then 29 else 28)
  else if (m =? 4) || (m =? 6) || (m =? 9) || (m =? 11) then 30
  else 31.

(** [datetime.strptime(s, "%Y-%m-%d")]: [ValueError] when the string does
    not match, when data remains, or when the date does not exist (year 0,
    day beyond the month). *)
Definition strptime (s : string) : res (Z * Z * Z) :=
  match regex_match s with
  | Some (y, m, d, rest) =>
      if negb (String.eqb rest "") then Raise ValueError
      else if (1 <=? y) && (d <=? days_in_month y m) then Ok (y, m, d)
      else Raise ValueError
  | None => Raise ValueError
  end.

(** [sorted(l, reverse=True)] on strings: descending code-point order. *)
Fixpoint insert_desc (x : string) (l : list string) : list string :=
  match l with
  | [] => [x]
  | y :: l' => if String.leb y x then x :: l else y :: insert_desc x l'
  end.

Definition sorted_reverse (l : list string) : list string :=
  fold_right insert_desc [] l.

End Datetime.

(** ** pandas timestamps *)

Module Pandas.

Inductive Timestamp : Type :=
| NaT
| TS (ns : Z).

(** [a > b]: false whenever [NaT] takes part. *)
Definition gt (a b : Timestamp) : bool :=
  match a, b with
  | TS x, TS y => y <? x
  | _, _ => false
  end.

(** The builtin [max] over a non-empty sequence [x, rest...]: the running
    maximum is replaced when an item is greater. *)
Definition py_max (x : Timestamp) (rest : list Timestamp) : Timestamp :=
  fold_left (fun m y => if gt y m then y else m) rest x.

(** A frame, as far as the orchestrator looks into it: the values of its
    [date] column. *)
Record DataFrame : Type := mkFrame { date_column : list Z }.

(** [df["date"].max()]: [NaT] for a column without values. *)
Definition column_max (df : DataFrame) : Timestamp :=
  match date_column df with
  | [] => NaT
  | x :: xs => TS (fold_left Z.max xs x)
  end.

Definition ns_per_day : Z := 86400 * 1000000000.

(** The civil date of a day number counted from 1970-01-01. *)
Definition civil_from_days (days : Z) : Z * Z * Z :=
  let z := days + 719468 in
  let era := z / 146097 in
  let doe := z - era * 146097 in
  let yoe := (doe - doe / 1460 + doe / 36524 - doe / 146096) / 365 in
  let doy := doe - (365 * yoe + yoe / 4 - yoe / 100) in
  let mp := (5 * doy + 2) / 153 in
  let d := doy - (153 * mp + 2) / 5 + 1 in
  let m := if mp <? 10 then mp + 3 else mp - 9 in
  let y := yoe + era * 400 in
  (if m <=? 2 then y + 1 else y, m, d).

(** The day number of a civil date. *)
Definition days_from_civil (y m d : Z) : Z :=
  let y' := if m <=? 2 then y - 1 else y in
  let era := y' / 400 in
  let yoe := y' - era * 400 in
  let mp := if 2 <? m then m - 3 else m + 9 in
  let doy := (153 * mp + 2) / 5 + d - 1 in
  let doe := yoe * 365 + yoe / 4 - yoe / 100 + doy in
  era * 146097 + doe - 719468.

(** [pd.Timestamp(year, month, day)] at midnight. *)
Definition timestamp_of_date (y m d : Z) : Timestamp :=
  TS (days_from_civil y m d * ns_per_day).

Definition digit_char (n : Z) : ascii :=
  nth (Z.to_nat n) ["0"; "1"; "2"; "3"; "4"; "5"; "6"; "7"; "8"; "9"]%char "?"%char.

Definition pad2 (n : Z) (tail : string) : string :=
  String (digit_char (n / 10)) (String (digit_char (n mod 10)) tail).

Definition pad4 (n : Z) (tail : string) : string :=
  String (digit_char (n / 1000)) (String (digit_char (n / 100 mod 10))
    (String (digit_char (n / 10 mod 10)) (String (digit_char (n mod 10)) tail))).

(** [t.strftime("%Y-%m-%d")]; [NaT] does not support it.  The years a
    [Timestamp] can hold (1677 to 2262) have four digits. *)
Definition strftime (t : Timestamp) : res string :=
  match t with
  | NaT => Raise ValueError
  | TS ns =>
      let '(y, m, d) := civil_from_days (ns / ns_per_day) in
      Ok (pad4 y (String "-" (pad2 m (String "-" (pad2 d "")))))
  end.

End Pandas.

(** ** result_storage.py *)

Module Storage.
Import Pathlib FS.

(** [class StockSelectionResult(BaseModel)] *)
Record StockSelectionResult : Type := mkResult {
  selector_name : string;
  alias : string;
  trade_date : string;
  selected_stocks : list string;
  scores : option (list (string * pyfloat));
  count : Z
}.

(** [result.dict()], as [json.dump] writes it and [json.load] gives it
    back. *)
Definition result_dict (r : StockSelectionResult) : json :=
  JDict [ ("selector_name", JStr (selector_name r));
          ("alias", JStr (alias r));
          ("trade_date", JStr (trade_date r));
          ("selected_stocks", JList (map JStr (selected_stocks r)));
          ("scores", match scores r with
                     | Some d => JDict (map (fun kv => (fst kv, JFloat (snd kv))) d)
                     | None => JNull
                     end);
          ("count", JInt (count r)) ].

Fixpoint field (k : string) (d : list (string * json)) : option json :=
  match d with
  | [] => None
  | (k', v) :: d' => if String.eqb k' k then Some v else field k d'
  end.

Definition str_field (k : string) (d : list (string * json)) : option string :=
  match field k d with
  | Some (JStr s) => Some s
  | _ => None
  end.

Fixpoint str_list (l : list json) : option (list string) :=
  match l with
  | [] => Some []
  | JStr s :: l' =>
      match str_list l' with
      | Some ss => Some (s :: ss)
      | None => None
      end
  | _ :: _ => None
  end.

Fixpoint float_dict (d : list (string * json)) : option (list (string * pyfloat)) :=
  match d with
  | [] => Some []
  | (k, JFloat f) :: d' =>
      match float_dict d' with
      | Some fs => Some ((k, f) :: fs)
      | None => None
      end
  | _ :: _ => None
  end.

(** The fields of a document that has exactly the declared types. *)
Definition exact_fields (d : list (string * json)) : option StockSelectionResult :=
  match str_field "selector_name" d, str_field "alias" d, str_field "trade_date" d,
        field "selected_stocks" d, field "count" d with
  | Some n, Some a, Some t, Some (JList l), Some (JInt c) =>
      match str_list l with
      | Some stocks =>
          match field "scores" d with
          | None | Some JNull => Some (mkResult n a t stocks None c)
          | Some (JDict sd) =>
              match float_dict sd with
              | Some fs => Some (mkResult n a t stocks (Some fs) c)
              | None => None
              end
          | Some _ => None
          end
      | None => None
      end
  | _, _, _, _, _ => None
  end.

(** What pydantic makes of keyword arguments that do not have exactly the
    declared types (it converts some and rejects the others, differently
    from one version to the next). *)
Class Pydantic : Type := { coerce : list (string * json) -> res StockSelectionResult }.

Section WithPydantic.
Context `{Pydantic}.

(** The constructor [StockSelectionResult], called with the items of
    [result_dict] as keyword arguments. *)
Definition validate (j : json) : res StockSelectionResult :=
  match j with
  | JDict d =>
      match exact_fields d with
      | Some r => Ok r
      | None => coerce d
      end
  | _ => Raise ValidationError
  end.

(** [class ResultStorage]: its one attribute. *)
Record ResultStorage : Type := mkStorage { result_dir : Path }.

(** [ResultStorage.__init__] *)
Definition init (dir : Path) (fs : filesys) : filesys * res ResultStorage :=
  match mkdir_parents fs dir with
  | (fs', Ok _) => (fs', Ok (mkStorage dir))
  | (fs', Raise e) => (fs', Raise e)
  end.

(** The location [get_result_path] computes. *)
Definition result_location (st : ResultStorage) (trade_date selector_name : string) : Path :=
  result_dir st // trade_date // (selector_name +:+ ".json").

Definition get_result_path (st : ResultStorage) (trade_date selector_name : string)
    (fs : filesys) : filesys * res Path :=
  let date_dir := result_dir st // trade_date in
  match mkdir_parents fs date_dir with
  | (fs', Ok _) => (fs', Ok (date_dir // (selector_name +:+ ".json")))
  | (fs', Raise e) => (fs', Raise e)
  end.

Definition save_result (st : ResultStorage) (result : StockSelectionResult)
    (fs : filesys) : filesys * bool :=
  match get_result_path st (trade_date result) (selector_name result) fs with
  | (fs1, Ok result_path) =>
      let result_dict := result_dict result in
      match write_json fs1 result_path result_dict with
      | Ok fs2 => (fs2, true)
      | Raise _ => (fs1, false)
      end
  | (fs1, Raise _) => (fs1, false)
  end.

Definition load_result (st : ResultStorage) (trade_date selector_name : string)
    (fs : filesys) : filesys * option StockSelectionResult :=
  match get_result_path st trade_date selector_name fs with
  | (fs1, Ok result_path) =>
      if negb (exists_ fs1 result_path) then (fs1, None)
      else
        match read_json fs1 result_path with
        | Ok result_dict =>
            match validate result_dict with
            | Ok result => (fs1, Some result)
            | Raise _ => (fs1, None)
            end
        | Raise _ => (fs1, None)
        end
  | (fs1, Raise _) => (fs1, None)
  end.

Definition result_exists (st : ResultStorage) (trade_date selector_name : string)
    (fs : filesys) : filesys * res bool :=
  match get_result_path st trade_date selector_name fs with
  | (fs1, Ok result_path) => (fs1, Ok (exists_ fs1 result_path))
  | (fs1, Raise e) => (fs1, Raise e)
  end.

(** The body shared by the two loops of [load_all_results]. *)
Fixpoint load_each (st : ResultStorage) (trade_date : string) (names : list string)
    (fs : filesys) (results : gmap string StockSelectionResult)
  : filesys * gmap string StockSelectionResult :=
  match names with
  | [] => (fs, results)
  | selector_name :: rest =>
      match load_result st trade_date selector_name fs with
      | (fs1, Some result) =>
          load_each st trade_date rest fs1 (<[selector_name := result]> results)
      | (fs1, None) => load_each st trade_date rest fs1 results
      end
  end.

(** [if selector_names:] holds for a list that is given and not empty. *)
Definition truthy (selector_names : option (list string)) : bool :=
  match selector_names with
  | Some (_ :: _) => true
  | _ => false
  end.

Definition load_all_results (st : ResultStorage) (trade_date : string)
    (selector_names : option (list string)) (fs : filesys)
  : filesys * gmap string StockSelectionResult :=
  let date_dir := result_dir st // trade_date in
  if negb (exists_ fs date_dir) then (fs, ∅)
  else if truthy selector_names then
    load_each st trade_date (default [] selector_names) fs ∅
  else
    load_each st trade_date (map stem (glob_suffix fs date_dir ".json")) fs ∅.

Fixpoint collect_dates (fs : filesys) (entries : list Path) (dates : list string)
  : list string :=
  match entries with
  | [] => dates
  | date_dir :: rest =>
      if is_dir fs date_dir then
        match Datetime.strptime (name date_dir) with
        | Ok _ => collect_dates fs rest (dates ++ [name date_dir])
        | Raise _ => collect_dates fs rest dates
        end
      else collect_dates fs rest dates
  end.

Definition list_available_dates (st : ResultStorage) (fs : filesys) : res (list string) :=
  if negb (exists_ fs (result_dir st)) then Ok []
  else
    match iterdir fs (result_dir st) with
    | Ok entries => Ok (Datetime.sorted_reverse (collect_dates fs entries []))
    | Raise e => Raise e
    end.

End WithPydantic.

End Storage.

(** ** api_server.py: run_selection *)

Module Api.
Import Pathlib FS Pandas.

(** [class StockSelectionResult(BaseModel)], the response model. *)
Record StockSelectionResult : Type := mkResult {
  selector_name : string;
  alias : string;
  trade_date : string;
  selected_stocks : list string;
  scores : option (list (string * pyfloat));
  count : Z
}.

(** A strategy configuration: the keys [run_selection] reads, each absent
    or present. *)
Record Config : Type := mkConfig {
  cfg_class : option string;
  cfg_alias : option string;
  cfg_activate : option bool;
  cfg_params : list (string * json)
}.

(** [cfg.get("activate", True) is False] *)
Definition activate_is_False (cfg : Config) : bool :=
  match cfg_activate cfg with
  | Some false => true
  | _ => false
  end.

Definition Data : Type := list (string * DataFrame).

(** The attribute [last_scores] of a selector after [select] returned. *)
Inductive attribute : Type :=
| Missing
| IsDict (d : list (string * pyfloat))
| NotDict (v : json).

Inductive select_outcome : Type :=
| Returns (picks : list string) (last_scores : attribute)
| Raises (e : exn).

(** Modelled from the spec: the strategy handle of section 4.2, whose
    class lives in the absent module [Selector]; [select] returns the
    chosen instruments or fails, and may leave scores behind. *)
Record Selector : Type := mkSelector {
  select : Timestamp -> Data -> select_outcome
}.

(** Modelled from the spec: the functions imported from the absent module
    [select_stock] (sections 4.2 and 6). *)
Class Collaborators : Type := {
  instantiate_selector : Config -> res (string * Selector);
  load_data : filesys -> Path -> list string -> Data;
  load_config : filesys -> Path -> res (list Config)
}.

(** The calls a run makes on the strategies and on the store. *)
Inductive event : Type :=
| CallLoad (trade_date selector_name : string)
| CallSelect (alias : string)
| CallSave (result : Storage.StockSelectionResult).

Record state : Type := mkState { fs : filesys; calls : list event }.

(** The response model built from a stored record, field by field. *)
Definition of_cached (c : Storage.StockSelectionResult) : StockSelectionResult :=
  {| selector_name := Storage.selector_name c;
     alias := Storage.alias c;
     trade_date := Storage.trade_date c;
     selected_stocks := Storage.selected_stocks c;
     scores := Storage.scores c;
     count := Storage.count c |}.

(** The storage model built from a result, field by field. *)
Definition to_storage (r : StockSelectionResult) : Storage.StockSelectionResult :=
  {| Storage.selector_name := selector_name r;
     Storage.alias := alias r;
     Storage.trade_date := trade_date r;
     Storage.selected_stocks := selected_stocks r;
     Storage.scores := scores r;
     Storage.count := count r |}.

(** [hasattr(selector, "last_scores") and isinstance(..., dict)] *)
Definition scores_of (a : attribute) : option (list (string * pyfloat)) :=
  match a with
  | IsDict d => Some d
  | _ => None
  end.

Section WithCollaborators.
Context `{Storage.Pydantic} `{Collaborators}.

(** The cache probe of one iteration. *)
Definition check_cache (use_cache : bool) (storage : Storage.ResultStorage)
    (trade_date_str selector_name : string) (s : state)
  : state * option Storage.StockSelectionResult :=
  if use_cache then
    let '(fs1, cached_result) :=
      Storage.load_result storage trade_date_str selector_name (fs s) in
    (mkState fs1 (calls s ++ [CallLoad trade_date_str selector_name]), cached_result)
  else (s, None).

(** One iteration of [for cfg in cfgs]. *)
Definition loop_body (trade_date : Timestamp) (trade_date_str : string) (data : Data)
    (use_cache save_result : bool) (storage : Storage.ResultStorage)
    (cfg : Config) (s : state) (results : list StockSelectionResult)
  : state * list StockSelectionResult :=
  if activate_is_False cfg then (s, results)
  else
    match instantiate_selector cfg with
    | Raise _ => (s, results)
    | Ok (alias, selector) =>
        let selector_name := default "Unknown" (cfg_class cfg) in
        match check_cache use_cache storage trade_date_str selector_name s with
        | (s1, Some cached_result) => (s1, results ++ [of_cached cached_result])
        | (s1, None) =>
            let s2 := mkState (fs s1) (calls s1 ++ [CallSelect alias]) in
            match select selector trade_date data with
            | Raises _ => (s2, results)
            | Returns picks last_scores =>
                let result :=
                  {| selector_name := selector_name;
                     alias := alias;
                     trade_date := trade_date_str;
                     selected_stocks := picks;
                     scores := scores_of last_scores;
                     count := Z.of_nat (length picks) |} in
                if save_result then
                  let storage_result := to_storage result in
                  let '(fs3, _) := Storage.save_result storage storage_result (fs s2) in
                  (mkState fs3 (calls s2 ++ [CallSave storage_result]), results ++ [result])
                else (s2, results ++ [result])
            end
        end
    end.

Fixpoint run_loop (trade_date : Timestamp) (trade_date_str : string) (data : Data)
    (use_cache save_result : bool) (storage : Storage.ResultStorage)
    (cfgs : list Config) (s : state) (results : list StockSelectionResult)
  : state * list StockSelectionResult :=
  match cfgs with
  | [] => (s, results)
  | cfg :: rest =>
      let '(s', results') :=
        loop_body trade_date trade_date_str data use_cache save_result storage
                  cfg s results in
      run_loop trade_date trade_date_str data use_cache save_result storage
               rest s' results'
  end.

(** [max(df["date"].max() for df in data.values())], which raises on
    an empty sequence; a given date goes through [pd.to_datetime]
    unchanged. *)
Definition resolve_trade_date (trade_date : option Timestamp) (data : Data)
  : res Timestamp :=
  match trade_date with
  | None =>
      match map (fun kv => column_max (snd kv)) data with
      | [] => Raise ValueError
      | x :: rest => Ok (py_max x rest)
      end
  | Some t => Ok t
  end.

(** [run_selection]; [storage] is the manager the caller passes, or the
    global instance. *)
Definition run_selection (trade_date : option Timestamp) (data_dir config_path : Path)
    (tickers : option (list string)) (selector_configs : option (list Config))
    (use_cache save_result : bool) (storage : Storage.ResultStorage) (s : state)
  : state * res (list StockSelectionResult) :=
  if negb (exists_ (fs s) data_dir) then (s, Raise (HTTPException 404))
  else
    let codes :=
      match tickers with
      | None => map stem (glob_suffix (fs s) data_dir ".csv")
      | Some ts => ts
      end in
    match codes with
    | [] => (s, Raise (HTTPException 400))
    | _ :: _ =>
        let data := load_data (fs s) data_dir codes in
        match data with
        | [] => (s, Raise (HTTPException 404))
        | _ :: _ =>
            match resolve_trade_date trade_date data with
            | Raise e => (s, Raise e)
            | Ok trade_date =>
                match strftime trade_date with
                | Raise e => (s, Raise e)
                | Ok trade_date_str =>
                    let cfgs :=
                      match selector_configs with
                      | Some cs => Ok cs
                      | None => load_config (fs s) config_path
                      end in
                    match cfgs with
                    | Raise e => (s, Raise e)
                    | Ok cfgs =>
                        let '(s', results) :=
                          run_loop trade_date trade_date_str data use_cache
                                   save_result storage cfgs s [] in
                        (s', Ok results)
                    end
                end
            end
        end
    end.

End WithCollaborators.

End Api.

(** ** Predicates of the statements *)

Module Spec.
Import Pathlib.

(** A string that is one path component: it has no separator and is
    neither empty nor [.]. *)
Definition is_component (s : string) : bool :=
  negb (Str.has_char Str.slash s) && keep_part s.

(** A string without path separator. *)
Definition no_slash (s : string) : bool := negb (Str.has_char Str.slash s).

(** The date form of the specification: [YYYY-MM-DD], four digits, two
    digits, two digits, naming a day that exists. *)
Definition is_iso_date (s : string) : bool :=
  match s with
  | String y1 (String y2 (String y3 (String y4 (String s1
      (String m1 (String m2 (String s2 (String d1 (String d2 EmptyString))))))))) =>
      match Datetime.digit_val y1, Datetime.digit_val y2, Datetime.digit_val y3,
            Datetime.digit_val y4, Datetime.digit_val m1, Datetime.digit_val m2,
            Datetime.digit_val d1, Datetime.digit_val d2 with
      | Some a, Some b, Some c, Some d, Some e, Some f, Some g, Some h =>
          let y := 1000 * a + 100 * b + 10 * c + d in
          let m := 10 * e + f in
          let dd := 10 * g + h in
          Ascii.eqb s1 "-"%char && Ascii.eqb s2 "-"%char &&
          (1 <=? y) && (1 <=? m) && (m <=? 12) &&
          (1 <=? dd) && (dd <=? Datetime.days_in_month y m)
      | _, _, _, _, _, _, _, _ => false
      end
  | _ => false
  end.

(** Whether a location holds a directory, and the content of the file
    it holds. *)
Definition dirb (o : option FS.node) : bool :=
  match o with
  | Some (FS.Dir _) => true
  | _ => false
  end.

Definition fileof (o : option FS.node) : option FS.content :=
  match o with
  | Some (FS.File c) => Some c
  | _ => None
  end.

(** A node without entries below it. *)
Definition leaf (n : FS.node) : Prop :=
  match n with
  | FS.File _ => True
  | FS.Dir ents => ents = []
  end.

(** [fs'] has the working directory and at least the directories of
    [fs]. *)
Definition dirs_kept (fs fs' : FS.filesys) : Prop :=
  FS.fs_cwd fs' = FS.fs_cwd fs /\
  (forall l, dirb (FS.find (FS.fs_root fs) l) = true ->
             dirb (FS.find (FS.fs_root fs') l) = true).

(** [fs'] has, besides, exactly the files of [fs]. *)
Definition extends (fs fs' : FS.filesys) : Prop :=
  dirs_kept fs fs' /\
  (forall l, fileof (FS.find (FS.fs_root fs') l) = fileof (FS.find (FS.fs_root fs) l)).

(** The order of a descending list of strings. *)
Definition desc (a b : string) : Prop := String.leb b a = true.




(** [m] is the latest date of the loaded series: some series has it and
    none has a later one. *)
Definition latest_date (data : Api.Data) (m : Z) : Prop :=
  (exists kv, In kv data /\ In m (Pandas.date_column (snd kv))) /\
  (forall kv d, In kv data -> In d (Pandas.date_column (snd kv)) -> d <= m).

(** The latest date of one frame that has dates. *)
Definition frame_max (df : Pandas.DataFrame) : Z :=
  match Pandas.date_column df with
  | [] => 0
  | x :: xs => fold_left Z.max xs x
  end.

(** The result built after a successful [select]. *)
Definition fresh_result (trade_date_str selector_name alias : string)
    (picks : list string) (last_scores : Api.attribute) : Api.StockSelectionResult :=
  {| Api.selector_name := selector_name;
     Api.alias := alias;
     Api.trade_date := trade_date_str;
     Api.selected_stocks := picks;
     Api.scores := Api.scores_of last_scores;
     Api.count := Z.of_nat (length picks) |}.

(** The instrument universe a run resolves. *)
Definition codes_of (fs : FS.filesys) (data_dir : Pathlib.Path)
    (tickers : option (list string)) : list string :=
  match tickers with
  | None => map Pathlib.stem (FS.glob_suffix fs data_dir ".csv")
  | Some ts => ts
  end.

(** The conditions under which [run_selection] gets to its loop with the
    date [ts], its text [str] and the loaded [data]. *)
Definition reaches_loop `{Api.Collaborators} (trade_date : option Pandas.Timestamp)
    (data_dir : Pathlib.Path) (tickers : option (list string)) (s : Api.state)
    (ts : Pandas.Timestamp) (str : string) (data : Api.Data) : Prop :=
  FS.exists_ (Api.fs s) data_dir = true /\
  codes_of (Api.fs s) data_dir tickers <> [] /\
  data = Api.load_data (Api.fs s) data_dir (codes_of (Api.fs s) data_dir tickers) /\
  data <> [] /\
  Api.resolve_trade_date trade_date data = Ok ts /\
  Pandas.strftime ts = Ok str.

End Spec.

(** ** Concrete stores and records *)

Module Scenario.
Import Pathlib FS Storage.

(** A pydantic that converts nothing. *)
Definition strict : Pydantic := {| coerce := fun _ => Raise ValidationError |}.

(** The global storage manager, [ResultStorage(Path("./result"))]. *)
Definition store : ResultStorage := mkStorage (parse "./result").

(** The application directory with an empty result directory. *)
Definition fs_fresh : filesys :=
  mkFs (Dir [("app", Dir [("result", Dir [])])]) ["app"].

Definition record (selector_name : string) : StockSelectionResult :=
  {| selector_name := selector_name;
     alias := "A";
     trade_date := "2024-01-10";
     selected_stocks := ["000001"; "600000"];
     scores := None;
     count := 2 |}.

(** The store after [save_result(record("X"))]. *)
Definition fs_with_X : filesys := fst (save_result store (record "X") fs_fresh).

(** The partitions of the listing example, and a file among them. *)
Definition fs_listing : filesys :=
  mkFs (Dir [("app", Dir [("result",
          Dir [("2024-01-10", Dir []);
               ("not-a-date", Dir []);
               ("2024-02-01", Dir []);
               ("2024-03-01", File (Garbage ""))])])]) ["app"].

(** A result directory in which a plain file has the name of a date. *)
Definition fs_blocked : filesys :=
  mkFs (Dir [("app", Dir [("result", Dir [("2024-01-10", File (Garbage ""))])])]) ["app"].

(** A partition whose name has no zero padding. *)
Definition fs_unpadded : filesys :=
  mkFs (Dir [("app", Dir [("result", Dir [("2024-1-5", Dir [])])])]) ["app"].

(** The application directory with a data directory as well. *)
Definition fs_app : filesys :=
  mkFs (Dir [("app", Dir [("data", Dir []); ("result", Dir [])])]) ["app"].



(** Three series whose latest dates are 2024-01-10, 2024-01-12 and
    2024-01-11. *)
Definition market : Api.Data :=
  [ ("000001", Pandas.mkFrame [Pandas.days_from_civil 2024 1 9 * Pandas.ns_per_day;
                               Pandas.days_from_civil 2024 1 10 * Pandas.ns_per_day]);
    ("000002", Pandas.mkFrame [Pandas.days_from_civil 2024 1 12 * Pandas.ns_per_day;
                               Pandas.days_from_civil 2024 1 11 * Pandas.ns_per_day]);
    ("600000", Pandas.mkFrame [Pandas.days_from_civil 2024 1 11 * Pandas.ns_per_day]) ].

(** A strategy that picks the given instruments and leaves no scores, and
    one whose [select] fails. *)
Definition picking (picks : list string) : Api.Selector :=
  Api.mkSelector (fun _ _ => Api.Returns picks Api.Missing).

Definition failing : Api.Selector :=
  Api.mkSelector (fun _ _ => Api.Raises StrategyError).

(** Collaborators: the class [Boom] fails in [select], every other class
    picks one instrument; every code of [market] loads. *)
Definition stubs : Api.Collaborators :=
  {| Api.instantiate_selector cfg :=
       match Api.cfg_class cfg with
       | Some cls =>
           Ok (default cls (Api.cfg_alias cfg),
               if String.eqb cls "Boom" then failing else picking ["000001"])
       | None => Raise StrategyError
       end;
     Api.load_data _ _ codes :=
       List.filter (fun kv => existsb (String.eqb (fst kv)) codes) market;
     Api.load_config _ _ := Ok [] |}.

Definition config (cls : string) : Api.Config :=
  Api.mkConfig (Some cls) None None [].

Definition begin (fs : filesys) : Api.state := Api.mkState fs [].

Definition data_dir : Path := parse "./data".
Definition config_path : Path := parse "./configs.json".
Definition tickers : option (list string) := Some ["000001"; "000002"; "600000"].

(** A run of [run_selection] on the stubs, with the cache and saving on. *)
Definition run (trade_date : option Pandas.Timestamp) (cfgs : list Api.Config)
    (fs : filesys) : Api.state * res (list Api.StockSelectionResult) :=
  @Api.run_selection strict stubs trade_date data_dir config_path tickers (Some cfgs)
    true true store (begin fs).

End Scenario.

(** ** A market whose first series has no rows *)

Module Sparse.
Import Pathlib FS.

(** Three series: the first without a date, as a file that holds its
    header only loads; the others with the latest dates 2024-01-12 and
    2024-01-10. *)
Definition sparse_market : Api.Data :=
  [ ("000001", Pandas.mkFrame []);
    ("000002", Pandas.mkFrame [Pandas.days_from_civil 2024 1 12 * Pandas.ns_per_day;
                               Pandas.days_from_civil 2024 1 11 * Pandas.ns_per_day]);
    ("600000", Pandas.mkFrame [Pandas.days_from_civil 2024 1 10 * Pandas.ns_per_day]) ].

(** The same series with the one without dates in the middle. *)
Definition sparse_market_mid : Api.Data :=
  [ ("000002", Pandas.mkFrame [Pandas.days_from_civil 2024 1 12 * Pandas.ns_per_day;
                               Pandas.days_from_civil 2024 1 11 * Pandas.ns_per_day]);
    ("000001", Pandas.mkFrame []);
    ("600000", Pandas.mkFrame [Pandas.days_from_civil 2024 1 10 * Pandas.ns_per_day]) ].

(** The collaborators of [Scenario.stubs], loading [sparse_market]. *)
Definition sparse_stubs : Api.Collaborators :=
  {| Api.instantiate_selector := @Api.instantiate_selector Scenario.stubs;
     Api.load_data _ _ codes :=
       List.filter (fun kv => existsb (String.eqb (fst kv)) codes) sparse_market;
     Api.load_config := @Api.load_config Scenario.stubs |}.

(** A run of [run_selection] on these, without a date given. *)
Definition sparse_run (cfgs : list Api.Config) (fs : filesys)
  : Api.state * res (list Api.StockSelectionResult) :=
  @Api.run_selection Scenario.strict sparse_stubs None Scenario.data_dir
    Scenario.config_path Scenario.tickers (Some cfgs) true true Scenario.store
    (Scenario.begin fs).

End Sparse.

(** ** result_storage.py: the remaining methods *)

Module StorageRest.
Import Pathlib FS Storage.

(** [sorted(l)] on strings: ascending code-point order. *)
Fixpoint insert_asc (x : string) (l : list string) : list string :=
  match l with
  | [] => [x]
  | y :: l' => if String.leb x y then x :: l else y :: insert_asc x l'
  end.

Definition sorted (l : list string) : list string := fold_right insert_asc [] l.

(** The loop of [save_all_results]: [status[result.selector_name] =
    self.save_result(result)]. *)
Fixpoint save_each (st : ResultStorage) (results : list StockSelectionResult)
    (fs : filesys) (status : gmap string bool) : filesys * gmap string bool :=
  match results with
  | [] => (fs, status)
  | result :: rest =>
      let '(fs1, ok) := save_result st result fs in
      save_each st rest fs1 (<[selector_name result := ok]> status)
  end.

Definition save_all_results (st : ResultStorage) (results : list StockSelectionResult)
    (fs : filesys) : filesys * gmap string bool :=
  save_each st results fs ∅.

Definition list_available_selectors (st : ResultStorage) (trade_date : string)
    (fs : filesys) : list string :=
  let date_dir := result_dir st // trade_date in
  if negb (exists_ fs date_dir) then []
  else sorted (map stem (glob_suffix fs date_dir ".json")).

End StorageRest.

(** ** The store seen through its locations *)

Module View.
Import Pathlib FS Spec Storage.

(** The result directory resolves to the location [rl], a directory. *)
Definition root_at (st : ResultStorage) (fs : filesys) (rl : loc) : Prop :=
  resolve fs (result_dir st) = Ok rl /\ dirb (find (fs_root fs) rl) = true.

(** A string that names one directory entry. *)
Definition is_name (d : string) : bool :=
  is_component d && negb (String.eqb d "..").

(** Where the record of an address lies under the result directory. *)
Definition slot_loc (rl : loc) (d n : string) : loc := rl ++ [d; n +:+ ".json"].

(** What [load_result] makes of the content of a file. *)
Definition decodef `{Pydantic} (c : option content) : option StockSelectionResult :=
  match c with
  | Some (Document v) =>
      match validate v with
      | Ok r => Some r
      | Raise _ => None
      end
  | _ => None
  end.

(** A plain file has the name of the partition of the date. *)
Definition blocked (fs : filesys) (rl : loc) (d : string) : bool :=
  match fileof (find (fs_root fs) (rl ++ [d])) with
  | Some _ => true
  | None => false
  end.

(** The order of an ascending list of strings. *)
Definition asc (a b : string) : Prop := String.leb a b = true.

(** The answer of the cache at an address. *)
Definition cached `{Pydantic} (st : ResultStorage) (d n : string) (fs : filesys)
  : option StockSelectionResult :=
  snd (load_result st d n fs).

(** Nothing stands in the way of saving a record at an address: no plain
    file has the name of the partition, no directory that of the record. *)
Definition free (fs : filesys) (rl : loc) (d k : string) : bool :=
  negb (blocked fs rl d) && negb (dirb (find (fs_root fs) (slot_loc rl d k))).

(** Something has the name of the partition of the date. *)
Definition settled (fs : filesys) (rl : loc) (d : string) : bool :=
  match find (fs_root fs) (rl ++ [d]) with
  | Some _ => true
  | None => false
  end.

(** [fs1] answers as [fs] does, at every address but [(d0, k0)]. *)
Definition same_except `{Pydantic} (st : ResultStorage) (rl : loc) (d0 k0 : string)
    (fs fs1 : filesys) : Prop :=
  root_at st fs1 rl /\
  (forall d k, free fs1 rl d k = free fs rl d k) /\
  (forall d n, is_name d = true -> no_slash n = true -> (d, n) <> (d0, k0) ->
               cached st d n fs1 = cached st d n fs).

(** [fs1] answers as [fs] does. *)
Definition same_view `{Pydantic} (st : ResultStorage) (rl : loc) (fs fs1 : filesys) : Prop :=
  root_at st fs1 rl /\
  (forall d k, free fs1 rl d k = free fs rl d k) /\
  (forall d n, is_name d = true -> no_slash n = true ->
               cached st d n fs1 = cached st d n fs).

End View.

(** ** The loop of run_selection seen through the cache *)

Module Run.
Import Api.

(** [cfg.get("class", "Unknown")]: the identifier under which the result
    of a configuration is cached. *)
Definition key (cfg : Config) : string := default "Unknown" (cfg_class cfg).

(** A configuration the loop does not skip: it is not deactivated and its
    selector can be built. *)
Definition effective `{Collaborators} (cfg : Config) : bool :=
  negb (activate_is_False cfg) &&
  match instantiate_selector cfg with
  | Ok _ => true
  | Raise _ => false
  end.

Definition is_select (e : event) : bool :=
  match e with
  | CallSelect _ => true
  | _ => false
  end.

End Run.

(** ** api_server.py: the endpoints that read the store *)

Module Endpoints.
Import Pathlib FS Api.

Definition DEFAULT_RESULT_DIR : Path := parse "./result".

(** The global [result_storage], once [ResultStorage(DEFAULT_RESULT_DIR)]
    has constructed it. *)
Definition result_storage : Storage.ResultStorage := Storage.mkStorage DEFAULT_RESULT_DIR.

(** The body of the answer of [GET /results/dates]. *)
Record DatesResponse : Type := mkDates {
  dates_success : bool;
  dates : list string;
  dates_count : Z
}.

Section WithPydantic.
Context `{Storage.Pydantic}.

(** [get_result_dates]: every exception becomes the status 500. *)
Definition get_result_dates (fs : filesys) : res DatesResponse :=
  match Storage.list_available_dates result_storage fs with
  | Ok dates => Ok (mkDates true dates (Z.of_nat (length dates)))
  | Raise _ => Raise (HTTPException 500)
  end.


End WithPydantic.

End Endpoints.

(** * Properties *)

(** ** Strings and paths *)

Module StrFacts.
Import Str.

Lemma split_on_no_sep (sep : ascii) (s : string) :
  has_char sep s = false -> split_on sep s = [s].
Proof.
  induction s as [|a s IH]; simpl; [reflexivity|].
  intros Hs. apply orb_false_iff in Hs as [Ha Hs].
  rewrite Ha, (IH Hs). reflexivity.
Qed.

Lemma has_char_app (c : ascii) (s1 s2 : string) :
  has_char c (s1 +:+ s2) = has_char c s1 || has_char c s2.
Proof.
  induction s1 as [|a s1 IH]; simpl; [reflexivity|].
  rewrite IH, orb_assoc. reflexivity.
Qed.

Lemma length_app (s1 s2 : string) :
  String.length (s1 +:+ s2) = (String.length s1 + String.length s2)%nat.
Proof. induction s1 as [|a s1 IH]; simpl; [reflexivity|]. now rewrite IH. Qed.

(** Appending the same suffix to two strings keeps them apart. *)
Lemma app_inj_r (s1 s2 suf : string) : s1 +:+ suf = s2 +:+ suf -> s1 = s2.
Proof.
  revert s2. induction s1 as [|a s1 IH]; intros [|b s2] Heq; simpl in Heq.
  - reflexivity.
  - apply (f_equal String.length) in Heq.
    rewrite !length_app in Heq. simpl in Heq. lia.
  - apply (f_equal String.length) in Heq.
    rewrite !length_app in Heq. simpl in Heq. lia.
  - change (String a (s1 +:+ suf) = String b (s2 +:+ suf)) in Heq.
    injection Heq as -> Heq. f_equal. now apply IH.
Qed.

End StrFacts.

Module PathlibFacts.
Import Pathlib Spec.

Lemma splitroot_no_slash (s : string) :
  no_slash s = true -> splitroot s = (Relative, s).
Proof.
  unfold no_slash, splitroot. destruct s as [|a s]; simpl; [reflexivity|].
  destruct (Ascii.eqb a Str.slash); simpl; [discriminate | reflexivity].
Qed.

(** A component parses to itself. *)
Lemma parse_component (s : string) :
  is_component s = true -> parse s = mkPath Relative [s].
Proof.
  unfold is_component. intros [Hs Hk]%andb_true_iff.
  unfold parse. rewrite (splitroot_no_slash s Hs).
  rewrite StrFacts.split_on_no_sep by (now apply negb_true_iff).
  simpl. now rewrite Hk.
Qed.

Lemma json_name_component (n : string) :
  no_slash n = true -> is_component (n +:+ ".json") = true.
Proof.
  unfold no_slash, is_component. intros Hn.
  apply andb_true_iff. split.
  - rewrite StrFacts.has_char_app. apply negb_true_iff in Hn. now rewrite Hn.
  - unfold keep_part. apply andb_true_iff.
    split; apply negb_true_iff, String.eqb_neq; intros Heq;
      apply (f_equal String.length) in Heq;
      rewrite StrFacts.length_app in Heq; simpl in Heq; lia.
Qed.

Lemma joinpath_component (p : Path) (s : string) :
  is_component s = true -> p // s = mkPath (p_anchor p) (p_parts p ++ [s]).
Proof. intros Hs. unfold joinpath. now rewrite (parse_component s Hs). Qed.

(** A component followed by a file name, under any base. *)
Lemma location_parts (p : Path) (d n : string) :
  is_component d = true -> no_slash n = true ->
  p // d // (n +:+ ".json")
  = mkPath (p_anchor p) (p_parts p ++ [d; n +:+ ".json"]).
Proof.
  intros Hd Hn. rewrite (joinpath_component p d Hd).
  rewrite joinpath_component by now apply json_name_component.
  simpl. now rewrite <- app_assoc.
Qed.

End PathlibFacts.

(** ** Dates *)

Module DatetimeFacts.
Import Datetime Spec.

Lemma digit_val_range (c : ascii) (v : Z) : digit_val c = Some v -> 0 <= v <= 9.
Proof.
  unfold digit_val.
  destruct ((48 <=? nat_of_ascii c)%nat && (nat_of_ascii c <=? 57)%nat) eqn:E;
    [|discriminate].
  intros [= <-]. apply andb_true_iff in E as [E1 E2].
  apply Nat.leb_le in E1, E2. lia.
Qed.

Lemma digit_not_slash (c : ascii) (v : Z) :
  digit_val c = Some v -> Ascii.eqb c Str.slash = false.
Proof.
  intros Hv. destruct (Ascii.eqb_spec c Str.slash) as [->|]; [|reflexivity].
  vm_compute in Hv. discriminate.
Qed.

Lemma two_digits (lo1 hi1 lo2 hi2 : Z) (a b : ascii) (x y : Z) (r : string) :
  digit_val a = Some x -> digit_val b = Some y ->
  two lo1 hi1 lo2 hi2 (String a (String b r))
  = if (lo1 <=? x) && (x <=? hi1) && ((lo2 <=? y) && (y <=? hi2))
    then [(10 * x + y, r)] else [].
Proof.
  intros Ha Hb. unfold two, digit_in. rewrite Ha, Hb.
  destruct ((lo1 <=? x) && (x <=? hi1)); [|reflexivity].
  now destruct ((lo2 <=? y) && (y <=? hi2)).
Qed.

Ltac by_digits :=
  repeat match goal with
         | |- context [(?a <=? ?b)] => destruct (Z.leb_spec a b); try lia
         end;
  simpl; eauto.

(** A two-digit month is read by the first alternative that fits it. *)
Lemma re_m_two_digits (a b : ascii) (x y : Z) (r : string) :
  digit_val a = Some x -> digit_val b = Some y -> 1 <= 10 * x + y <= 12 ->
  exists more, re_m (String a (String b r)) = (10 * x + y, r) :: more.
Proof.
  intros Ha Hb Hm. pose proof (digit_val_range a x Ha). pose proof (digit_val_range b y Hb).
  unfold re_m. rewrite !(two_digits _ _ _ _ a b x y r Ha Hb).
  assert (x = 0 \/ x = 1) as [->| ->] by lia; by_digits.
Qed.

Lemma re_d_two_digits (a b : ascii) (x y : Z) :
  digit_val a = Some x -> digit_val b = Some y -> 1 <= 10 * x + y <= 31 ->
  exists more, re_d (String a (String b "")) = (10 * x + y, "") :: more.
Proof.
  intros Ha Hb Hm. pose proof (digit_val_range a x Ha). pose proof (digit_val_range b y Hb).
  unfold re_d. rewrite !(two_digits _ _ _ _ a b x y "" Ha Hb).
  assert (x = 0 \/ x = 1 \/ x = 2 \/ x = 3) as [->|[->|[->| ->]]] by lia; by_digits.
Qed.

Lemma days_in_month_le (y m : Z) : days_in_month y m <= 31.
Proof.
  unfold days_in_month.
  destruct (m =? 2); [destruct (is_leap y); lia|].
  destruct ((m =? 4) || (m =? 6) || (m =? 9) || (m =? 11)); lia.
Qed.

(** The shape of a string in the date form of the specification. *)
Lemma is_iso_date_inv (s : string) :
  is_iso_date s = true ->
  exists y1 y2 y3 y4 m1 m2 d1 d2 a b c d e f g h,
    s = String y1 (String y2 (String y3 (String y4 (String "-"
          (String m1 (String m2 (String "-" (String d1 (String d2 ""))))))))) /\
    digit_val y1 = Some a /\ digit_val y2 = Some b /\ digit_val y3 = Some c /\
    digit_val y4 = Some d /\ digit_val m1 = Some e /\ digit_val m2 = Some f /\
    digit_val d1 = Some g /\ digit_val d2 = Some h /\
    1 <= 1000 * a + 100 * b + 10 * c + d /\
    1 <= 10 * e + f <= 12 /\
    1 <= 10 * g + h <= days_in_month (1000 * a + 100 * b + 10 * c + d) (10 * e + f).
Proof.
  unfold is_iso_date.
  destruct s as [|y1 [|y2 [|y3 [|y4 [|s1 [|m1 [|m2 [|s2 [|d1 [|d2 [|? ?]]]]]]]]]]];
    try discriminate.
  destruct (digit_val y1) as [a|] eqn:E1; [|discriminate].
  destruct (digit_val y2) as [b|] eqn:E2; [|discriminate].
  destruct (digit_val y3) as [c|] eqn:E3; [|discriminate].
  destruct (digit_val y4) as [d|] eqn:E4; [|discriminate].
  destruct (digit_val m1) as [e|] eqn:E5; [|discriminate].
  destruct (digit_val m2) as [f|] eqn:E6; [|discriminate].
  destruct (digit_val d1) as [g|] eqn:E7; [|discriminate].
  destruct (digit_val d2) as [h|] eqn:E8; [|discriminate].
  intros Hb. repeat (apply andb_true_iff in Hb as [Hb ?]).
  apply Ascii.eqb_eq in Hb. subst s1.
  match goal with Hs : Ascii.eqb s2 _ = true |- _ => apply Ascii.eqb_eq in Hs; subst s2 end.
  repeat match goal with Hle : (_ <=? _) = true |- _ => apply Z.leb_le in Hle end.
  exists y1, y2, y3, y4, m1, m2, d1, d2, a, b, c, d, e, f, g, h.
  repeat split; assumption.
Qed.

(** [strptime] accepts every string of the specification's date form. *)
Lemma strptime_iso_date (s : string) :
  is_iso_date s = true -> exists ymd, strptime s = Ok ymd.
Proof.
  intros Hs.
  destruct (is_iso_date_inv s Hs)
    as (y1 & y2 & y3 & y4 & m1 & m2 & d1 & d2 & a & b & c & d & e & f & g & h &
        -> & E1 & E2 & E3 & E4 & E5 & E6 & E7 & E8 & Hy & Hm & Hd).
  pose proof (days_in_month_le (1000 * a + 100 * b + 10 * c + d) (10 * e + f)) as Hle.
  destruct (re_m_two_digits m1 m2 e f (String "-" (String d1 (String d2 ""))) E5 E6 Hm)
    as [mm Hrm].
  destruct (re_d_two_digits d1 d2 g h E7 E8 ltac:(lia)) as [dm Hrd].
  exists (1000 * a + 100 * b + 10 * c + d, 10 * e + f, 10 * g + h).
  unfold strptime, regex_match, re_Y. rewrite E1, E2, E3, E4.
  cbn [dash Ascii.eqb Bool.eqb]. rewrite Hrm. cbn [first_some dash Ascii.eqb Bool.eqb].
  rewrite Hrd. cbn [String.eqb negb].
  destruct (Z.leb_spec 1 (1000 * a + 100 * b + 10 * c + d)); [|lia].
  destruct (Z.leb_spec (10 * g + h)
              (days_in_month (1000 * a + 100 * b + 10 * c + d) (10 * e + f))); [|lia].
  reflexivity.
Qed.

(** Such a string is one path component, and not [..]. *)
Lemma iso_date_component (s : string) :
  is_iso_date s = true -> is_component s = true /\ s <> "..".
Proof.
  intros Hs.
  destruct (is_iso_date_inv s Hs)
    as (y1 & y2 & y3 & y4 & m1 & m2 & d1 & d2 & a & b & c & d & e & f & g & h &
        -> & E1 & E2 & E3 & E4 & E5 & E6 & E7 & E8 & _).
  split; [|discriminate].
  unfold is_component, Pathlib.keep_part. cbn [Str.has_char String.eqb].
  rewrite (digit_not_slash _ _ E1), (digit_not_slash _ _ E2), (digit_not_slash _ _ E3),
    (digit_not_slash _ _ E4), (digit_not_slash _ _ E5), (digit_not_slash _ _ E6),
    (digit_not_slash _ _ E7), (digit_not_slash _ _ E8).
  cbn. now destruct (Ascii.eqb y1 ".").
Qed.

Lemma insert_desc_In (x y : string) (l : list string) :
  In y (insert_desc x l) <-> y = x \/ In y l.
Proof.
  induction l as [|z l IH]; simpl; [intuition|].
  destruct (String.leb z x); simpl; rewrite ?IH; intuition.
Qed.

(** Sorting neither drops nor invents a name. *)
Lemma sorted_reverse_In (y : string) (l : list string) :
  In y (sorted_reverse l) <-> In y l.
Proof.
  induction l as [|x l IH]; simpl; [tauto|].
  rewrite insert_desc_In, IH. intuition.
Qed.

Lemma insert_desc_sorted (x : string) (l : list string) :
  Sorted desc l -> Sorted desc (insert_desc x l).
Proof.
  induction l as [|y l IH]; intros Hs; simpl.
  - repeat constructor.
  - destruct (String.leb y x) eqn:E.
    + constructor; [exact Hs | constructor; exact E].
    + inversion Hs as [|? ? Hs' Hhd]; subst. constructor; [now apply IH|].
      assert (Hxy : desc y x).
      { unfold desc. destruct (String.leb_total x y) as [Hl|Hl]; [exact Hl | congruence]. }
      destruct l as [|z l]; simpl; [constructor; exact Hxy|].
      destruct (String.leb z x); constructor; [exact Hxy|].
      now inversion Hhd.
Qed.

(** [sorted(..., reverse=True)] gives a descending list. *)
Lemma sorted_reverse_sorted (l : list string) : Sorted desc (sorted_reverse l).
Proof.
  induction l as [|x l IH]; simpl; [constructor | now apply insert_desc_sorted].
Qed.

End DatetimeFacts.

(** ** The file system *)

Module FSFacts.
Import Pathlib FS Spec.

Lemma assoc_set_eq (k : string) (v : node) (l : list (string * node)) :
  assoc k (assoc_set k v l) = Some v.
Proof.
  induction l as [|[k' v'] l IH]; simpl.
  - now rewrite String.eqb_refl.
  - destruct (String.eqb k' k) eqn:E; simpl.
    + now rewrite String.eqb_refl.
    + now rewrite E.
Qed.

Lemma assoc_set_ne (k k' : string) (v : node) (l : list (string * node)) :
  k' <> k -> assoc k' (assoc_set k v l) = assoc k' l.
Proof.
  intros Hne. induction l as [|[k0 v0] l IH]; simpl.
  - apply String.eqb_neq in Hne. rewrite String.eqb_sym in Hne. now rewrite Hne.
  - destruct (String.eqb k0 k) eqn:E; simpl.
    + apply String.eqb_eq in E as ->.
      apply String.eqb_neq in Hne. rewrite String.eqb_sym in Hne. now rewrite Hne.
    + now rewrite IH.
Qed.


Lemma find_app (t : node) (l : loc) (c : string) :
  find t (l ++ [c])
  = match find t l with
    | Some (Dir ents) => assoc c ents
    | _ => None
    end.
Proof.
  revert t. induction l as [|x l IH]; intros t; simpl.
  - destruct t as [?|ents]; [reflexivity|]. now destruct (assoc c ents).
  - destruct t as [?|ents]; [reflexivity|].
    destruct (assoc x ents); [apply IH | reflexivity].
Qed.

(** The node put at a location is found there. *)
Lemma find_insert_at (l : loc) : forall t n t',
  insert_at t l n = Some t' -> find t' l = Some n.
Proof.
  induction l as [|c l IH]; intros t n t' Hi; simpl in Hi; [discriminate|].
  destruct t as [?|ents]; [discriminate|].
  destruct l as [|c1 l1].
  - injection Hi as <-. simpl. now rewrite assoc_set_eq.
  - destruct (assoc c ents) as [t1|] eqn:Ea; [|discriminate].
    destruct (insert_at t1 (c1 :: l1) n) as [t1'|] eqn:Ei; [|discriminate].
    injection Hi as <-. cbn [find]. rewrite assoc_set_eq. now apply IH with t1.
Qed.

(** Putting a node where no directory was keeps every directory. *)
Lemma insert_at_dirs (l : loc) : forall t n t' l',
  insert_at t l n = Some t' -> dirb (find t l) = false ->
  dirb (find t l') = true -> dirb (find t' l') = true.
Proof.
  induction l as [|c l IH]; intros t n t' l' Hi Hold Hd; simpl in Hi; [discriminate|].
  destruct t as [?|ents]; [discriminate|].
  destruct l as [|c1 l1].
  - injection Hi as <-. destruct l' as [|c' l'']; [reflexivity|].
    cbn [find] in *. destruct (String.eqb_spec c' c) as [->|Hne].
    + destruct (assoc c ents) as [[?|e1]|]; try discriminate.
      destruct l''; simpl in Hd; discriminate.
    + now rewrite assoc_set_ne.
  - destruct (assoc c ents) as [t1|] eqn:Ea; [|discriminate].
    destruct (insert_at t1 (c1 :: l1) n) as [t1'|] eqn:Ei; [|discriminate].
    injection Hi as <-. destruct l' as [|c' l'']; [reflexivity|].
    cbn [find] in Hold, Hd |- *. rewrite Ea in Hold.
    destruct (String.eqb_spec c' c) as [->|Hne].
    + rewrite assoc_set_eq. rewrite Ea in Hd. now apply IH with t1 n.
    + now rewrite assoc_set_ne.
Qed.

(** Putting a leaf where no directory was changes the file read at that
    location only. *)
Lemma insert_at_files (l : loc) : forall t n t' l',
  insert_at t l n = Some t' -> dirb (find t l) = false -> leaf n ->
  fileof (find t' l') = if decide (l' = l) then fileof (Some n) else fileof (find t l').
Proof.
  induction l as [|c l IH]; intros t n t' l' Hi Hold Hn; simpl in Hi; [discriminate|].
  destruct t as [?|ents]; [discriminate|].
  destruct l as [|c1 l1].
  - injection Hi as <-. destruct l' as [|c' l''].
    + now rewrite decide_False by discriminate.
    + cbn [find] in *. destruct (String.eqb_spec c' c) as [->|Hne].
      * rewrite assoc_set_eq. destruct l'' as [|c2 l2].
        -- now rewrite decide_True.
        -- rewrite decide_False by discriminate.
           destruct (assoc c ents) as [[?|e1]|]; try discriminate; simpl.
           ++ destruct n as [?|e]; [reflexivity|]. simpl in Hn. now subst e.
           ++ destruct n as [?|e]; [reflexivity|]. simpl in Hn. now subst e.
      * rewrite assoc_set_ne by assumption.
        now rewrite decide_False by congruence.
  - destruct (assoc c ents) as [t1|] eqn:Ea; [|discriminate].
    destruct (insert_at t1 (c1 :: l1) n) as [t1'|] eqn:Ei; [|discriminate].
    injection Hi as <-. destruct l' as [|c' l''].
    + now rewrite decide_False by discriminate.
    + cbn [find] in Hold |- *. rewrite Ea in Hold.
      destruct (String.eqb_spec c' c) as [->|Hne].
      * rewrite assoc_set_eq, Ea. rewrite (IH t1 n t1' l'' Ei Hold Hn).
        destruct (decide (l'' = c1 :: l1)) as [->|Hne'].
        -- now rewrite !decide_True by reflexivity.
        -- now rewrite !decide_False by congruence.
      * rewrite assoc_set_ne by assumption.
        now rewrite decide_False by congruence.
Qed.

(** Resolution only asks which locations are directories. *)
Lemma walk_mono (t t' : node) (ps : list string) : forall cur l,
  (forall x, dirb (find t x) = true -> dirb (find t' x) = true) ->
  walk t cur ps = Ok l -> walk t' cur ps = Ok l.
Proof.
  induction ps as [|c ps IH]; intros cur l Hm Hw; simpl in *; [assumption|].
  specialize (Hm cur) as Hc.
  destruct (find t cur) as [[?|ents]|]; try discriminate.
  specialize (Hc eq_refl). destruct (find t' cur) as [[?|ents']|]; try discriminate.
  now apply IH.
Qed.

Lemma walk_app (t : node) (ps qs : list string) : forall cur,
  walk t cur (ps ++ qs)
  = match walk t cur ps with
    | Ok l => walk t l qs
    | Raise e => Raise e
    end.
Proof.
  induction ps as [|c ps IH]; intros cur; simpl; [reflexivity|].
  destruct (find t cur) as [[?|ents]|]; try reflexivity. apply IH.
Qed.

Lemma dirs_kept_refl (fs : filesys) : dirs_kept fs fs.
Proof. split; auto. Qed.

Lemma dirs_kept_trans (fs1 fs2 fs3 : filesys) :
  dirs_kept fs1 fs2 -> dirs_kept fs2 fs3 -> dirs_kept fs1 fs3.
Proof. intros [H1 H2] [H3 H4]. split; [congruence | auto]. Qed.

Lemma extends_refl (fs : filesys) : extends fs fs.
Proof. split; [apply dirs_kept_refl | auto]. Qed.

Lemma extends_trans (fs1 fs2 fs3 : filesys) :
  extends fs1 fs2 -> extends fs2 fs3 -> extends fs1 fs3.
Proof.
  intros [H1 H2] [H3 H4]. split; [now apply dirs_kept_trans with fs2|].
  intros l. now rewrite H4.
Qed.

Lemma resolve_kept (fs fs' : filesys) (p : Path) (l : loc) :
  dirs_kept fs fs' -> resolve fs p = Ok l -> resolve fs' p = Ok l.
Proof.
  intros [Hc Hd] Hr. unfold resolve, start in *. rewrite Hc.
  now apply walk_mono with (fs_root fs).
Qed.

Lemma is_dir_kept (fs fs' : filesys) (p : Path) :
  dirs_kept fs fs' -> is_dir fs p = true -> is_dir fs' p = true.
Proof.
  intros Hk. unfold is_dir, lookup.
  destruct (resolve fs p) as [l|e] eqn:Hr; [|discriminate].
  rewrite (resolve_kept fs fs' p l Hk Hr). intros Hd.
  destruct Hk as [_ Hk]. specialize (Hk l). unfold dirb in Hk.
  destruct (find (fs_root fs) l) as [[?|ents]|]; try discriminate.
  specialize (Hk eq_refl).
  now destruct (find (fs_root fs') l) as [[?|ents']|].
Qed.

(** What [put] does where there is no directory. *)
Lemma put_spec (fs fs' : filesys) (l : loc) (n : node) :
  put fs l n = Ok fs' -> dirb (find (fs_root fs) l) = false -> leaf n ->
  dirs_kept fs fs' /\
  find (fs_root fs') l = Some n /\
  (forall l', fileof (find (fs_root fs') l')
              = if decide (l' = l) then fileof (Some n)
                else fileof (find (fs_root fs) l')).
Proof.
  unfold put. destruct (insert_at (fs_root fs) l n) as [t'|] eqn:Hi; [|discriminate].
  intros [= <-] Hold Hn. simpl. repeat split.
  - intros x. now apply insert_at_dirs with l n.
  - now apply find_insert_at with (fs_root fs).
  - intros l'. now apply insert_at_files.
Qed.

(** [os.mkdir] makes the directory and changes nothing else. *)
Lemma os_mkdir_spec (fs fs' : filesys) (p : Path) :
  os_mkdir fs p = Ok fs' ->
  extends fs fs' /\ is_dir fs' p = true /\
  exists l, resolve fs p = Ok l /\ find (fs_root fs) l = None /\
            find (fs_root fs') l = Some (Dir []).
Proof.
  unfold os_mkdir. destruct (resolve fs p) as [l|e] eqn:Hr; [|discriminate].
  destruct (find (fs_root fs) l) as [n|] eqn:Hf; [discriminate|].
  intros Hp. apply put_spec in Hp as (Hk & Hn & Hfiles); [|now rewrite Hf|reflexivity].
  repeat split.
  - apply Hk.
  - apply Hk.
  - intros l'. rewrite Hfiles. destruct (decide (l' = l)) as [->|]; [|reflexivity].
    now rewrite Hf.
  - unfold is_dir, lookup. now rewrite (resolve_kept fs fs' p l Hk Hr), Hn.
  - exists l. auto.
Qed.

Lemma mkdir_exist_ok_spec (fs fs' : filesys) (p : Path) (r : res unit) :
  mkdir_exist_ok fs p = (fs', r) ->
  extends fs fs' /\ (forall u, r = Ok u -> is_dir fs' p = true) /\
  (forall e, r = Raise e -> fs' = fs).
Proof.
  unfold mkdir_exist_ok. destruct (os_mkdir fs p) as [fs1|e] eqn:Hm.
  - intros [= <- <-]. apply os_mkdir_spec in Hm as (He & Hd & _).
    split; [exact He | split; [auto | discriminate]].
  - destruct e; try destruct (is_dir fs p) eqn:Hd; intros [= <- <-];
      (split; [apply extends_refl | split; [intros u Hu; first [discriminate | assumption] | reflexivity]]).
Qed.

(** [mkdir(parents=True, exist_ok=True)] only adds directories, and when
    it returns the path is a directory. *)
Lemma mkdir_parents_rev_spec (a : anchor) (rparts : list string) :
  forall fs fs' r,
  mkdir_parents_rev a rparts fs = (fs', r) ->
  extends fs fs' /\ (forall u, r = Ok u -> is_dir fs' (mkPath a (rev rparts)) = true).
Proof.
  induction rparts as [|c rparent IH]; intros fs fs' r; cbn [mkdir_parents_rev].
  - destruct (os_mkdir fs (mkPath a (rev []))) as [fs1|e] eqn:Hm.
    + intros [= <- <-]. apply os_mkdir_spec in Hm as (He & Hd & _). auto.
    + destruct (is_dir fs (mkPath a (rev []))) eqn:Hd;
        destruct e; intros [= <- <-];
        (split; [apply extends_refl | (auto || discriminate)]).
  - destruct (os_mkdir fs (mkPath a (rev (c :: rparent)))) as [fs1|e] eqn:Hm.
    + intros [= <- <-]. apply os_mkdir_spec in Hm as (He & Hd & _). auto.
    + assert (Hother : (if is_dir fs (mkPath a (rev (c :: rparent)))
                        then (fs, Ok tt) else (fs, Raise e)) = (fs', r) ->
                       extends fs fs' /\
                       (forall u, r = Ok u ->
                                  is_dir fs' (mkPath a (rev (c :: rparent))) = true)).
      { destruct (is_dir fs (mkPath a (rev (c :: rparent)))) eqn:Hd;
          intros [= <- <-]; (split; [apply extends_refl | (auto || discriminate)]). }
      destruct e; try exact Hother.
      destruct (mkdir_parents_rev a rparent fs) as [fs1 [u|e]] eqn:Hp.
      * intros Hx. apply IH in Hp as [He1 _].
        apply mkdir_exist_ok_spec in Hx as (He2 & Hd & _).
        split; [now apply extends_trans with fs1 | exact Hd].
      * intros [= <- <-]. apply IH in Hp as [He1 _]. split; [exact He1 | discriminate].
Qed.

Lemma path_eta (p : Path) : mkPath (p_anchor p) (rev (rev (p_parts p))) = p.
Proof. destruct p as [a ps]. simpl. now rewrite rev_involutive. Qed.

Lemma mkdir_parents_spec (fs fs' : filesys) (p : Path) (r : res unit) :
  mkdir_parents fs p = (fs', r) ->
  extends fs fs' /\ (forall u, r = Ok u -> is_dir fs' p = true).
Proof.
  unfold mkdir_parents. intros Hm. apply mkdir_parents_rev_spec in Hm.
  now rewrite path_eta in Hm.
Qed.

Lemma os_mkdir_is_dir (fs : filesys) (p : Path) :
  is_dir fs p = true -> os_mkdir fs p = Raise FileExistsError.
Proof.
  unfold is_dir, lookup, os_mkdir. destruct (resolve fs p) as [l|e]; [|discriminate].
  now destruct (find (fs_root fs) l).
Qed.

(** On a directory that is there, [mkdir] does nothing. *)
Lemma mkdir_parents_is_dir (fs : filesys) (p : Path) :
  is_dir fs p = true -> mkdir_parents fs p = (fs, Ok tt).
Proof.
  intros Hd. unfold mkdir_parents.
  assert (Hm : os_mkdir fs (mkPath (p_anchor p) (rev (rev (p_parts p))))
               = Raise FileExistsError)
    by (rewrite path_eta; now apply os_mkdir_is_dir).
  assert (Hd' : is_dir fs (mkPath (p_anchor p) (rev (rev (p_parts p)))) = true)
    by now rewrite path_eta.
  destruct (rev (p_parts p)) as [|c rp]; cbn [mkdir_parents_rev];
    now rewrite Hm, Hd'.
Qed.

(** Writing a file changes what is read at its location, nothing else. *)
Lemma write_json_spec (fs fs' : filesys) (p : Path) (v : json) :
  write_json fs p v = Ok fs' ->
  dirs_kept fs fs' /\
  exists l, resolve fs p = Ok l /\
            find (fs_root fs') l = Some (File (Document v)) /\
            forall l', fileof (find (fs_root fs') l')
                       = if decide (l' = l) then Some (Document v)
                         else fileof (find (fs_root fs) l').
Proof.
  unfold write_json. destruct (resolve fs p) as [l|e] eqn:Hr; [|discriminate].
  intros Hp.
  assert (Hold : dirb (find (fs_root fs) l) = false)
    by (destruct (find (fs_root fs) l) as [[?|ents]|]; [reflexivity | discriminate | reflexivity]).
  assert (Hp' : put fs l (File (Document v)) = Ok fs')
    by (destruct (find (fs_root fs) l) as [[?|ents]|]; [assumption | discriminate | assumption]).
  apply put_spec in Hp' as (Hk & Hn & Hfiles); [|assumption|exact I].
  split; [exact Hk|]. exists l. auto.
Qed.

Lemma read_after_write (fs fs' : filesys) (p : Path) (v : json) :
  write_json fs p v = Ok fs' -> exists_ fs' p = true /\ read_json fs' p = Ok v.
Proof.
  intros Hw. apply write_json_spec in Hw as (Hk & l & Hr & Hn & _).
  unfold exists_, read_json, lookup.
  now rewrite (resolve_kept fs fs' p l Hk Hr), Hn.
Qed.

Lemma assoc_Some_in (k : string) (v : node) (l : list (string * node)) :
  assoc k l = Some v -> In k (map fst l).
Proof.
  induction l as [|[k' v'] l IH]; simpl; [discriminate|].
  destruct (String.eqb_spec k' k) as [->|]; [now left | right; now apply IH].
Qed.

Lemma is_dir_inv (fs : filesys) (p : Path) :
  is_dir fs p = true ->
  exists l ents, resolve fs p = Ok l /\ find (fs_root fs) l = Some (Dir ents).
Proof.
  unfold is_dir, lookup. destruct (resolve fs p) as [l|e]; [|discriminate].
  destruct (find (fs_root fs) l) as [[?|ents]|] eqn:Hf; try discriminate.
  intros _. exists l, ents. auto.
Qed.

Lemma is_dir_exists (fs : filesys) (p : Path) :
  is_dir fs p = true -> exists_ fs p = true.
Proof.
  unfold is_dir, exists_. destruct (lookup fs p) as [[[?|?]|]|]; congruence.
Qed.

(** A node can be put under any directory. *)
Lemma insert_at_child (rl : loc) (c : string) (n : node) : forall t ents,
  find t rl = Some (Dir ents) -> exists t', insert_at t (rl ++ [c]) n = Some t'.
Proof.
  induction rl as [|x rl IH]; intros t ents Hf; simpl in Hf.
  - injection Hf as ->. simpl. eauto.
  - destruct t as [?|e0]; [discriminate|].
    destruct (assoc x e0) as [t1|] eqn:Ea; [|discriminate].
    destruct (IH t1 ents Hf) as [t1' Hi].
    change ((x :: rl) ++ [c]) with (x :: (rl ++ [c])). cbn [insert_at].
    rewrite Ea, Hi. destruct (rl ++ [c]) eqn:E; [now destruct rl | eauto].
Qed.

(** The entry [c] of a directory resolves to the location below it. *)
Lemma resolve_child (fs : filesys) (p : Path) (c : string) (l : loc)
    (ents : list (string * node)) :
  resolve fs p = Ok l -> find (fs_root fs) l = Some (Dir ents) -> c <> ".." ->
  resolve fs (child p c) = Ok (l ++ [c]) /\
  find (fs_root fs) (l ++ [c]) = assoc c ents.
Proof.
  intros Hr Hf Hc. split.
  - unfold resolve, child, start in *. cbn [p_anchor p_parts].
    rewrite walk_app, Hr. cbn [walk]. rewrite Hf. unfold step.
    apply String.eqb_neq in Hc. now rewrite Hc.
  - now rewrite find_app, Hf.
Qed.

Lemma name_child (p : Path) (c : string) : name (child p c) = c.
Proof. unfold name, child. cbn [p_parts]. apply last_last. Qed.

Lemma os_mkdir_mkdir_parents (fs fs' : filesys) (p : Path) :
  os_mkdir fs p = Ok fs' -> mkdir_parents fs p = (fs', Ok tt).
Proof.
  intros Hm. unfold mkdir_parents.
  assert (Hm' : os_mkdir fs (mkPath (p_anchor p) (rev (rev (p_parts p)))) = Ok fs')
    by now rewrite path_eta.
  destruct (rev (p_parts p)) as [|c rp]; cbn [mkdir_parents_rev]; now rewrite Hm'.
Qed.


End FSFacts.

(** ** The result store *)

Module StorageFacts.
Import Pathlib FS Spec Storage FSFacts.

Lemma str_list_map (l : list string) : str_list (map JStr l) = Some l.
Proof. induction l as [|s l IH]; simpl; [reflexivity | now rewrite IH]. Qed.

Lemma float_dict_map (d : list (string * pyfloat)) :
  float_dict (map (fun kv => (fst kv, JFloat (snd kv))) d) = Some d.
Proof.
  induction d as [|[k f] d IH]; simpl; [reflexivity | now rewrite IH].
Qed.

(** What [dict()] gives has exactly the declared types. *)
Lemma exact_fields_result_dict (r : StockSelectionResult) :
  match result_dict r with
  | JDict d => exact_fields d = Some r
  | _ => False
  end.
Proof.
  destruct r as [n a t stocks sc c]. unfold result_dict, exact_fields; simpl.
  rewrite str_list_map. destruct sc as [d|]; [|reflexivity].
  now rewrite float_dict_map.
Qed.

Section WithPydantic.
Context `{Pydantic}.

Lemma validate_result_dict (r : StockSelectionResult) :
  validate (result_dict r) = Ok r.
Proof.
  pose proof (exact_fields_result_dict r) as He. unfold validate.
  destruct (result_dict r); try contradiction. now rewrite He.
Qed.

(** [get_result_path] returns [result_location], having made the
    partition, and touches nothing else. *)
Lemma get_result_path_spec (st : ResultStorage) (d n : string)
    (fs fs' : filesys) (r : res Path) :
  get_result_path st d n fs = (fs', r) ->
  extends fs fs' /\
  forall p, r = Ok p ->
            p = result_location st d n /\ is_dir fs' (result_dir st // d) = true.
Proof.
  unfold get_result_path.
  destruct (mkdir_parents fs (result_dir st // d)) as [fs1 [u|e]] eqn:Hm;
    intros [= <- <-]; apply mkdir_parents_spec in Hm as [He Hd];
    (split; [exact He|]); intros p [= <-].
  split; [reflexivity | now apply Hd with u].
Qed.

Lemma get_result_path_is_dir (st : ResultStorage) (d n : string) (fs : filesys) :
  is_dir fs (result_dir st // d) = true ->
  get_result_path st d n fs = (fs, Ok (result_location st d n)).
Proof.
  intros Hd. unfold get_result_path. now rewrite (mkdir_parents_is_dir _ _ Hd).
Qed.

(** A storage manager that was constructed has its directory. *)
Lemma init_is_dir (dir : Path) (fs fs' : filesys) (st : ResultStorage) :
  init dir fs = (fs', Ok st) -> result_dir st = dir /\ is_dir fs' dir = true.
Proof.
  unfold init. destruct (mkdir_parents fs dir) as [fs1 [u|e]] eqn:Hm; [|discriminate].
  intros [= <- <-]. apply mkdir_parents_spec in Hm as [_ Hd].
  split; [reflexivity | now apply Hd with u].
Qed.

(** A record that was saved is the record loaded, and loading it leaves
    the store as it is. *)
Lemma load_after_save (st : ResultStorage) (r : StockSelectionResult)
    (fs fs' : filesys) :
  save_result st r fs = (fs', true) ->
  load_result st (trade_date r) (selector_name r) fs' = (fs', Some r).
Proof.
  unfold save_result.
  destruct (get_result_path st (trade_date r) (selector_name r) fs)
    as [fs1 [p|e]] eqn:Hg; [|intros [= _ ?]; discriminate].
  destruct (write_json fs1 p (result_dict r)) as [fs2|e] eqn:Hw;
    [|intros [= _ ?]; discriminate].
  intros [= <-].
  apply get_result_path_spec in Hg as [_ Hg].
  destruct (Hg p eq_refl) as [-> Hd].
  pose proof (write_json_spec _ _ _ _ Hw) as [Hk _].
  unfold load_result.
  rewrite (get_result_path_is_dir st _ _ fs2 (is_dir_kept _ _ _ Hk Hd)).
  destruct (read_after_write _ _ _ _ Hw) as [-> ->].
  now rewrite validate_result_dict.
Qed.

(** Loading never leaves the store otherwise than [get_result_path]
    does. *)
Lemma load_result_store (st : ResultStorage) (d n : string) (fs : filesys) :
  fst (load_result st d n fs) = fst (get_result_path st d n fs).
Proof.
  unfold load_result. destruct (get_result_path st d n fs) as [fs1 [p|e]]; [|reflexivity].
  destruct (negb (exists_ fs1 p)); [reflexivity|].
  destruct (read_json fs1 p) as [v|e]; [|reflexivity].
  now destruct (validate v).
Qed.

(** What a loaded record is: the validated document of the file at the
    resolved location. *)
Lemma load_result_Some (st : ResultStorage) (d n : string) (fs fs1 : filesys)
    (r : StockSelectionResult) :
  load_result st d n fs = (fs1, Some r) ->
  extends fs fs1 /\ is_dir fs1 (result_dir st // d) = true /\
  exists l v, resolve fs1 (result_location st d n) = Ok l /\
              find (fs_root fs1) l = Some (File (Document v)) /\
              validate v = Ok r.
Proof.
  unfold load_result.
  destruct (get_result_path st d n fs) as [fs2 [p|e]] eqn:Hg; [|intros [= _ ?]; discriminate].
  apply get_result_path_spec in Hg as [He Hg]. destruct (Hg p eq_refl) as [-> Hd].
  destruct (negb (exists_ fs2 (result_location st d n))); [intros [= _ ?]; discriminate|].
  unfold read_json, lookup.
  destruct (resolve fs2 (result_location st d n)) as [l|e] eqn:Hr;
    [|intros [= _ ?]; discriminate].
  destruct (find (fs_root fs2) l) as [[[v|?]|?]|] eqn:Hf;
    try (intros [= _ ?]; discriminate).
  destruct (validate v) as [r'|e] eqn:Hv; [|intros [= _ ?]; discriminate].
  intros [= <- <-]. split; [exact He|]. split; [exact Hd|]. exists l, v. auto.
Qed.

Lemma collect_dates_In (fs : filesys) (entries : list Path) : forall dates x,
  In x (collect_dates fs entries dates) <->
  In x dates \/
  exists e, In e entries /\ is_dir fs e = true /\
            (exists ymd, Datetime.strptime (name e) = Ok ymd) /\ name e = x.
Proof.
  induction entries as [|e entries IH]; intros dates x; cbn [collect_dates].
  - split; [auto | intros [?|(e & [] & _)]; assumption].
  - destruct (is_dir fs e) eqn:Hd;
      [destruct (Datetime.strptime (name e)) as [ymd|err] eqn:Hp|];
      rewrite IH; rewrite ?in_app_iff; cbn [In]; split;
      intros [Hx|(e' & Hin & Hd' & [ymd' Hp'] & Hn)].
    all: try (left; tauto).
    all: try (destruct Hx as [Hx|[<-|[]]]; [tauto|]; right; exists e; eauto 7).
    all: try (destruct Hin as [<-|Hin]; [first [congruence | left; right; left; assumption]|]).
    all: right; exists e'; cbn [In]; eauto 7.
Qed.

(** The listing holds exactly the names of the entries of the result
    directory that are directories and that [strptime] accepts. *)
Lemma list_available_dates_spec (st : ResultStorage) (fs : filesys)
    (ents : list (string * node)) :
  lookup fs (result_dir st) = Ok (Some (Dir ents)) ->
  exists l, list_available_dates st fs = Ok l /\
    Sorted desc l /\
    forall x, In x l <->
              In x (map fst ents) /\ is_dir fs (child (result_dir st) x) = true /\
              exists ymd, Datetime.strptime x = Ok ymd.
Proof.
  intros Hl. unfold list_available_dates, exists_, iterdir. rewrite Hl. cbn [negb].
  eexists. split; [reflexivity|].
  split; [apply DatetimeFacts.sorted_reverse_sorted|]. intros x.
  rewrite DatetimeFacts.sorted_reverse_In, collect_dates_In. split.
  - intros [[]|(e & Hin & Hd & Hp & Hn)].
    apply in_map_iff in Hin as ([k v] & <- & Hin). cbn [fst] in *.
    rewrite name_child in Hn, Hp. subst k.
    split; [apply in_map_iff; exists (x, v); auto | auto].
  - intros (Hin & Hd & Hp). right. exists (child (result_dir st) x).
    rewrite name_child. repeat split; try assumption.
    apply in_map_iff in Hin as ([k v] & <- & Hin).
    apply in_map_iff. exists (k, v). auto.
Qed.

(** The loop of [load_all_results] adds no key besides the names it is
    given. *)
Lemma load_each_outside (st : ResultStorage) (d : string) (names : list string)
    (k : string) : forall fs results,
  ~ In k names -> snd (load_each st d names fs results) !! k = results !! k.
Proof.
  induction names as [|n names IH]; intros fs results Hk; cbn [load_each]; [reflexivity|].
  assert (Hn : n <> k) by (intros ->; apply Hk; now left).
  assert (Hk' : ~ In k names) by (intros Hin; apply Hk; now right).
  destruct (load_result st d n fs) as [fs1 [r|]]; rewrite IH by exact Hk'.
  - now rewrite lookup_insert_ne.
  - reflexivity.
Qed.

(** With a sequence given that is not empty, no identifier outside it is
    in the mapping. *)
Lemma load_all_results_given (st : ResultStorage) (d : string) (n : string)
    (names : list string) (k : string) (fs : filesys) :
  ~ In k (n :: names) -> snd (load_all_results st d (Some (n :: names)) fs) !! k = None.
Proof.
  intros Hk. unfold load_all_results.
  destruct (negb (exists_ fs (result_dir st // d))); [apply lookup_empty|].
  cbn [truthy default]. rewrite load_each_outside by exact Hk. apply lookup_empty.
Qed.





End WithPydantic.

End StorageFacts.

(** ** Claims on the result store *)

Module StorageClaims.
Import Pathlib FS Spec Storage FSFacts PathlibFacts StorageFacts.

(** C2, as stated, fails: a record whose strategy identifier holds a
    path separator is not written ([save_result] returns [False]), and
    loading it afterwards gives nothing; nor is any record written when a
    plain file has the name of its date. *)
Lemma roundtrip_fails_when_save_fails :
  (let r := Scenario.record "a/b" in
   let '(fs1, saved) := @save_result Scenario.store r Scenario.fs_fresh in
   saved = false /\
   snd (@load_result Scenario.strict Scenario.store (trade_date r) (selector_name r) fs1)
   <> Some r) /\
  (let r := Scenario.record "X" in
   let '(fs1, saved) := @save_result Scenario.store r Scenario.fs_blocked in
   saved = false /\
   snd (@load_result Scenario.strict Scenario.store (trade_date r) (selector_name r) fs1)
   <> Some r).
Proof. split; vm_compute; (split; [reflexivity | discriminate]). Qed.

(** C2, amended: whenever [save_result(r)] returns [True], the
    [load_result] that follows at [(r.trade_date, r.selector_name)]
    returns a record equal to [r] in all fields (stocks in order, scores
    and count included), an absent [scores] staying absent; the load leaves
    the store unchanged. *)
Theorem save_then_load_roundtrip `{Pydantic} (st : ResultStorage)
    (r : StockSelectionResult) (fs fs' : filesys) :
  save_result st r fs = (fs', true) ->
  load_result st (trade_date r) (selector_name r) fs' = (fs', Some r) /\
  (forall r', snd (load_result st (trade_date r) (selector_name r) fs') = Some r' ->
     selector_name r' = selector_name r /\ alias r' = alias r /\
     trade_date r' = trade_date r /\ selected_stocks r' = selected_stocks r /\
     scores r' = scores r /\ count r' = count r /\
     (scores r = None -> scores r' = None)).
Proof.
  intros Hs. pose proof (load_after_save st r fs fs' Hs) as Hl.
  split; [exact Hl|]. rewrite Hl. simpl. intros r' [= <-]. auto 10.
Qed.

Lemma save_then_load_roundtrip_witness :
  let r := Scenario.record "X" in
  save_result Scenario.store r Scenario.fs_fresh = (Scenario.fs_with_X, true) /\
  @load_result Scenario.strict Scenario.store (trade_date r) (selector_name r)
    Scenario.fs_with_X = (Scenario.fs_with_X, Some r).
Proof.
  assert (Hs : save_result Scenario.store (Scenario.record "X") Scenario.fs_fresh
               = (Scenario.fs_with_X, true)) by (vm_compute; reflexivity).
  split; [exact Hs|].
  exact (proj1 (@save_then_load_roundtrip Scenario.strict _ _ _ _ Hs)).
Defined.

(** C3, as stated, fails: two distinct address pairs resolve to one
    location, because [pathlib] drops a [.] component. *)
Lemma distinct_pairs_same_location :
  ("2024-01-10", "X") <> ("2024-01-10", "./X") /\
  result_location Scenario.store "2024-01-10" "X"
  = result_location Scenario.store "2024-01-10" "./X" /\
  snd (get_result_path Scenario.store "2024-01-10" "X" Scenario.fs_fresh)
  = snd (get_result_path Scenario.store "2024-01-10" "./X" Scenario.fs_fresh).
Proof. split; [discriminate | split; vm_compute; reflexivity]. Qed.

(** C3, amended: for address pairs whose trade date is a single path
    component and whose strategy identifier has no path separator,
    distinct pairs resolve to distinct locations; and resolution is
    deterministic: the location does not depend on the store, and a
    repeated resolution yields the same location and changes nothing. *)
Theorem get_result_path_injective (st : ResultStorage) (d1 n1 d2 n2 : string) :
  is_component d1 = true -> is_component d2 = true ->
  no_slash n1 = true -> no_slash n2 = true ->
  ((d1, n1) <> (d2, n2) -> result_location st d1 n1 <> result_location st d2 n2) /\
  (forall fs fs1 p, get_result_path st d1 n1 fs = (fs1, Ok p) ->
     p = result_location st d1 n1 /\
     get_result_path st d1 n1 fs1 = (fs1, Ok p)).
Proof.
  intros Hd1 Hd2 Hn1 Hn2. split.
  - intros Hne Heq. apply Hne. unfold result_location in Heq.
    rewrite !location_parts in Heq by assumption.
    injection Heq as Heq. apply app_inv_head in Heq.
    injection Heq as -> Heq. apply StrFacts.app_inj_r in Heq. now subst.
  - intros fs fs1 p Hg. apply get_result_path_spec in Hg as [_ Hg].
    destruct (Hg p eq_refl) as [-> Hd]. split; [reflexivity|].
    now apply get_result_path_is_dir.
Qed.

Lemma get_result_path_injective_witness :
  result_location Scenario.store "2024-01-10" "X"
  <> result_location Scenario.store "2024-01-11" "X".
Proof.
  apply (get_result_path_injective Scenario.store "2024-01-10" "X" "2024-01-11" "X");
    [reflexivity | reflexivity | reflexivity | reflexivity | discriminate].
Defined.




(** C8 fails on the code: [strptime] also reads a month or a day without
    zero padding, so a partition named [2024-1-5] is listed although its
    name is not in the date form. *)
Theorem list_available_dates_unpadded :
  list_available_dates Scenario.store Scenario.fs_unpadded = Ok ["2024-1-5"] /\
  is_iso_date "2024-1-5" = false.
Proof. split; vm_compute; reflexivity. Qed.

(** The listing example of the specification. *)
Example list_available_dates_example :
  list_available_dates Scenario.store Scenario.fs_listing
  = Ok ["2024-02-01"; "2024-01-10"].
Proof. vm_compute. reflexivity. Qed.

(** C5 fails on the code: with an empty sequence of identifiers given,
    the record of every strategy stored under the date is returned. *)
Theorem load_all_results_empty_list :
  snd (@load_all_results Scenario.strict Scenario.store "2024-01-10" (Some [])
         Scenario.fs_with_X) !! "X"
  = Some (Scenario.record "X").
Proof. vm_compute. reflexivity. Qed.

End StorageClaims.

(** ** The selection loop *)

Module ApiFacts.
Import Pathlib FS Pandas Spec Api FSFacts StorageFacts.

Lemma fold_max_spec (xs : list Z) : forall x,
  In (fold_left Z.max xs x) (x :: xs) /\ forall y, In y (x :: xs) -> y <= fold_left Z.max xs x.
Proof.
  induction xs as [|z xs IH]; intros x; simpl.
  - split; [now left | intros y [<-|[]]; lia].
  - destruct (IH (Z.max x z)) as [Hin Hle]. split.
    + destruct Hin as [Hm|Hin]; [|now right; right].
      rewrite <- Hm. destruct (Z.max_spec x z) as [[_ ->]|[_ ->]]; auto.
    + intros y Hy. assert (Hx : Z.max x z <= fold_left Z.max xs (Z.max x z))
        by (apply Hle; now left).
      destruct Hy as [<-|[<-|Hy]]; [lia | lia | apply Hle; now right].
Qed.

(** The builtin [max] over timestamps that are all dates. *)
Lemma py_max_TS (zs : list Z) : forall x,
  py_max (TS x) (map TS zs) = TS (fold_left Z.max zs x).
Proof.
  unfold py_max. induction zs as [|z zs IH]; intros x; simpl; [reflexivity|].
  destruct (Z.ltb_spec x z).
  - rewrite IH. now rewrite Z.max_r by lia.
  - rewrite IH. now rewrite Z.max_l by lia.
Qed.

Lemma column_max_nonempty (df : DataFrame) :
  date_column df <> [] -> column_max df = TS (frame_max df).
Proof. unfold column_max, frame_max. now destruct (date_column df). Qed.

Lemma frame_max_spec (df : DataFrame) :
  date_column df <> [] ->
  In (frame_max df) (date_column df) /\ forall d, In d (date_column df) -> d <= frame_max df.
Proof.
  unfold frame_max. destruct (date_column df) as [|x xs]; [congruence|].
  intros _. apply fold_max_spec.
Qed.

Lemma map_column_max (data : Data) :
  (forall kv, In kv data -> date_column (snd kv) <> []) ->
  map (fun kv => column_max (snd kv)) data = map TS (map (fun kv => frame_max (snd kv)) data).
Proof.
  induction data as [|kv data IH]; intros Hne; simpl; [reflexivity|].
  rewrite column_max_nonempty by (apply Hne; now left).
  rewrite IH by (intros kv' Hin; apply Hne; now right). reflexivity.
Qed.

Section WithCollaborators.
Context `{Storage.Pydantic} `{Collaborators}.

(** When every series has a date, the resolved date is the latest one. *)
Lemma resolve_trade_date_latest (data : Data) :
  data <> [] -> (forall kv, In kv data -> date_column (snd kv) <> []) ->
  exists m, resolve_trade_date None data = Ok (TS m) /\ latest_date data m.
Proof.
  intros Hd Hne. unfold resolve_trade_date. rewrite (map_column_max data Hne).
  destruct data as [|kv data]; [congruence|]. cbn [map].
  rewrite py_max_TS. eexists. split; [reflexivity|].
  destruct (fold_max_spec (map (fun kv => frame_max (snd kv)) data) (frame_max (snd kv)))
    as [Hin Hle].
  split.
  - change (frame_max (snd kv) :: map (fun kv => frame_max (snd kv)) data)
      with (map (fun kv => frame_max (snd kv)) (kv :: data)) in Hin.
    apply in_map_iff in Hin as (kv' & Heq & Hin'). exists kv'. split; [exact Hin'|].
    rewrite <- Heq. apply frame_max_spec. now apply Hne.
  - intros kv' d Hin' Hd'.
    assert (Hf : d <= frame_max (snd kv')) by (apply frame_max_spec; auto).
    assert (Hm : In (frame_max (snd kv'))
                    (frame_max (snd kv) :: map (fun kv => frame_max (snd kv)) data)).
    { change (frame_max (snd kv) :: map (fun kv => frame_max (snd kv)) data)
        with (map (fun kv => frame_max (snd kv)) (kv :: data)).
      apply in_map_iff. exists kv'. auto. }
    specialize (Hle _ Hm). lia.
Qed.

(** [run_selection] is its loop once the data and the date are there. *)
Lemma run_selection_loop (trade_date : option Timestamp) (data_dir config_path : Path)
    (tickers : option (list string)) (cfgs : list Config) (use_cache save_result : bool)
    (storage : Storage.ResultStorage) (s : state) (ts : Timestamp) (str : string)
    (data : Data) :
  reaches_loop trade_date data_dir tickers s ts str data ->
  run_selection trade_date data_dir config_path tickers (Some cfgs) use_cache save_result
                storage s
  = (let '(s', results) := run_loop ts str data use_cache save_result storage cfgs s [] in
     (s', Ok results)).
Proof.
  intros (Hx & Hc & Hdata & Hne & Hr & Hs). unfold run_selection.
  rewrite Hx. cbn [negb]. unfold codes_of in Hc, Hdata.
  destruct (match tickers with
            | Some ts0 => ts0
            | None => map stem (glob_suffix (fs s) data_dir ".csv")
            end) as [|c cs] eqn:Ec; [congruence|].
  rewrite <- Hdata. destruct data as [|kv data]; [congruence|].
  now rewrite Hr, Hs.
Qed.


Lemma run_loop_app (ts : Timestamp) (str : string) (data : Data) (uc sv : bool)
    (st : Storage.ResultStorage) (pre post : list Config) : forall s results,
  run_loop ts str data uc sv st (pre ++ post) s results
  = (let '(s1, r1) := run_loop ts str data uc sv st pre s results in
     run_loop ts str data uc sv st post s1 r1).
Proof.
  induction pre as [|c pre IH]; intros s results; cbn [run_loop app].
  - reflexivity.
  - destruct (loop_body ts str data uc sv st c s results) as [s1 r1]. apply IH.
Qed.

End WithCollaborators.

End ApiFacts.

(** ** Claims on run_selection *)

Module ApiClaims.
Import Pathlib FS Pandas Spec Api FSFacts StorageFacts ApiFacts.

Section WithCollaborators.
Context `{Storage.Pydantic} `{Collaborators}.

(** What one iteration appends for an active configuration that
    instantiates: nothing when [select] fails, else one result, the cached
    record or the fresh one. *)
Lemma loop_body_active (ts : Timestamp) (str : string) (data : Data) (uc sv : bool)
    (st : Storage.ResultStorage) (cfg : Config) (s : state)
    (results : list StockSelectionResult) (alias : string) (selector : Selector) :
  activate_is_False cfg = false ->
  instantiate_selector cfg = Ok (alias, selector) ->
  let name := default "Unknown" (cfg_class cfg) in
  exists s',
    (exists cached,
       check_cache uc st str name s = (s', Some cached) /\
       loop_body ts str data uc sv st cfg s results = (s', results ++ [of_cached cached])) \/
    (exists s1 e,
       check_cache uc st str name s = (s1, None) /\
       select selector ts data = Raises e /\
       loop_body ts str data uc sv st cfg s results = (s', results)) \/
    (exists s1 picks last_scores,
       check_cache uc st str name s = (s1, None) /\
       select selector ts data = Returns picks last_scores /\
       loop_body ts str data uc sv st cfg s results
       = (s', results ++ [fresh_result str name alias picks last_scores])).
Proof.
  intros Ha Hi name. unfold loop_body. rewrite Ha, Hi. fold name.
  destruct (check_cache uc st str name s) as [s1 [cached|]] eqn:Hc.
  - eexists. left. eauto.
  - destruct (select selector ts data) as [picks ls|e] eqn:Hs.
    + destruct sv.
      * destruct (Storage.save_result st _ _) as [fs3 ok] eqn:Hsave.
        eexists. right. right. exists s1, picks, ls. auto.
      * eexists. right. right. exists s1, picks, ls. auto.
    + eexists. right. left. exists s1, e. auto.
Qed.


(** C4: for a configuration that is processed (active, instantiated) with
    [use_cache] set, when [load_result] finds a record at the trade date and
    the class name, the iteration appends that record with every field as
    stored (the stored alias, not the configured one), calls neither [select]
    nor [save_result] whatever [save_result] is set to, and changes no file of
    the store; the store is untouched when the partition was already there. *)
Theorem cache_hit_skips_selector (ts : Timestamp) (str : string) (data : Data)
    (sv : bool) (st : Storage.ResultStorage) (cfg : Config) (s : state)
    (results : list StockSelectionResult) (alias : string) (selector : Selector)
    (fs1 : filesys) (cached : Storage.StockSelectionResult) :
  activate_is_False cfg = false ->
  instantiate_selector cfg = Ok (alias, selector) ->
  Storage.load_result st str (default "Unknown" (cfg_class cfg)) (fs s) = (fs1, Some cached) ->
  loop_body ts str data true sv st cfg s results
  = (mkState fs1 (calls s ++ [CallLoad str (default "Unknown" (cfg_class cfg))]),
     results ++ [of_cached cached]) /\
  Api.alias (of_cached cached) = Storage.alias cached /\
  to_storage (of_cached cached) = cached /\
  extends (fs s) fs1 /\
  (is_dir (fs s) (Storage.result_dir st // str) = true -> fs1 = fs s).
Proof.
  intros Ha Hi Hl. split; [|split; [reflexivity|split; [now destruct cached|split]]].
  - unfold loop_body, check_cache. now rewrite Ha, Hi, Hl.
  - now apply load_result_Some in Hl.
  - intros Hd. pose proof (load_result_store st str (default "Unknown" (cfg_class cfg)) (fs s)) as Hst.
    rewrite Hl, (get_result_path_is_dir st str _ (fs s) Hd) in Hst. exact Hst.
Qed.

(** When no trade date is given and every loaded series has a date,
    [run_selection] runs its loop with the latest date of all the series:
    a date of some series that no date of any series exceeds. *)
Theorem latest_date_resolution (data_dir config_path : Path)
    (tickers : option (list string)) (cfgs : list Config) (uc sv : bool)
    (st : Storage.ResultStorage) (s : state) (data : Data) :
  exists_ (fs s) data_dir = true ->
  codes_of (fs s) data_dir tickers <> [] ->
  data = load_data (fs s) data_dir (codes_of (fs s) data_dir tickers) ->
  data <> [] ->
  (forall kv, In kv data -> date_column (snd kv) <> []) ->
  exists m str,
    latest_date data m /\
    resolve_trade_date None data = Ok (TS m) /\
    strftime (TS m) = Ok str /\
    run_selection None data_dir config_path tickers (Some cfgs) uc sv st s
    = (let '(s', results) := run_loop (TS m) str data uc sv st cfgs s [] in
       (s', Ok results)).
Proof.
  intros Hx Hc Hdata Hne Hall.
  destruct (resolve_trade_date_latest data Hne Hall) as (m & Hr & Hm).
  assert (Hs : exists str, strftime (TS m) = Ok str).
  { unfold strftime. destruct (civil_from_days (m / ns_per_day)) as [[y mo] d]. eauto. }
  destruct Hs as [str Hs]. exists m, str.
  split; [exact Hm|]. split; [exact Hr|]. split; [exact Hs|].
  apply run_selection_loop. unfold reaches_loop. auto 10.
Qed.

(** C1: when the [select] of a configuration fails, its iteration appends
    nothing and the loop goes on with the configurations that follow, from
    the store the cache probe left; the loop returns in every case.  In
    particular a run over three active configurations of which only the
    second fails in [select] returns normally with exactly two results, that
    of the first and that of the third in this order, each the record served
    from the cache or the result built from what [select] returned. *)
Theorem failure_isolation :
  (forall (ts : Timestamp) (str : string) (data : Data) (uc sv : bool)
          (st : Storage.ResultStorage) (pre post : list Config) (c : Config)
          (s s1 s2 : state) (results r1 : list StockSelectionResult)
          (alias : string) (selector : Selector) (e : exn),
     run_loop ts str data uc sv st pre s results = (s1, r1) ->
     activate_is_False c = false ->
     instantiate_selector c = Ok (alias, selector) ->
     check_cache uc st str (default "Unknown" (cfg_class c)) s1 = (s2, None) ->
     select selector ts data = Raises e ->
     let s3 := mkState (fs s2) (calls s2 ++ [CallSelect alias]) in
     loop_body ts str data uc sv st c s1 r1 = (s3, r1) /\
     run_loop ts str data uc sv st (pre ++ c :: post) s results
     = run_loop ts str data uc sv st post s3 r1) /\
  (forall (trade_date : option Timestamp) (data_dir config_path : Path)
          (tickers : option (list string)) (uc sv : bool) (st : Storage.ResultStorage)
          (s s1 s2 : state) (ts : Timestamp) (str : string) (data : Data)
          (c1 c2 c3 : Config) (a1 a2 a3 : string) (sel1 sel2 sel3 : Selector)
          (p1 p3 : list string) (l1 l3 : attribute) (e : exn)
          (r1 : list StockSelectionResult),
     reaches_loop trade_date data_dir tickers s ts str data ->
     activate_is_False c1 = false -> instantiate_selector c1 = Ok (a1, sel1) ->
     activate_is_False c2 = false -> instantiate_selector c2 = Ok (a2, sel2) ->
     activate_is_False c3 = false -> instantiate_selector c3 = Ok (a3, sel3) ->
     select sel1 ts data = Returns p1 l1 ->
     select sel2 ts data = Raises e ->
     select sel3 ts data = Returns p3 l3 ->
     loop_body ts str data uc sv st c1 s [] = (s1, r1) ->
     check_cache uc st str (default "Unknown" (cfg_class c2)) s1 = (s2, None) ->
     let s3 := mkState (fs s2) (calls s2 ++ [CallSelect a2]) in
     exists s' x1 x3,
       run_selection trade_date data_dir config_path tickers (Some [c1; c2; c3])
                     uc sv st s = (s', Ok [x1; x3]) /\
       (x1 = fresh_result str (default "Unknown" (cfg_class c1)) a1 p1 l1 \/
        exists s4 cached,
          check_cache uc st str (default "Unknown" (cfg_class c1)) s = (s4, Some cached) /\
          x1 = of_cached cached) /\
       (x3 = fresh_result str (default "Unknown" (cfg_class c3)) a3 p3 l3 \/
        exists s4 cached,
          check_cache uc st str (default "Unknown" (cfg_class c3)) s3 = (s4, Some cached) /\
          x3 = of_cached cached)).
Proof.
  assert (Hfail : forall ts str data uc sv st c s1 s2 r1 alias selector e,
            activate_is_False c = false ->
            instantiate_selector c = Ok (alias, selector) ->
            check_cache uc st str (default "Unknown" (cfg_class c)) s1 = (s2, None) ->
            select selector ts data = Raises e ->
            loop_body ts str data uc sv st c s1 r1
            = (mkState (fs s2) (calls s2 ++ [CallSelect alias]), r1)).
  { intros ts str data uc sv st c s1 s2 r1 alias selector e Ha Hi Hc Hs.
    unfold loop_body. now rewrite Ha, Hi, Hc, Hs. }
  split.
  - intros ts str data uc sv st pre post c s s1 s2 results r1 alias selector e
           Hpre Ha Hi Hc Hs s3.
    pose proof (Hfail ts str data uc sv st c s1 s2 r1 alias selector e Ha Hi Hc Hs) as Hb.
    split; [exact Hb|].
    rewrite run_loop_app, Hpre. cbn [run_loop]. now rewrite Hb.
  - intros trade_date data_dir config_path tickers uc sv st s s1 s2 ts str data
           c1 c2 c3 a1 a2 a3 sel1 sel2 sel3 p1 p3 l1 l3 e r1
           Hreach Ha1 Hi1 Ha2 Hi2 Ha3 Hi3 Hs1 Hs2 Hs3 Hb1 Hc2 s3.
    rewrite (run_selection_loop _ _ _ _ _ _ _ _ _ ts str data Hreach).
    cbn [run_loop]. rewrite Hb1.
    rewrite (Hfail ts str data uc sv st c2 s1 s2 r1 a2 sel2 e Ha2 Hi2 Hc2 Hs2).
    fold s3.
    assert (H1 : exists x1, r1 = [x1] /\
              (x1 = fresh_result str (default "Unknown" (cfg_class c1)) a1 p1 l1 \/
               exists s4 cached,
                 check_cache uc st str (default "Unknown" (cfg_class c1)) s
                 = (s4, Some cached) /\ x1 = of_cached cached)).
    { destruct (loop_body_active ts str data uc sv st c1 s [] a1 sel1 Ha1 Hi1)
        as [s1' [(cd & Hcc & Hl)|[(s5 & e' & _ & Hs' & _)|(s5 & p & l & _ & Hs' & Hl)]]];
        [| congruence |]; rewrite Hb1 in Hl; injection Hl as _ ->.
      - eexists. split; [reflexivity|]. right. eauto.
      - rewrite Hs1 in Hs'. injection Hs' as <- <-. eexists. split; [reflexivity|]. now left. }
    destruct H1 as (x1 & -> & Hx1).
    destruct (loop_body_active ts str data uc sv st c3 s3 [x1] a3 sel3 Ha3 Hi3)
      as [s3' [(cd3 & Hcc3 & Hl3)|[(s6 & e3 & _ & Hs3' & _)|(s6 & p' & l' & _ & Hs3' & Hl3)]]];
      [| congruence |]; rewrite Hl3; eexists _, _, _;
      (split; [reflexivity|]); (split; [exact Hx1|]).
    + right. eauto.
    + left. rewrite Hs3 in Hs3'. now injection Hs3' as <- <-.
Qed.




End WithCollaborators.



Lemma cache_hit_skips_selector_witness :
  @loop_body Scenario.strict Scenario.stubs (timestamp_of_date 2024 1 10) "2024-01-10"
    Scenario.market true true Scenario.store (Scenario.config "X")
    (Scenario.begin Scenario.fs_with_X) []
  = (mkState Scenario.fs_with_X [CallLoad "2024-01-10" "X"],
     [of_cached (Scenario.record "X")]).
Proof.
  exact (proj1 (@cache_hit_skips_selector Scenario.strict Scenario.stubs
                  (timestamp_of_date 2024 1 10) "2024-01-10" Scenario.market true
                  Scenario.store (Scenario.config "X") (Scenario.begin Scenario.fs_with_X)
                  [] "X" (Scenario.picking ["000001"]) Scenario.fs_with_X
                  (Scenario.record "X") eq_refl eq_refl
                  ltac:(vm_compute; reflexivity))).
Defined.

Lemma latest_date_resolution_witness :
  exists m str,
    latest_date Scenario.market m /\
    @resolve_trade_date None Scenario.market = Ok (TS m) /\
    strftime (TS m) = Ok str /\
    Scenario.run None [] Scenario.fs_app
    = (let '(s', results) :=
         @run_loop Scenario.strict Scenario.stubs (TS m) str Scenario.market true true
           Scenario.store [] (Scenario.begin Scenario.fs_app) [] in
       (s', Ok results)).
Proof.
  apply (@latest_date_resolution Scenario.strict Scenario.stubs Scenario.data_dir
           Scenario.config_path Scenario.tickers [] true true Scenario.store
           (Scenario.begin Scenario.fs_app) Scenario.market).
  - reflexivity.
  - intros Heq. vm_compute in Heq. discriminate.
  - reflexivity.
  - intros Heq. vm_compute in Heq. discriminate.
  - intros kv Hin. cbv [Scenario.market In] in Hin.
    destruct Hin as [<-|[<-|[<-|[]]]]; discriminate.
Defined.

(** C6 fails on the code: when the first loaded series has no date, the
    date resolves to [NaT], because the builtin [max] keeps its first item
    where no comparison holds, and [run_selection] raises, although the
    other series hold dates up to 2024-01-12; with the same series in
    another order the date is 2024-01-12. *)
Theorem latest_date_empty_first_series :
  latest_date Sparse.sparse_market (days_from_civil 2024 1 12 * ns_per_day) /\
  @resolve_trade_date None Sparse.sparse_market = Ok NaT /\
  Sparse.sparse_run [Scenario.config "A"] Scenario.fs_app
  = (Scenario.begin Scenario.fs_app, Raise ValueError) /\
  @resolve_trade_date None Sparse.sparse_market_mid = Ok (timestamp_of_date 2024 1 12).
Proof.
  split; [split|split; [|split]].
  - exists ("000002", mkFrame [days_from_civil 2024 1 12 * ns_per_day;
                                days_from_civil 2024 1 11 * ns_per_day]).
    split; [right; left; reflexivity | left; reflexivity].
  - intros kv d Hkv Hd. cbv [Sparse.sparse_market In] in Hkv.
    destruct Hkv as [<-|[<-|[<-|[]]]]; cbn [snd date_column In] in Hd.
    + destruct Hd.
    + destruct Hd as [<-|[<-|[]]]; intros Hgt; vm_compute in Hgt; discriminate.
    + destruct Hd as [<-|[]]; intros Hgt; vm_compute in Hgt; discriminate.
  - vm_compute. reflexivity.
  - vm_compute. reflexivity.
  - vm_compute. reflexivity.
Qed.

(** The date example of the specification. *)
Example resolve_trade_date_example :
  @resolve_trade_date None Scenario.market = Ok (timestamp_of_date 2024 1 12) /\
  strftime (timestamp_of_date 2024 1 12) = Ok "2024-01-12".
Proof. split; vm_compute; reflexivity. Qed.



Lemma failure_isolation_witness :
  exists s' x1 x3,
    Scenario.run None [Scenario.config "A"; Scenario.config "Boom"; Scenario.config "C"]
                 Scenario.fs_app = (s', Ok [x1; x3]) /\
    selector_name x1 = "A" /\ selector_name x3 = "C".
Proof.
  pose (ts := timestamp_of_date 2024 1 12).
  pose (body1 := @loop_body Scenario.strict Scenario.stubs ts "2024-01-12" Scenario.market
                   true true Scenario.store (Scenario.config "A")
                   (Scenario.begin Scenario.fs_app) []).
  pose (probe2 := @check_cache Scenario.strict true Scenario.store "2024-01-12" "Boom"
                    (fst body1)).
  destruct (proj2 (@failure_isolation Scenario.strict Scenario.stubs)
              None Scenario.data_dir Scenario.config_path Scenario.tickers true true
              Scenario.store (Scenario.begin Scenario.fs_app) (fst body1) (fst probe2)
              ts "2024-01-12" Scenario.market
              (Scenario.config "A") (Scenario.config "Boom") (Scenario.config "C")
              "A" "Boom" "C"
              (Scenario.picking ["000001"]) Scenario.failing (Scenario.picking ["000001"])
              ["000001"] ["000001"] Missing Missing StrategyError (snd body1))
    as (s' & x1 & x3 & Hrun & Hx1 & Hx3).
  - repeat split; try (intros Heq; vm_compute in Heq; discriminate);
      vm_compute; reflexivity.
  - reflexivity.
  - reflexivity.
  - reflexivity.
  - reflexivity.
  - reflexivity.
  - reflexivity.
  - reflexivity.
  - reflexivity.
  - reflexivity.
  - vm_compute; reflexivity.
  - vm_compute; reflexivity.
  - exists s', x1, x3. split; [exact Hrun|]. split.
    + destruct Hx1 as [->|(s4 & cached & Hc & _)]; [reflexivity|].
      vm_compute in Hc. discriminate.
    + destruct Hx3 as [->|(s4 & cached & Hc & _)]; [reflexivity|].
      vm_compute in Hc. discriminate.
Defined.

End ApiClaims.

(** ** The store seen through its locations *)

Module ViewFacts.
Import Pathlib FS Spec Storage View FSFacts PathlibFacts StorageFacts.

(** Putting a leaf where no directory was changes the kind of that
    location only. *)
Lemma insert_at_dirb (l : loc) : forall t n t' l',
  insert_at t l n = Some t' -> dirb (find t l) = false -> leaf n ->
  dirb (find t' l') = if decide (l' = l) then dirb (Some n) else dirb (find t l').
Proof.
  induction l as [|c l IH]; intros t n t' l' Hi Hold Hn; simpl in Hi; [discriminate|].
  destruct t as [?|ents]; [discriminate|].
  destruct l as [|c1 l1].
  - injection Hi as <-. destruct l' as [|c' l''].
    + now rewrite decide_False by discriminate.
    + cbn [find] in *. destruct (String.eqb_spec c' c) as [->|Hne].
      * rewrite assoc_set_eq. destruct l'' as [|c2 l2].
        -- now rewrite decide_True.
        -- rewrite decide_False by discriminate.
           destruct (assoc c ents) as [[?|e1]|]; try discriminate; simpl.
           ++ destruct n as [?|e]; [reflexivity|]. simpl in Hn. now subst e.
           ++ destruct n as [?|e]; [reflexivity|]. simpl in Hn. now subst e.
      * rewrite assoc_set_ne by assumption.
        now rewrite decide_False by congruence.
  - destruct (assoc c ents) as [t1|] eqn:Ea; [|discriminate].
    destruct (insert_at t1 (c1 :: l1) n) as [t1'|] eqn:Ei; [|discriminate].
    injection Hi as <-. destruct l' as [|c' l''].
    + now rewrite decide_False by discriminate.
    + cbn [find] in Hold |- *. rewrite Ea in Hold.
      destruct (String.eqb_spec c' c) as [->|Hne].
      * rewrite assoc_set_eq, Ea. rewrite (IH t1 n t1' l'' Ei Hold Hn).
        destruct (decide (l'' = c1 :: l1)) as [->|Hne'].
        -- now rewrite !decide_True by reflexivity.
        -- now rewrite !decide_False by congruence.
      * rewrite assoc_set_ne by assumption.
        now rewrite decide_False by congruence.
Qed.

(** The exact effect of [put] on the kinds and on the files. *)
Lemma put_view (fs fs' : filesys) (l : loc) (n : node) :
  put fs l n = Ok fs' -> dirb (find (fs_root fs) l) = false -> leaf n ->
  fs_cwd fs' = fs_cwd fs /\
  (forall l', dirb (find (fs_root fs') l')
              = if decide (l' = l) then dirb (Some n) else dirb (find (fs_root fs) l')) /\
  (forall l', fileof (find (fs_root fs') l')
              = if decide (l' = l) then fileof (Some n) else fileof (find (fs_root fs) l')).
Proof.
  unfold put. destruct (insert_at (fs_root fs) l n) as [t'|] eqn:Hi; [|discriminate].
  intros [= <-] Hold Hn. cbn [fs_root fs_cwd]. split; [reflexivity|]. split; intros l'.
  - now apply insert_at_dirb.
  - now apply insert_at_files.
Qed.

Lemma is_name_inv (d : string) :
  is_name d = true -> is_component d = true /\ d <> "..".
Proof.
  unfold is_name. intros [Hc Hd]%andb_true_iff. split; [exact Hc|].
  now apply negb_true_iff, String.eqb_neq in Hd.
Qed.

Lemma json_name_not_dotdot (n : string) : n +:+ ".json" <> "..".
Proof.
  intros Heq. apply (f_equal String.length) in Heq.
  rewrite StrFacts.length_app in Heq. simpl in Heq. lia.
Qed.

Lemma root_at_is_dir (st : ResultStorage) (fs : filesys) (rl : loc) :
  root_at st fs rl -> is_dir fs (result_dir st) = true.
Proof.
  intros [Hr Hd]. unfold is_dir, lookup. rewrite Hr.
  now destruct (find (fs_root fs) rl) as [[?|?]|].
Qed.

Lemma is_dir_root_at (st : ResultStorage) (fs : filesys) :
  is_dir fs (result_dir st) = true -> exists rl, root_at st fs rl.
Proof.
  intros Hd. destruct (is_dir_inv _ _ Hd) as (l & ents & Hr & Hf).
  exists l. split; [exact Hr | now rewrite Hf].
Qed.

Lemma dirb_inv (o : option node) : dirb o = true -> exists ents, o = Some (Dir ents).
Proof. destruct o as [[?|ents]|]; try discriminate. eauto. Qed.

(** Where the partition of a date and the record of an address resolve. *)
Lemma resolve_date (st : ResultStorage) (fs : filesys) (rl : loc) (d : string) :
  root_at st fs rl -> is_name d = true ->
  result_dir st // d = child (result_dir st) d /\
  resolve fs (result_dir st // d) = Ok (rl ++ [d]).
Proof.
  intros [Hr Hd] Hn. destruct (is_name_inv d Hn) as [Hc Hdd].
  rewrite joinpath_component by exact Hc.
  change (mkPath (p_anchor (result_dir st)) (p_parts (result_dir st) ++ [d]))
    with (child (result_dir st) d).
  split; [reflexivity|]. destruct (dirb_inv _ Hd) as [ents Hf].
  now destruct (resolve_child fs (result_dir st) d rl ents Hr Hf Hdd).
Qed.

Lemma resolve_slot (st : ResultStorage) (fs : filesys) (rl : loc) (d n : string) :
  root_at st fs rl -> is_name d = true -> no_slash n = true ->
  dirb (find (fs_root fs) (rl ++ [d])) = true ->
  resolve fs (result_location st d n) = Ok (slot_loc rl d n).
Proof.
  intros Hroot Hn Hs Hd. destruct (resolve_date st fs rl d Hroot Hn) as [Hj Hr].
  destruct (dirb_inv _ Hd) as [ents Hf].
  unfold result_location. rewrite Hj in *.
  rewrite joinpath_component by now apply json_name_component.
  change (mkPath (p_anchor (child (result_dir st) d))
                 (p_parts (child (result_dir st) d) ++ [n +:+ ".json"]))
    with (child (child (result_dir st) d) (n +:+ ".json")).
  destruct (resolve_child fs _ (n +:+ ".json") _ ents Hr Hf (json_name_not_dotdot n))
    as [Hr2 _].
  rewrite Hr2. unfold slot_loc. now rewrite <- app_assoc.
Qed.

(** Distinct addresses have distinct locations. *)
Lemma slot_loc_inj (rl : loc) (d n d' n' : string) :
  slot_loc rl d n = slot_loc rl d' n' -> d = d' /\ n = n'.
Proof.
  unfold slot_loc. intros Heq. apply app_inv_head in Heq.
  injection Heq as -> Heq. apply StrFacts.app_inj_r in Heq. auto.
Qed.

Lemma slot_loc_not_date (rl : loc) (d n d' : string) : rl ++ [d'] <> slot_loc rl d n.
Proof.
  unfold slot_loc. intros Heq. apply app_inv_head in Heq. discriminate.
Qed.

(** What making the partition of a date does: nothing when the name is
    taken, else the partition is a directory afterwards and nothing else
    has changed. *)
Lemma touch_view (st : ResultStorage) (fs fs' : filesys) (rl : loc) (d n : string)
    (r : res Path) :
  root_at st fs rl -> is_name d = true ->
  get_result_path st d n fs = (fs', r) ->
  root_at st fs' rl /\
  (forall l, fileof (find (fs_root fs') l) = fileof (find (fs_root fs) l)) /\
  (forall l, l <> rl ++ [d] ->
             dirb (find (fs_root fs') l) = dirb (find (fs_root fs) l)) /\
  match fileof (find (fs_root fs) (rl ++ [d])) with
  | Some _ => fs' = fs /\ exists e, r = Raise e
  | None => r = Ok (result_location st d n) /\
            dirb (find (fs_root fs') (rl ++ [d])) = true /\
            (dirb (find (fs_root fs) (rl ++ [d])) = true -> fs' = fs)
  end.
Proof.
  intros Hroot Hn Hg. destruct (resolve_date st fs rl d Hroot Hn) as [Hj Hr].
  pose proof Hroot as [Hrr Hrd].
  destruct (find (fs_root fs) (rl ++ [d])) as [[c|ents]|] eqn:Hf; cbn [fileof].
  - (* a file has the name *)
    assert (Hm : mkdir_parents fs (result_dir st // d) = (fs, Raise FileExistsError)).
    { assert (Hos : os_mkdir fs (result_dir st // d) = Raise FileExistsError)
        by (unfold os_mkdir; now rewrite Hr, Hf).
      assert (Hnd : is_dir fs (result_dir st // d) = false)
        by (unfold is_dir, lookup; now rewrite Hr, Hf).
      unfold mkdir_parents.
      rewrite <- (path_eta (result_dir st // d)) in Hos, Hnd.
      destruct (rev (p_parts (result_dir st // d))); cbn [mkdir_parents_rev];
        now rewrite Hos, Hnd. }
    unfold get_result_path in Hg. rewrite Hm in Hg. injection Hg as <- <-.
    repeat split; eauto.
  - (* the partition is there *)
    assert (Hd : is_dir fs (result_dir st // d) = true)
      by (unfold is_dir, lookup; now rewrite Hr, Hf).
    rewrite (get_result_path_is_dir st d n fs Hd) in Hg. injection Hg as <- <-.
    rewrite Hf. repeat split; auto.
  - (* the partition is made *)
    assert (Hx : exists_ fs (child (result_dir st) d) = false)
      by (rewrite <- Hj; unfold exists_, lookup; now rewrite Hr, Hf).
    destruct (is_name_inv d Hn) as [_ Hdd].
    destruct (dirb_inv _ Hrd) as [ents Hfr].
    destruct (insert_at_child rl d (Dir []) (fs_root fs) ents Hfr) as [t' Hi].
    assert (Hput : put fs (rl ++ [d]) (Dir []) = Ok (mkFs t' (fs_cwd fs)))
      by (unfold put; now rewrite Hi).
    assert (Hos : os_mkdir fs (result_dir st // d) = Ok (mkFs t' (fs_cwd fs)))
      by (unfold os_mkdir; now rewrite Hr, Hf).
    unfold get_result_path in Hg. rewrite (os_mkdir_mkdir_parents _ _ _ Hos) in Hg.
    injection Hg as <- <-.
    destruct (put_view _ _ _ _ Hput ltac:(now rewrite Hf) eq_refl) as (Hcwd & Hdb & Hfo).
    assert (Hkept : dirs_kept fs (mkFs t' (fs_cwd fs))).
    { split; [exact Hcwd|]. intros l Hl. rewrite Hdb.
      now destruct (decide (l = rl ++ [d])). }
    split; [|split; [|split; [|split; [reflexivity|split]]]].
    + split; [now apply resolve_kept with fs | now apply Hkept].
    + intros l. rewrite Hfo. destruct (decide (l = rl ++ [d])) as [->|]; [|reflexivity].
      now rewrite Hf.
    + intros l Hl. rewrite Hdb. now rewrite decide_False.
    + rewrite Hdb. now rewrite decide_True.
    + discriminate.
Qed.

Section WithPydantic.
Context `{Pydantic}.

(** What [load_result] answers, read off the store before the call. *)
Lemma load_view (st : ResultStorage) (fs : filesys) (rl : loc) (d n : string) :
  root_at st fs rl -> is_name d = true -> no_slash n = true ->
  load_result st d n fs
  = (fst (get_result_path st d n fs),
     if blocked fs rl d then None
     else decodef (fileof (find (fs_root fs) (slot_loc rl d n)))).
Proof.
  intros Hroot Hd Hn. unfold load_result, blocked.
  destruct (get_result_path st d n fs) as [fs' r] eqn:Hg. cbn [fst].
  destruct (touch_view st fs fs' rl d n r Hroot Hd Hg) as (Hroot' & Hfo & _ & Hcase).
  destruct (fileof (find (fs_root fs) (rl ++ [d]))) as [c|].
  - destruct Hcase as [_ [e ->]]. reflexivity.
  - destruct Hcase as (-> & Hdb & _).
    pose proof (resolve_slot st fs' rl d n Hroot' Hd Hn Hdb) as Hr.
    rewrite <- (Hfo (slot_loc rl d n)).
    unfold exists_, read_json, lookup. rewrite Hr.
    destruct (find (fs_root fs') (slot_loc rl d n)) as [[[v|raw]|ents]|]; cbn; try reflexivity.
    now destruct (validate v).
Qed.

Lemma cached_view (st : ResultStorage) (fs : filesys) (rl : loc) (d n : string) :
  root_at st fs rl -> is_name d = true -> no_slash n = true ->
  cached st d n fs
  = if blocked fs rl d then None
    else decodef (fileof (find (fs_root fs) (slot_loc rl d n))).
Proof. intros Hroot Hd Hn. unfold cached. now rewrite (load_view st fs rl d n). Qed.

(** What [save_result] does, read off the store before the call: it
    succeeds unless a file has the name of the partition or a directory that
    of the record, and then changes the file of the record only. *)
Lemma save_view (st : ResultStorage) (r : StockSelectionResult) (fs fs' : filesys)
    (rl : loc) (ok : bool) :
  root_at st fs rl -> is_name (trade_date r) = true -> no_slash (selector_name r) = true ->
  save_result st r fs = (fs', ok) ->
  let l := slot_loc rl (trade_date r) (selector_name r) in
  root_at st fs' rl /\
  ok = negb (blocked fs rl (trade_date r)) && negb (dirb (find (fs_root fs) l)) /\
  (forall l', fileof (find (fs_root fs') l')
              = if ok && bool_decide (l' = l) then Some (Document (result_dict r))
                else fileof (find (fs_root fs) l')) /\
  (forall l', l' <> rl ++ [trade_date r] ->
              dirb (find (fs_root fs') l') = dirb (find (fs_root fs) l')) /\
  (blocked fs rl (trade_date r) = false ->
   dirb (find (fs_root fs') (rl ++ [trade_date r])) = true) /\
  (ok = false -> fs' = fst (get_result_path st (trade_date r) (selector_name r) fs)).
Proof.
  intros Hroot Hd Hn Hs l. unfold save_result in Hs. unfold blocked.
  destruct (get_result_path st (trade_date r) (selector_name r) fs) as [fs1 p] eqn:Hg.
  cbn [fst].
  destruct (touch_view st fs fs1 rl _ _ p Hroot Hd Hg) as (Hroot1 & Hfo & Hdb & Hcase).
  destruct (fileof (find (fs_root fs) (rl ++ [trade_date r]))) as [c|].
  - destruct Hcase as [-> [e ->]]. injection Hs as <- <-. cbn [negb andb].
    split; [exact Hroot|]. split; [reflexivity|]. split; [reflexivity|].
    split; [reflexivity|]. split; [discriminate | reflexivity].
  - destruct Hcase as (-> & Hdate & _).
    pose proof (resolve_slot st fs1 rl _ _ Hroot1 Hd Hn Hdate) as Hr. fold l in Hr.
    assert (Hl : dirb (find (fs_root fs1) l) = dirb (find (fs_root fs) l))
      by (apply Hdb; intros Heq; symmetry in Heq; now apply slot_loc_not_date in Heq).
    cbn [negb andb]. unfold write_json in Hs. rewrite Hr in Hs.
    destruct (dirb (find (fs_root fs) l)) eqn:Hk.
    + destruct (dirb_inv _ Hl) as [ents Hf]. rewrite Hf in Hs. injection Hs as <- <-.
      cbn [negb andb]. split; [exact Hroot1|]. split; [reflexivity|].
      split; [exact Hfo|]. split; [exact Hdb|]. split; [intros _; exact Hdate | reflexivity].
    + destruct (dirb_inv _ Hdate) as [ents Hfd].
      destruct (insert_at_child (rl ++ [trade_date r]) (selector_name r +:+ ".json")
                  (File (Document (result_dict r))) (fs_root fs1) ents Hfd) as [t' Hi].
      assert (Hll : (rl ++ [trade_date r]) ++ [selector_name r +:+ ".json"] = l)
        by (unfold l, slot_loc; now rewrite <- app_assoc).
      rewrite Hll in Hi.
      assert (Hput : put fs1 l (File (Document (result_dict r))) = Ok (mkFs t' (fs_cwd fs1)))
        by (unfold put; now rewrite Hi).
      assert (Hs' : (mkFs t' (fs_cwd fs1), true) = (fs', ok)).
      { destruct (find (fs_root fs1) l) as [[?|?]|]; try discriminate;
          now rewrite Hput in Hs. }
      injection Hs' as <- <-.
      destruct (put_view _ _ _ _ Hput Hl I) as (Hcwd & Hdb2 & Hfo2).
      cbn [negb andb]. split; [|split; [reflexivity|split; [|split; [|split]]]].
      * destruct Hroot1 as [Hr1 Hd1]. split.
        -- apply resolve_kept with fs1; [|exact Hr1]. split; [exact Hcwd|].
           intros x Hx. rewrite Hdb2. destruct (decide (x = l)) as [->|Hxl]; [congruence|].
           now rewrite ?decide_False by assumption.
        -- rewrite Hdb2. destruct (decide (rl = l)) as [Hrl|Hrl];
             [|now rewrite ?decide_False by assumption].
           exfalso. unfold l, slot_loc in *.
           assert (Hlen : length rl = length (rl ++ [trade_date r; selector_name r +:+ ".json"]))
             by congruence.
           rewrite length_app in Hlen. simpl in Hlen. lia.
      * intros l'. rewrite Hfo2, Hfo. cbn [fileof andb].
        destruct (decide (l' = l)) as [->|Hne].
        -- rewrite ?decide_True by reflexivity. now rewrite bool_decide_eq_true_2.
        -- rewrite ?decide_False by assumption. now rewrite bool_decide_eq_false_2.
      * intros l' Hne. rewrite Hdb2, (Hdb l' Hne).
        destruct (decide (l' = l)) as [->|Hne2].
        -- rewrite ?decide_True by reflexivity. cbn [dirb]. now rewrite Hk.
        -- now rewrite ?decide_False by assumption.
      * intros _. rewrite Hdb2. rewrite decide_False; [exact Hdate|].
        apply slot_loc_not_date.
      * discriminate.
Qed.

End WithPydantic.

End ViewFacts.

(** ** More on the result store *)

Module StorageExtras.
Import Pathlib FS Spec Storage StorageRest View FSFacts PathlibFacts StorageFacts ViewFacts.

(** On a path that exists, [mkdir] changes nothing: it returns when the
    path is a directory and raises [FileExistsError] otherwise. *)
Lemma mkdir_parents_exists (fs : filesys) (p : Path) :
  exists_ fs p = true ->
  mkdir_parents fs p = (fs, if is_dir fs p then Ok tt else Raise FileExistsError).
Proof.
  intros Hx.
  assert (Hos : os_mkdir fs p = Raise FileExistsError).
  { unfold exists_, lookup in Hx. unfold os_mkdir.
    destruct (resolve fs p) as [l|e]; [|discriminate].
    now destruct (find (fs_root fs) l). }
  unfold mkdir_parents.
  assert (Hos' : os_mkdir fs (mkPath (p_anchor p) (rev (rev (p_parts p))))
                 = Raise FileExistsError) by now rewrite path_eta.
  assert (Hd' : is_dir fs (mkPath (p_anchor p) (rev (rev (p_parts p)))) = is_dir fs p)
    by now rewrite path_eta.
  destruct (rev (p_parts p)); cbn [mkdir_parents_rev]; rewrite Hos', Hd';
    now destruct (is_dir fs p).
Qed.

Lemma substring_prefix (s t : string) : substring 0 (String.length s) (s +:+ t) = s.
Proof.
  induction s as [|a s IH]; [now destruct t|].
  change (String a s +:+ t) with (String a (s +:+ t)). cbn. now rewrite IH.
Qed.

Lemma substring_skip (s t : string) (m : nat) :
  substring (String.length s) m (s +:+ t) = substring 0 m t.
Proof.
  induction s as [|a s IH]; [reflexivity|].
  change (String a s +:+ t) with (String a (s +:+ t)). cbn. exact IH.
Qed.

Lemma substring_all (s : string) : substring 0 (String.length s) s = s.
Proof. induction s as [|a s IH]; [reflexivity|]. cbn. now rewrite IH. Qed.

(** [(s + suf).endswith(suf)] *)
Lemma ends_with_app (s suf : string) : Str.ends_with suf (s +:+ suf) = true.
Proof.
  unfold Str.ends_with. rewrite StrFacts.length_app.
  replace (String.length s + String.length suf - String.length suf)%nat
    with (String.length s) by lia.
  rewrite substring_skip, substring_all, String.eqb_refl, andb_true_r.
  apply Nat.leb_le. lia.
Qed.

Lemma rfind_json (n : string) : Str.rfind Str.dot (n +:+ ".json") = Some (String.length n).
Proof.
  induction n as [|a n IH]; [reflexivity|].
  change (String a n +:+ ".json") with (String a (n +:+ ".json")).
  cbn [Str.rfind String.length]. now rewrite IH.
Qed.

(** The stem of the file of a record is the identifier, unless that is
    empty. *)
Lemma stem_json (p : Path) (n : string) : n <> "" -> stem (child p (n +:+ ".json")) = n.
Proof.
  intros Hn. unfold stem. rewrite name_child, rfind_json, StrFacts.length_app.
  assert (Hlen : (0 < String.length n)%nat) by (destruct n; [congruence | simpl; lia]).
  replace ((0 <? String.length n)%nat) with true by (symmetry; now apply Nat.ltb_lt).
  replace ((String.length n <? String.length n + String.length ".json" - 1)%nat) with true
    by (symmetry; apply Nat.ltb_lt; simpl; lia).
  cbn [andb]. apply substring_prefix.
Qed.

Lemma insert_asc_In (x y : string) (l : list string) :
  In y (insert_asc x l) <-> y = x \/ In y l.
Proof.
  induction l as [|z l IH]; simpl; [intuition|].
  destruct (String.leb x z); simpl; rewrite ?IH; intuition.
Qed.

Lemma sorted_In (y : string) (l : list string) : In y (sorted l) <-> In y l.
Proof.
  induction l as [|x l IH]; simpl; [tauto|].
  rewrite insert_asc_In, IH. intuition.
Qed.

Lemma insert_asc_sorted (x : string) (l : list string) :
  Sorted asc l -> Sorted asc (insert_asc x l).
Proof.
  induction l as [|y l IH]; intros Hs; simpl.
  - repeat constructor.
  - destruct (String.leb x y) eqn:E.
    + constructor; [exact Hs | constructor; exact E].
    + inversion Hs as [|? ? Hs' Hhd]; subst. constructor; [now apply IH|].
      assert (Hyx : asc y x).
      { unfold asc. destruct (String.leb_total x y) as [Hl|Hl]; [congruence | exact Hl]. }
      destruct l as [|z l]; simpl; [constructor; exact Hyx|].
      destruct (String.leb x z); constructor; [exact Hyx|].
      now inversion Hhd.
Qed.

Lemma sorted_Sorted (l : list string) : Sorted asc (sorted l).
Proof.
  induction l as [|x l IH]; simpl; [constructor | now apply insert_asc_sorted].
Qed.


Section WithPydantic.
Context `{Pydantic}.

(** Under a partition that exists, loading changes nothing. *)
Lemma load_result_keeps (st : ResultStorage) (d n : string) (fs : filesys) :
  exists_ fs (result_dir st // d) = true -> fst (load_result st d n fs) = fs.
Proof.
  intros Hx. rewrite load_result_store. unfold get_result_path.
  rewrite (mkdir_parents_exists _ _ Hx). now destruct (is_dir fs _).
Qed.

(** X1: saving a record leaves the answer of [load_result] at every other
    address as it was, whether the save succeeds or not (addresses made of
    a one-component date and an identifier without separator, on a store
    whose result directory is there). *)
Theorem save_keeps_other_addresses (st : ResultStorage) (r : StockSelectionResult)
    (fs fs' : filesys) (ok : bool) (d n : string) :
  is_dir fs (result_dir st) = true ->
  is_name (trade_date r) = true -> no_slash (selector_name r) = true ->
  is_name d = true -> no_slash n = true ->
  (d, n) <> (trade_date r, selector_name r) ->
  save_result st r fs = (fs', ok) ->
  snd (load_result st d n fs') = snd (load_result st d n fs).
Proof.
  intros Hdir Hdr Hnr Hd Hn Hne Hs.
  destruct (is_dir_root_at st fs Hdir) as [rl Hroot].
  destruct (save_view st r fs fs' rl ok Hroot Hdr Hnr Hs) as (Hroot' & _ & Hfo & _).
  change (cached st d n fs' = cached st d n fs).
  rewrite (cached_view st fs' rl d n Hroot' Hd Hn), (cached_view st fs rl d n Hroot Hd Hn).
  unfold blocked. rewrite !Hfo.
  rewrite (bool_decide_eq_false_2 (rl ++ [d] = _)) by apply slot_loc_not_date.
  rewrite (bool_decide_eq_false_2 (slot_loc rl d n = _)).
  - now rewrite !andb_false_r.
  - intros Heq. apply slot_loc_inj in Heq as [-> ->]. now apply Hne.
Qed.


(** X3: for an address made of a one-component date other than [..] and
    an identifier without separator, on a store whose result directory is
    there, [load_result] returns a record exactly when, in the store it
    leaves, the file at the location of the address holds a JSON document
    that validates to this record; a missing file, a directory, text that
    does not parse and a document that does not validate all give [None]. *)
Theorem load_result_reads_record (st : ResultStorage) (d n : string)
    (fs fs' : filesys) (o : option StockSelectionResult) :
  is_dir fs (result_dir st) = true -> is_name d = true -> no_slash n = true ->
  load_result st d n fs = (fs', o) ->
  forall r, o = Some r <->
            exists v, read_json fs' (result_location st d n) = Ok v /\ validate v = Ok r.
Proof.
  intros Hdir Hd Hn Hl r. destruct (is_dir_root_at st fs Hdir) as [rl Hroot].
  rewrite (load_view st fs rl d n Hroot Hd Hn) in Hl. injection Hl as <- <-.
  destruct (get_result_path st d n fs) as [fs' p] eqn:Hg. cbn [fst].
  destruct (touch_view st fs fs' rl d n p Hroot Hd Hg) as (Hroot' & Hfo & _ & Hcase).
  unfold blocked. destruct (fileof (find (fs_root fs) (rl ++ [d]))) as [c|] eqn:Hb.
  - destruct Hcase as [-> _]. split; [discriminate|]. intros (v & Hr & _). exfalso.
    assert (Hnd : is_dir fs (result_location st d n) = false \/ True) by now right.
    revert Hr. unfold read_json, lookup, resolve, result_location.
    destruct (is_name_inv _ Hd) as [Hc Hdd].
    rewrite location_parts by assumption. cbn [p_parts p_anchor].
    destruct Hroot as [Hrr Hrd]. unfold resolve in Hrr.
    replace (start fs {| p_anchor := p_anchor (result_dir st);
                         p_parts := p_parts (result_dir st) ++ [d; n +:+ ".json"] |})
      with (start fs (result_dir st)) by reflexivity.
    rewrite walk_app, Hrr. cbn [walk]. destruct (dirb_inv _ Hrd) as [ents ->].
    unfold step at 1. apply String.eqb_neq in Hdd. rewrite Hdd.
    destruct (find (fs_root fs) (rl ++ [d])) as [[?|?]|]; discriminate.
  - destruct Hcase as (_ & Hdb & _).
    pose proof (resolve_slot st fs' rl d n Hroot' Hd Hn Hdb) as Hr.
    unfold read_json, lookup. rewrite Hr, <- (Hfo (slot_loc rl d n)).
    destruct (find (fs_root fs') (slot_loc rl d n)) as [[[v|raw]|ents]|]; cbn [fileof decodef].
    + destruct (validate v) as [r'|e] eqn:Hv.
      * split; [intros [= <-]; eauto | intros (v' & [= <-] & Hv'); congruence].
      * split; [discriminate | intros (v' & [= <-] & Hv'); congruence].
    + split; [discriminate | intros (v' & ? & _); discriminate].
    + split; [discriminate | intros (v' & ? & _); discriminate].
    + split; [discriminate | intros (v' & ? & _); discriminate].
Qed.

Lemma load_each_keeps (st : ResultStorage) (d : string) (names : list string)
    (fs : filesys) : forall results,
  exists_ fs (result_dir st // d) = true ->
  fst (load_each st d names fs results) = fs.
Proof.
  induction names as [|n names IH]; intros results Hx; cbn [load_each]; [reflexivity|].
  pose proof (load_result_keeps st d n fs Hx) as Hk.
  destruct (load_result st d n fs) as [fs1 [r|]]; cbn [fst] in Hk; subst fs1; now apply IH.
Qed.

(** X4: [load_all_results] never changes the store, whatever it is asked:
    unlike [load_result] it makes no partition. *)
Theorem load_all_results_keeps_store (st : ResultStorage) (d : string)
    (selector_names : option (list string)) (fs : filesys) :
  fst (load_all_results st d selector_names fs) = fs.
Proof.
  unfold load_all_results.
  destruct (exists_ fs (result_dir st // d)) eqn:Hx; cbn [negb]; [|reflexivity].
  destruct (truthy selector_names); now apply load_each_keeps.
Qed.

(** The mapping the loop builds: the names at which a record loads, each
    with that record, over what was there. *)
Lemma load_each_lookup (st : ResultStorage) (d : string) (names : list string)
    (fs : filesys) (k : string) : forall results,
  exists_ fs (result_dir st // d) = true ->
  snd (load_each st d names fs results) !! k
  = if bool_decide (k ∈ names)
    then match snd (load_result st d k fs) with
         | Some r => Some r
         | None => results !! k
         end
    else results !! k.
Proof.
  induction names as [|n names IH]; intros results Hx; cbn [load_each].
  - now rewrite bool_decide_eq_false_2 by apply not_elem_of_nil.
  - pose proof (load_result_keeps st d n fs Hx) as Hk.
    destruct (load_result st d n fs) as [fs1 o] eqn:Hl. cbn [fst] in Hk. subst fs1.
    destruct (decide (k = n)) as [->|Hne].
    + rewrite (bool_decide_eq_true_2 (n ∈ n :: names)) by (apply elem_of_cons; now left).
      rewrite Hl. cbn [snd]. destruct o as [r|]; rewrite IH by exact Hx; rewrite Hl; cbn [snd].
      * destruct (bool_decide (n ∈ names)); [reflexivity | apply lookup_insert_eq].
      * now destruct (bool_decide (n ∈ names)).
    + assert (Hiff : bool_decide (k ∈ n :: names) = bool_decide (k ∈ names)).
      { apply bool_decide_ext. rewrite elem_of_cons. intuition. }
      rewrite Hiff. destruct o as [r|]; rewrite IH by exact Hx.
      * now rewrite lookup_insert_ne by congruence.
      * reflexivity.
Qed.

(** X5: with a sequence of identifiers given that is not empty, the
    mapping of [load_all_results] has a key exactly for each given
    identifier at which [load_result] yields a record, with that record;
    it is empty when the partition of the date does not exist. *)
Theorem load_all_results_given_names (st : ResultStorage) (d : string) (n : string)
    (names : list string) (fs : filesys) (k : string) :
  snd (load_all_results st d (Some (n :: names)) fs) !! k
  = if exists_ fs (result_dir st // d) && bool_decide (k ∈ n :: names)
    then snd (load_result st d k fs)
    else None.
Proof.
  unfold load_all_results.
  destruct (exists_ fs (result_dir st // d)) eqn:Hx; cbn [negb andb truthy from_option id].
  - rewrite load_each_lookup by exact Hx. rewrite lookup_empty.
    destruct (bool_decide (k ∈ n :: names)); [|reflexivity].
    now destruct (snd (load_result st d k fs)).
  - apply lookup_empty.
Qed.

(** The entries [glob("*.json")] finds hold the file of every identifier
    that is not empty. *)
Lemma glob_json_In (fs : filesys) (p : Path) (ents : list (string * node)) (n : string) :
  lookup fs p = Ok (Some (Dir ents)) -> In (n +:+ ".json") (map fst ents) -> n <> "" ->
  In n (map stem (glob_suffix fs p ".json")).
Proof.
  intros Hl Hin Hn. unfold glob_suffix. rewrite Hl.
  apply in_map_iff in Hin as [e [He Hin]].
  apply in_map_iff. exists (child p (n +:+ ".json")). split; [now apply stem_json|].
  apply in_map_iff. exists e. split; [now rewrite He|].
  apply filter_In. split; [exact Hin|]. rewrite He. apply ends_with_app.
Qed.

Lemma fileof_inv (o : option node) (c : content) : fileof o = Some c -> o = Some (File c).
Proof. destruct o as [[?|?]|]; simpl; congruence. Qed.

(** After a successful save the partition is a directory that has the
    file of the record among its entries. *)
Lemma saved_entry (st : ResultStorage) (r : StockSelectionResult) (fs fs' : filesys) :
  is_dir fs (result_dir st) = true ->
  is_name (trade_date r) = true -> no_slash (selector_name r) = true ->
  save_result st r fs = (fs', true) ->
  exists ents, lookup fs' (result_dir st // trade_date r) = Ok (Some (Dir ents)) /\
               In (selector_name r +:+ ".json") (map fst ents).
Proof.
  intros Hdir Hd Hn Hs. destruct (is_dir_root_at st fs Hdir) as [rl Hroot].
  destruct (save_view st r fs fs' rl true Hroot Hd Hn Hs) as (Hroot' & Hok & Hfo & _ & Hdate & _).
  symmetry in Hok. apply andb_true_iff in Hok as [Hb _]. apply negb_true_iff in Hb.
  specialize (Hdate Hb). destruct (dirb_inv _ Hdate) as [ents Hf].
  destruct (resolve_date st fs' rl _ Hroot' Hd) as [_ Hr].
  exists ents. split; [unfold lookup; now rewrite Hr, Hf|].
  specialize (Hfo (slot_loc rl (trade_date r) (selector_name r))).
  rewrite bool_decide_eq_true_2 in Hfo by reflexivity. cbn [andb] in Hfo.
  apply fileof_inv in Hfo. unfold slot_loc in Hfo.
  change [trade_date r; selector_name r +:+ ".json"]
    with ([trade_date r] ++ [selector_name r +:+ ".json"]) in Hfo.
  rewrite app_assoc, find_app, Hf in Hfo. now apply assoc_Some_in in Hfo.
Qed.

(** X6: a record whose date is one component other than [..] and whose
    identifier has no separator and is not empty, once saved on a store
    whose result directory is there, is enumerated afterwards:
    [list_available_selectors] names it, and [load_all_results] without
    identifiers has it under its name. *)
Theorem saved_record_is_enumerated (st : ResultStorage) (r : StockSelectionResult)
    (fs fs' : filesys) :
  is_dir fs (result_dir st) = true ->
  is_name (trade_date r) = true -> no_slash (selector_name r) = true ->
  selector_name r <> "" ->
  save_result st r fs = (fs', true) ->
  In (selector_name r) (list_available_selectors st (trade_date r) fs') /\
  snd (load_all_results st (trade_date r) None fs') !! selector_name r = Some r.
Proof.
  intros Hdir Hd Hn Hne Hs.
  destruct (saved_entry st r fs fs' Hdir Hd Hn Hs) as (ents & Hl & Hin).
  pose proof (glob_json_In fs' _ ents _ Hl Hin Hne) as Hg.
  assert (Hx : exists_ fs' (result_dir st // trade_date r) = true)
    by (unfold exists_; now rewrite Hl).
  split.
  - unfold list_available_selectors. rewrite Hx. cbn [negb]. now apply sorted_In.
  - unfold load_all_results. rewrite Hx. cbn [negb truthy].
    rewrite load_each_lookup by exact Hx.
    rewrite bool_decide_eq_true_2 by now apply list_elem_of_In.
    now rewrite (load_after_save st r fs fs' Hs).
Qed.

(** X7: [list_available_selectors] is in ascending order and holds exactly
    the stems of the entries of the partition whose name ends in [.json],
    whatever these entries are; it is empty when the partition cannot be
    listed. *)
Theorem list_available_selectors_exact (st : ResultStorage) (d : string) (fs : filesys) :
  Sorted asc (list_available_selectors st d fs) /\
  forall x, In x (list_available_selectors st d fs) <->
            exists entries p, iterdir fs (result_dir st // d) = Ok entries /\
                              In p entries /\
                              Str.ends_with ".json" (name p) = true /\ stem p = x.
Proof.
  unfold list_available_selectors, exists_, iterdir, glob_suffix.
  destruct (lookup fs (result_dir st // d)) as [[[c|ents]|]|e]; cbn [negb].
  - split; [apply sorted_Sorted|]. intros x. rewrite sorted_In. cbn.
    split; [tauto | intros (? & ? & ? & _); discriminate].
  - split; [apply sorted_Sorted|]. intros x. rewrite sorted_In, in_map_iff. split.
    + intros (p & Hp & Hin). apply in_map_iff in Hin as (e & He & Hin).
      apply filter_In in Hin as [Hin Hsuf].
      exists (map (fun e => child (result_dir st // d) (fst e)) ents), p.
      split; [reflexivity|]. split; [apply in_map_iff; eauto|].
      split; [|exact Hp]. subst p. now rewrite name_child.
    + intros (entries & p & [= <-] & Hin & Hsuf & Hp).
      apply in_map_iff in Hin as (e & He & Hin). exists p. split; [exact Hp|].
      apply in_map_iff. exists e. split; [exact He|]. apply filter_In. split; [exact Hin|].
      subst p. now rewrite name_child in Hsuf.
  - split; [constructor|]. intros x. cbn. split; [tauto | intros (? & ? & ? & _); discriminate].
  - split; [constructor|]. intros x. cbn. split; [tauto | intros (? & ? & ? & _); discriminate].
Qed.

(** Saving a record leaves the answer of the cache at every other
    address. *)
Lemma save_frame (st : ResultStorage) (r : StockSelectionResult) (fs fs' : filesys)
    (rl : loc) (ok : bool) (d n : string) :
  root_at st fs rl ->
  is_name (trade_date r) = true -> no_slash (selector_name r) = true ->
  is_name d = true -> no_slash n = true ->
  (d, n) <> (trade_date r, selector_name r) ->
  save_result st r fs = (fs', ok) ->
  cached st d n fs' = cached st d n fs.
Proof.
  intros Hroot Hdr Hnr Hd Hn Hne Hs.
  destruct (save_view st r fs fs' rl ok Hroot Hdr Hnr Hs) as (Hroot' & _ & Hfo & _).
  rewrite (cached_view st fs' rl d n Hroot' Hd Hn), (cached_view st fs rl d n Hroot Hd Hn).
  unfold blocked. rewrite !Hfo.
  rewrite (bool_decide_eq_false_2 (rl ++ [d] = _)) by apply slot_loc_not_date.
  rewrite (bool_decide_eq_false_2 (slot_loc rl d n = _)).
  - now rewrite !andb_false_r.
  - intros Heq. apply slot_loc_inj in Heq as [-> ->]. now apply Hne.
Qed.

(** The keys of the status of [save_all_results]. *)
Lemma save_each_keys (st : ResultStorage) (results : list StockSelectionResult) :
  forall fs status k,
  is_Some (snd (save_each st results fs status) !! k) <->
  is_Some (status !! k) \/ In k (map selector_name results).
Proof.
  induction results as [|r results IH]; intros fs status k; cbn [save_each map In snd].
  - tauto.
  - destruct (save_result st r fs) as [fs1 ok]. rewrite IH.
    destruct (decide (k = selector_name r)) as [->|Hne].
    + rewrite lookup_insert_eq. split; [auto | intros _; left; eauto].
    + rewrite lookup_insert_ne by congruence. intuition congruence.
Qed.

Lemma save_each_spec (st : ResultStorage) (results : list StockSelectionResult) (rl : loc) :
  forall fs status fs' status',
  root_at st fs rl ->
  Forall (fun r => is_name (trade_date r) = true /\ no_slash (selector_name r) = true)
         results ->
  List.NoDup (map selector_name results) ->
  save_each st results fs status = (fs', status') ->
  root_at st fs' rl /\
  (forall d n, is_name d = true -> no_slash n = true ->
               ~ In n (map selector_name results) ->
               cached st d n fs' = cached st d n fs) /\
  (forall k, ~ In k (map selector_name results) -> status' !! k = status !! k) /\
  (forall r, In r results -> status' !! selector_name r = Some true ->
             cached st (trade_date r) (selector_name r) fs' = Some r).
Proof.
  induction results as [|r results IH]; intros fs status fs' status' Hroot Hp Hnd Hs;
    cbn [save_each map] in *.
  - injection Hs as <- <-. split; [exact Hroot|]. split; [reflexivity|].
    split; [reflexivity | intros r []].
  - inversion Hp as [|? ? [Hd Hn] Hp']; subst. inversion Hnd as [|? ? Hnotin Hnd']; subst.
    destruct (save_result st r fs) as [fs1 ok] eqn:Hsave.
    destruct (save_view st r fs fs1 rl ok Hroot Hd Hn Hsave) as (Hroot1 & _).
    destruct (IH fs1 _ fs' status' Hroot1 Hp' Hnd' Hs) as (Hroot' & Hfr & Hst & Hld).
    split; [exact Hroot'|]. split; [|split].
    + intros d n Hdn Hnn Hnot. rewrite Hfr by (try assumption; intros Hi; apply Hnot; now right).
      apply (save_frame st r fs fs1 rl ok); try assumption.
      intros [= -> ->]. apply Hnot. now left.
    + intros k Hnot. rewrite Hst by (intros Hi; apply Hnot; now right).
      apply lookup_insert_ne. intros Heq. apply Hnot. left. exact Heq.
    + intros r' [<-|Hin] Hok.
      * rewrite Hst in Hok by exact Hnotin. rewrite lookup_insert_eq in Hok.
        injection Hok as ->. rewrite Hfr by assumption.
        unfold cached. now rewrite (load_after_save st r fs fs1 Hsave).
      * now apply Hld.
Qed.

(** X8: [save_all_results] reports on exactly the identifiers of the
    records it was given, and every record reported as saved is loaded
    back from the store it leaves: for records with distinct identifiers,
    each with a one-component date other than [..] and an identifier
    without separator, on a store whose result directory is there. *)
Theorem save_all_results_status (st : ResultStorage) (results : list StockSelectionResult)
    (fs fs' : filesys) (status : gmap string bool) :
  is_dir fs (result_dir st) = true ->
  Forall (fun r => is_name (trade_date r) = true /\ no_slash (selector_name r) = true)
         results ->
  List.NoDup (map selector_name results) ->
  save_all_results st results fs = (fs', status) ->
  (forall k, is_Some (status !! k) <-> In k (map selector_name results)) /\
  (forall r, In r results -> status !! selector_name r = Some true ->
             snd (load_result st (trade_date r) (selector_name r) fs') = Some r).
Proof.
  intros Hdir Hp Hnd Hs. destruct (is_dir_root_at st fs Hdir) as [rl Hroot].
  unfold save_all_results in Hs. split.
  - intros k. pose proof (save_each_keys st results fs ∅ k) as Hk. rewrite Hs in Hk.
    cbn [snd] in Hk. rewrite Hk, lookup_empty. split; [intros [[? ?]|?] | auto]; [discriminate | assumption].
  - now destruct (save_each_spec st results rl fs ∅ fs' status Hroot Hp Hnd Hs) as (_ & _ & _ & Hld).
Qed.

(** X9: [list_available_dates] on a result directory that is there: the
    list is in descending order and holds exactly the names of the
    directories in it that [strptime] accepts as [%Y-%m-%d]. *)
Theorem list_available_dates_exact (st : ResultStorage) (fs : filesys) :
  is_dir fs (result_dir st) = true ->
  exists dates, list_available_dates st fs = Ok dates /\
    Sorted desc dates /\
    forall x, In x dates <->
              is_dir fs (child (result_dir st) x) = true /\
              exists ymd, Datetime.strptime x = Ok ymd.
Proof.
  intros Hdir. destruct (is_dir_inv _ _ Hdir) as (rl & ents & Hr & Hf).
  assert (Hl : lookup fs (result_dir st) = Ok (Some (Dir ents)))
    by (unfold lookup; now rewrite Hr, Hf).
  destruct (list_available_dates_spec st fs ents Hl) as (dates & Hd & Hs & Hin).
  exists dates. split; [exact Hd|]. split; [exact Hs|]. intros x. rewrite Hin.
  split; [tauto|]. intros [Hx [ymd Hy]]. split; [|eauto].
  assert (Hdd : x <> "..") by (intros ->; vm_compute in Hy; discriminate).
  destruct (resolve_child fs _ x rl ents Hr Hf Hdd) as [Hr' Hf'].
  unfold is_dir, lookup in Hx. rewrite Hr', Hf' in Hx.
  destruct (assoc x ents) as [nd|] eqn:Ha; [|discriminate]. now apply assoc_Some_in in Ha.
Qed.

(** A partition named by a date of the date form is listed. *)
Lemma iso_partition_listed (st : ResultStorage) (fs : filesys) (d : string) :
  is_iso_date d = true -> is_dir fs (result_dir st // d) = true ->
  exists dates, list_available_dates st fs = Ok dates /\ In d dates.
Proof.
  intros Hiso Hd.
  pose proof (DatetimeFacts.iso_date_component d Hiso) as Hc.
  assert (Hj : result_dir st // d = child (result_dir st) d)
    by (now rewrite joinpath_component).
  destruct (DatetimeFacts.strptime_iso_date d Hiso) as [ymd Hy].
  assert (Hdd : d <> "..") by (intros ->; discriminate).
  assert (Hdir : is_dir fs (result_dir st) = true).
  { destruct (is_dir_inv _ _ Hd) as (l & ents & Hr & Hf).
    unfold is_dir, lookup, resolve in *. rewrite Hj in Hr. cbn [child p_parts p_anchor] in Hr.
    replace (start fs (child (result_dir st) d)) with (start fs (result_dir st)) in Hr
      by reflexivity.
    rewrite walk_app in Hr.
    destruct (walk (fs_root fs) (start fs (result_dir st)) (p_parts (result_dir st)))
      as [rl|e] eqn:Hw; [|discriminate].
    cbn [walk] in Hr. destruct (find (fs_root fs) rl) as [[?|?]|]; try discriminate.
    reflexivity. }
  destruct (is_dir_inv _ _ Hdir) as (rl & ents & Hr & Hf).
  assert (Hl : lookup fs (result_dir st) = Ok (Some (Dir ents)))
    by (unfold lookup; now rewrite Hr, Hf).
  destruct (list_available_dates_spec st fs ents Hl) as (dates & Hres & _ & Hin).
  exists dates. split; [exact Hres|]. apply Hin. rewrite <- Hj. split; [|split; [exact Hd | eauto]].
  destruct (resolve_child fs _ d rl ents Hr Hf Hdd) as [Hr' Hf'].
  rewrite Hj in Hd. unfold is_dir, lookup in Hd. rewrite Hr', Hf' in Hd.
  destruct (assoc d ents) as [nd|] eqn:Ha; [|discriminate]. now apply assoc_Some_in in Ha.
Qed.

(** X10: every partition named by a date of the form [YYYY-MM-DD] is
    listed by [list_available_dates], whatever else the result directory
    holds. *)
Theorem list_available_dates_complete (st : ResultStorage) (fs : filesys) (d : string) :
  is_iso_date d = true -> is_dir fs (result_dir st // d) = true ->
  exists dates, list_available_dates st fs = Ok dates /\ In d dates.
Proof. intros Hiso Hd. now apply iso_partition_listed. Qed.

(** X11: [list_available_dates] without a result directory: the list is
    empty when nothing has the name, and the call raises
    [NotADirectoryError] when a plain file has it. *)
Theorem list_available_dates_without_directory (st : ResultStorage) (fs : filesys) :
  is_dir fs (result_dir st) = false ->
  list_available_dates st fs
  = if exists_ fs (result_dir st) then Raise NotADirectoryError else Ok [].
Proof.
  unfold list_available_dates, is_dir, exists_, iterdir.
  destruct (lookup fs (result_dir st)) as [[[c|ents]|]|e]; cbn [negb]; intros Hd;
    try reflexivity; discriminate.
Qed.

(** X12: constructing a [ResultStorage] that succeeds leaves the result
    directory in place and every file as it was, and constructing it once
    more changes nothing. *)
Theorem init_makes_directory (dir : Path) (fs fs' : filesys) (st : ResultStorage) :
  init dir fs = (fs', Ok st) ->
  result_dir st = dir /\ is_dir fs' dir = true /\ extends fs fs' /\
  init dir fs' = (fs', Ok st).
Proof.
  intros Hi. destruct (init_is_dir dir fs fs' st Hi) as [Hrd Hd].
  split; [exact Hrd|]. split; [exact Hd|]. unfold init in *.
  destruct (mkdir_parents fs dir) as [fs1 [u|e]] eqn:Hm; [|discriminate].
  injection Hi as <- <-. split; [now destruct (mkdir_parents_spec _ _ _ _ Hm)|].
  now rewrite (mkdir_parents_is_dir _ _ Hd).
Qed.

(** X13: [result_exists] agrees with [load_result] where that finds a
    record, and where [result_exists] raises, [load_result] returns [None]
    and [save_result] returns [False]. *)
Theorem result_exists_agrees (st : ResultStorage) (d n : string) (fs : filesys) :
  (forall fs' r, load_result st d n fs = (fs', Some r) ->
                 result_exists st d n fs = (fs', Ok true)) /\
  (forall e, snd (result_exists st d n fs) = Raise e ->
             snd (load_result st d n fs) = None /\
             forall r, trade_date r = d -> selector_name r = n ->
                       snd (save_result st r fs) = false).
Proof.
  unfold load_result, result_exists, save_result. split.
  - intros fs' r. destruct (get_result_path st d n fs) as [fs1 [p|e]]; [|discriminate].
    destruct (exists_ fs1 p); cbn [negb]; [|discriminate].
    destruct (read_json fs1 p) as [v|]; [|discriminate].
    destruct (validate v); [|discriminate]. now intros [= <- _].
  - intros e He. destruct (get_result_path st d n fs) as [fs1 [p|e']] eqn:Hg; [discriminate|].
    split; [reflexivity|]. intros r <- <-. now rewrite Hg.
Qed.

Lemma iso_date_is_name (d : string) : is_iso_date d = true -> is_name d = true.
Proof.
  intros Hiso. unfold is_name. apply andb_true_iff. split.
  - now apply DatetimeFacts.iso_date_component.
  - apply negb_true_iff, String.eqb_neq. intros ->. discriminate.
Qed.


(** Making the partition of a date changes no answer. *)
Lemma touch_same (st : ResultStorage) (fs : filesys) (rl : loc) (d n : string) :
  root_at st fs rl -> is_name d = true ->
  same_view st rl fs (fst (get_result_path st d n fs)).
Proof.
  intros Hroot Hd. destruct (get_result_path st d n fs) as [fs1 p] eqn:Hg. cbn [fst].
  destruct (touch_view st fs fs1 rl d n p Hroot Hd Hg) as (Hroot' & Hfo & Hdb & _).
  split; [exact Hroot'|]. split.
  - intros d' k. unfold free, blocked. rewrite Hfo, Hdb; [reflexivity|].
    intros Heq. symmetry in Heq. now apply slot_loc_not_date in Heq.
  - intros d' n' Hd' Hn'.
    rewrite (cached_view st fs1 rl d' n' Hroot' Hd' Hn'), (cached_view st fs rl d' n' Hroot Hd' Hn').
    unfold blocked. now rewrite !Hfo.
Qed.

Lemma same_view_refl (st : ResultStorage) (fs : filesys) (rl : loc) :
  root_at st fs rl -> same_view st rl fs fs.
Proof. intros Hroot. split; [exact Hroot|]. split; reflexivity. Qed.

(** What saving does to the answers. *)
Lemma save_same (st : ResultStorage) (r : StockSelectionResult) (fs fs' : filesys)
    (rl : loc) (ok : bool) :
  root_at st fs rl -> is_name (trade_date r) = true -> no_slash (selector_name r) = true ->
  save_result st r fs = (fs', ok) ->
  same_except st rl (trade_date r) (selector_name r) fs fs' /\
  ok = free fs rl (trade_date r) (selector_name r) /\
  cached st (trade_date r) (selector_name r) fs'
  = if ok then Some r else cached st (trade_date r) (selector_name r) fs.
Proof.
  intros Hroot Hd Hn Hs.
  destruct (save_view st r fs fs' rl ok Hroot Hd Hn Hs) as (Hroot' & Hok & Hfo & Hdb & _).
  split; [split; [exact Hroot'|split]|split].
  - intros d k. unfold free, blocked. rewrite Hfo.
    rewrite (bool_decide_eq_false_2 (rl ++ [d] = _)) by apply slot_loc_not_date.
    rewrite andb_false_r, Hdb; [reflexivity|].
    intros Heq. symmetry in Heq. now apply slot_loc_not_date in Heq.
  - intros d n Hd' Hn' Hne. now apply (save_frame st r fs fs' rl ok).
  - exact Hok.
  - destruct ok.
    + unfold cached. now rewrite (load_after_save st r fs fs' Hs).
    + rewrite (cached_view st fs' rl _ _ Hroot' Hd Hn), (cached_view st fs rl _ _ Hroot Hd Hn).
      unfold blocked. now rewrite !Hfo.
Qed.

(** X14: without identifiers given, [load_all_results] has a key exactly
    for each name [list_available_selectors] lists at which [load_result]
    yields a record, with that record; an empty list of identifiers is
    treated like none. *)
Theorem load_all_results_all_names (st : ResultStorage) (d : string) (fs : filesys)
    (k : string) :
  snd (load_all_results st d None fs) !! k
  = (if bool_decide (k ∈ list_available_selectors st d fs)
     then snd (load_result st d k fs) else None) /\
  load_all_results st d (Some []) fs = load_all_results st d None fs.
Proof.
  split; [|reflexivity]. unfold load_all_results, list_available_selectors.
  destruct (exists_ fs (result_dir st // d)) eqn:Hx; cbn [negb truthy].
  - rewrite load_each_lookup by exact Hx. rewrite lookup_empty.
    rewrite (bool_decide_ext (k ∈ sorted (map stem (glob_suffix fs (result_dir st // d) ".json")))
               (k ∈ map stem (glob_suffix fs (result_dir st // d) ".json")))
      by (rewrite !list_elem_of_In; apply sorted_In).
    destruct (bool_decide _); [|reflexivity].
    now destruct (snd (load_result st d k fs)).
  - cbn [snd]. rewrite lookup_empty. now rewrite bool_decide_eq_false_2 by apply not_elem_of_nil.
Qed.

(** Once something has the name of the partition, making the partition
    changes nothing; and after making it something has the name. *)
Lemma touch_settles (st : ResultStorage) (fs : filesys) (rl : loc) (d n : string) :
  root_at st fs rl -> is_name d = true ->
  settled (fst (get_result_path st d n fs)) rl d = true /\
  (settled fs rl d = true -> fst (get_result_path st d n fs) = fs).
Proof.
  intros Hroot Hd. destruct (get_result_path st d n fs) as [fs1 p] eqn:Hg. cbn [fst].
  destruct (touch_view st fs fs1 rl d n p Hroot Hd Hg) as (_ & _ & _ & Hcase).
  unfold settled.
  destruct (find (fs_root fs) (rl ++ [d])) as [[c|ents]|] eqn:Hf; cbn [fileof dirb] in Hcase.
  - destruct Hcase as [-> _]. now rewrite Hf.
  - destruct Hcase as (_ & Hdb & Hsame). rewrite (Hsame eq_refl), Hf. auto.
  - destruct Hcase as (_ & Hdb & _). destruct (dirb_inv _ Hdb) as [ents ->].
    split; [reflexivity | discriminate].
Qed.

(** After a save something has the name of the partition, and a save
    that fails where that was so before changes nothing. *)
Lemma save_settles (st : ResultStorage) (r : StockSelectionResult) (fs fs' : filesys)
    (rl : loc) (ok : bool) :
  root_at st fs rl -> is_name (trade_date r) = true -> no_slash (selector_name r) = true ->
  save_result st r fs = (fs', ok) ->
  settled fs' rl (trade_date r) = true /\
  (settled fs rl (trade_date r) = true -> ok = false -> fs' = fs).
Proof.
  intros Hroot Hd Hn Hs.
  destruct (save_view st r fs fs' rl ok Hroot Hd Hn Hs) as (_ & Hok & _ & _ & Hdate & Hfail).
  destruct (touch_settles st fs rl (trade_date r) (selector_name r) Hroot Hd) as [Hset Hsame].
  split.
  - destruct ok.
    + symmetry in Hok. apply andb_true_iff in Hok as [Hb _]. apply negb_true_iff in Hb.
      unfold settled. now destruct (dirb_inv _ (Hdate Hb)) as [ents ->].
    + now rewrite (Hfail eq_refl).
  - intros Hs0 ->. rewrite (Hfail eq_refl). now apply Hsame.
Qed.

(** X23: the date of a record that was saved is listed by
    [list_available_dates] afterwards (a date of the form [YYYY-MM-DD]). *)
Theorem saved_date_is_listed (st : ResultStorage) (r : StockSelectionResult)
    (fs fs' : filesys) :
  is_dir fs (result_dir st) = true ->
  is_iso_date (trade_date r) = true -> no_slash (selector_name r) = true ->
  save_result st r fs = (fs', true) ->
  exists dates, list_available_dates st fs' = Ok dates /\ In (trade_date r) dates.
Proof.
  intros Hdir Hiso Hn Hs. apply iso_partition_listed; [exact Hiso|].
  destruct (saved_entry st r fs fs' Hdir (iso_date_is_name _ Hiso) Hn Hs) as (ents & Hl & _).
  unfold is_dir. now rewrite Hl.
Qed.

End WithPydantic.

Lemma save_keeps_other_addresses_witness :
  snd (@load_result Scenario.strict Scenario.store "2024-01-10" "Y" Scenario.fs_with_X)
  = snd (@load_result Scenario.strict Scenario.store "2024-01-10" "Y" Scenario.fs_fresh).
Proof.
  apply (@save_keeps_other_addresses Scenario.strict Scenario.store (Scenario.record "X")
           Scenario.fs_fresh Scenario.fs_with_X true "2024-01-10" "Y");
    try (vm_compute; reflexivity).
  intros Heq. discriminate.
Defined.


Lemma load_result_reads_record_witness :
  exists v, read_json Scenario.fs_with_X (result_location Scenario.store "2024-01-10" "X") = Ok v /\
            @validate Scenario.strict v = Ok (Scenario.record "X").
Proof.
  apply (@load_result_reads_record Scenario.strict Scenario.store "2024-01-10" "X"
           Scenario.fs_with_X Scenario.fs_with_X (Some (Scenario.record "X")));
    try (vm_compute; reflexivity).
Defined.

Lemma saved_record_is_enumerated_witness :
  In "X" (list_available_selectors Scenario.store "2024-01-10" Scenario.fs_with_X) /\
  snd (@load_all_results Scenario.strict Scenario.store "2024-01-10" None Scenario.fs_with_X)
    !! "X" = Some (Scenario.record "X").
Proof.
  apply (@saved_record_is_enumerated Scenario.strict Scenario.store (Scenario.record "X")
           Scenario.fs_fresh Scenario.fs_with_X);
    try (vm_compute; reflexivity).
  intros Heq. discriminate.
Defined.

Lemma save_all_results_status_witness :
  let results := [Scenario.record "X"; Scenario.record "Y"] in
  let after := save_all_results Scenario.store results Scenario.fs_fresh in
  (forall k, is_Some (snd after !! k) <-> In k ["X"; "Y"]) /\
  (forall r, In r results -> snd after !! selector_name r = Some true ->
             snd (@load_result Scenario.strict Scenario.store (trade_date r)
                    (selector_name r) (fst after)) = Some r).
Proof.
  apply (@save_all_results_status Scenario.strict Scenario.store
           [Scenario.record "X"; Scenario.record "Y"] Scenario.fs_fresh).
  - vm_compute; reflexivity.
  - repeat constructor.
  - repeat constructor; cbn [map In Scenario.record selector_name]; intuition discriminate.
  - apply surjective_pairing.
Defined.

Lemma list_available_dates_exact_witness :
  exists dates, list_available_dates Scenario.store Scenario.fs_listing = Ok dates /\
    Sorted desc dates /\
    forall x, In x dates <->
              is_dir Scenario.fs_listing (child (result_dir Scenario.store) x) = true /\
              exists ymd, Datetime.strptime x = Ok ymd.
Proof.
  apply (list_available_dates_exact Scenario.store Scenario.fs_listing).
  vm_compute; reflexivity.
Defined.

Lemma list_available_dates_complete_witness :
  exists dates, list_available_dates Scenario.store Scenario.fs_listing = Ok dates /\
                In "2024-02-01" dates.
Proof.
  apply (list_available_dates_complete Scenario.store Scenario.fs_listing "2024-02-01");
    vm_compute; reflexivity.
Defined.

Lemma list_available_dates_without_directory_witness :
  list_available_dates (mkStorage (parse "./result/2024-01-10")) Scenario.fs_blocked
  = Raise NotADirectoryError.
Proof.
  apply (list_available_dates_without_directory (mkStorage (parse "./result/2024-01-10"))
           Scenario.fs_blocked).
  vm_compute; reflexivity.
Defined.

Lemma init_makes_directory_witness :
  let made := fst (init (parse "./result") (mkFs (Dir [("app", Dir [])]) ["app"])) in
  made = Scenario.fs_fresh /\
  is_dir made (parse "./result") = true /\
  init (parse "./result") made = (made, Ok Scenario.store).
Proof.
  destruct (init_makes_directory (parse "./result") (mkFs (Dir [("app", Dir [])]) ["app"])
              Scenario.fs_fresh Scenario.store ltac:(vm_compute; reflexivity))
    as (_ & Hd & _ & Hi).
  split; [vm_compute; reflexivity|]. split; [exact Hd | exact Hi].
Defined.

Lemma result_exists_agrees_witness :
  @result_exists Scenario.store "2024-01-10" "X" Scenario.fs_with_X
  = (Scenario.fs_with_X, Ok true).
Proof.
  apply (proj1 (@result_exists_agrees Scenario.strict Scenario.store "2024-01-10" "X"
                  Scenario.fs_with_X) Scenario.fs_with_X (Scenario.record "X")).
  vm_compute; reflexivity.
Defined.

Lemma saved_date_is_listed_witness :
  exists dates, list_available_dates Scenario.store Scenario.fs_with_X = Ok dates /\
                In "2024-01-10" dates.
Proof.
  apply (@saved_date_is_listed Scenario.store (Scenario.record "X")
           Scenario.fs_fresh Scenario.fs_with_X);
    vm_compute; reflexivity.
Defined.

End StorageExtras.

(** ** The loop of run_selection and the endpoints *)

Module RunExtras.
Import Pathlib FS Pandas Spec Api View Run Endpoints.
Import FSFacts PathlibFacts StorageFacts ViewFacts StorageExtras.

Lemma of_cached_to_storage (r : StockSelectionResult) : of_cached (to_storage r) = r.
Proof. now destruct r. Qed.


(** The builtin [max] never leaves a first item that is [NaT], and
    passes over every later one. *)
Lemma py_max_NaT (rest : list Timestamp) : py_max NaT rest = NaT.
Proof.
  unfold py_max. induction rest as [|y rest IH]; [reflexivity|].
  cbn [fold_left]. now destruct y.
Qed.

Lemma py_max_skips (ts : list Timestamp) : forall x,
  py_max (TS x) ts
  = TS (fold_left (fun m t => match t with TS y => Z.max m y | NaT => m end) ts x).
Proof.
  unfold py_max. induction ts as [|y ts IH]; intros x; [reflexivity|].
  cbn [fold_left]. destruct y as [|v]; cbn [gt]; [apply IH|].
  destruct (Z.ltb_spec x v).
  - rewrite Z.max_r by lia. apply IH.
  - rewrite Z.max_l by lia. apply IH.
Qed.

Lemma fold_skip_spec (ts : list Timestamp) : forall x,
  let F := fold_left (fun m t => match t with TS y => Z.max m y | NaT => m end) ts x in
  x <= F /\ (forall y, In (TS y) ts -> y <= F) /\ (F = x \/ In (TS F) ts).
Proof.
  induction ts as [|t ts IH]; intros x; cbn [fold_left In].
  - split; [lia|]. split; [intros y []|now left].
  - destruct t as [|v].
    + destruct (IH x) as (Hge & Hall & Hwhich). split; [exact Hge|]. split.
      * intros y [Hy|Hy]; [discriminate | now apply Hall].
      * destruct Hwhich; auto.
    + destruct (IH (Z.max x v)) as (Hge & Hall & Hwhich). split; [lia|]. split.
      * intros y [[= ->]|Hy]; [lia | now apply Hall].
      * destruct Hwhich as [Hw|Hw]; [|auto].
        destruct (Z.max_spec x v) as [[_ Hm]|[_ Hm]].
        -- right. left. f_equal. lia.
        -- left. lia.
Qed.

Section WithCollaborators.
Context `{Storage.Pydantic} `{Collaborators}.

Lemma effective_inv (cfg : Config) :
  effective cfg = true ->
  activate_is_False cfg = false /\
  exists alias selector, instantiate_selector cfg = Ok (alias, selector).
Proof.
  unfold effective. intros [Ha Hi]%andb_true_iff. split; [now apply negb_true_iff|].
  destruct (instantiate_selector cfg) as [[alias selector]|]; [eauto | discriminate].
Qed.

(** A configuration that is deactivated or cannot be built is passed
    over. *)
Lemma loop_body_skip (td : Timestamp) (tds : string) (data : Data) (uc sv : bool)
    (st : Storage.ResultStorage) (cfg : Config) (s : state)
    (res : list StockSelectionResult) :
  effective cfg = false -> loop_body td tds data uc sv st cfg s res = (s, res).
Proof.
  unfold effective, loop_body. destruct (activate_is_False cfg); [reflexivity|].
  now destruct (instantiate_selector cfg) as [[alias selector]|].
Qed.

(** X15: configurations that are deactivated or whose selector cannot be
    built have no effect on a run: the results, the store and the calls
    are those of the run without them. *)
Theorem run_loop_skips_ineffective (td : Timestamp) (tds : string) (data : Data)
    (uc sv : bool) (st : Storage.ResultStorage) (cfgs : list Config) :
  forall s res,
  run_loop td tds data uc sv st cfgs s res
  = run_loop td tds data uc sv st (List.filter effective cfgs) s res.
Proof.
  induction cfgs as [|cfg cfgs IH]; intros s res; [reflexivity|].
  cbn [run_loop List.filter]. destruct (effective cfg) eqn:He.
  - cbn [run_loop]. destruct (loop_body td tds data uc sv st cfg s res) as [s1 res1].
    apply IH.
  - rewrite loop_body_skip by exact He. apply IH.
Qed.

Lemma loop_body_plain (td : Timestamp) (tds : string) (data : Data)
    (st : Storage.ResultStorage) (cfg : Config) (s : state)
    (res : list StockSelectionResult) :
  exists added,
    loop_body td tds data false false st cfg s res
    = (mkState (fs s) (calls s ++ added),
       snd (loop_body td tds data false false st cfg s res)) /\
    forallb is_select added = true.
Proof.
  unfold loop_body, check_cache. destruct s as [f cs]. cbn [fs calls].
  destruct (activate_is_False cfg); [exists []; now rewrite app_nil_r|].
  destruct (instantiate_selector cfg) as [[alias selector]|];
    [|exists []; now rewrite app_nil_r].
  exists [CallSelect alias]. cbn [fs calls]. now destruct (select selector td data).
Qed.

(** X16: a run that neither uses the cache nor saves leaves the store as
    it is, and the only calls it makes are those of [select]. *)
Theorem plain_run_keeps_store (td : Timestamp) (tds : string) (data : Data)
    (st : Storage.ResultStorage) (cfgs : list Config) :
  forall s res,
  exists added,
    fst (run_loop td tds data false false st cfgs s res)
    = mkState (fs s) (calls s ++ added) /\
    forallb is_select added = true.
Proof.
  induction cfgs as [|cfg cfgs IH]; intros s res; cbn [run_loop].
  - exists []. destruct s. cbn. now rewrite app_nil_r.
  - destruct (loop_body_plain td tds data st cfg s res) as (a1 & -> & Ha1).
    destruct (IH (mkState (fs s) (calls s ++ a1))
                 (snd (loop_body td tds data false false st cfg s res))) as (a2 & -> & Ha2).
    exists (a1 ++ a2). cbn [fs calls]. rewrite <- app_assoc. split; [reflexivity|].
    rewrite forallb_app. now rewrite Ha1, Ha2.
Qed.

Lemma loop_body_uncached (td : Timestamp) (tds : string) (data : Data) (sv1 sv2 : bool)
    (st1 st2 : Storage.ResultStorage) (cfg : Config) (s1 s2 : state)
    (res : list StockSelectionResult) :
  snd (loop_body td tds data false sv1 st1 cfg s1 res)
  = snd (loop_body td tds data false sv2 st2 cfg s2 res).
Proof.
  unfold loop_body, check_cache. destruct (activate_is_False cfg); [reflexivity|].
  destruct (instantiate_selector cfg) as [[alias selector]|]; [|reflexivity].
  destruct (select selector td data) as [picks ls|e]; [|reflexivity].
  destruct sv1, sv2; cbn [fs calls];
    repeat match goal with
           | |- context [Storage.save_result ?a ?b ?c] => destruct (Storage.save_result a b c)
           end; reflexivity.
Qed.

(** X17: without the cache the results of a run depend on the
    configurations, the date and the data only: not on what is in the
    store, on the storage manager, or on whether they are saved. *)
Theorem uncached_results_ignore_store (td : Timestamp) (tds : string) (data : Data)
    (sv1 sv2 : bool) (st1 st2 : Storage.ResultStorage) (cfgs : list Config) :
  forall s1 s2 res,
  snd (run_loop td tds data false sv1 st1 cfgs s1 res)
  = snd (run_loop td tds data false sv2 st2 cfgs s2 res).
Proof.
  induction cfgs as [|cfg cfgs IH]; intros s1 s2 res; cbn [run_loop]; [reflexivity|].
  pose proof (loop_body_uncached td tds data sv1 sv2 st1 st2 cfg s1 s2 res) as Hb.
  destruct (loop_body td tds data false sv1 st1 cfg s1 res) as [t1 r1].
  destruct (loop_body td tds data false sv2 st2 cfg s2 res) as [t2 r2].
  cbn [snd] in Hb. subst r2. apply IH.
Qed.

(** What one iteration does to the answers of the cache, and the result
    it adds. *)
Lemma loop_body_view (td : Timestamp) (tds : string) (data : Data) (uc sv : bool)
    (st : Storage.ResultStorage) (cfg : Config) (s s1 : state)
    (res res1 : list StockSelectionResult) (rl : loc) (alias : string)
    (selector : Selector) :
  root_at st (fs s) rl -> is_name tds = true -> no_slash (key cfg) = true ->
  activate_is_False cfg = false -> instantiate_selector cfg = Ok (alias, selector) ->
  loop_body td tds data uc sv st cfg s res = (s1, res1) ->
  same_except st rl tds (key cfg) (fs s) (fs s1) /\
  match (if uc then cached st tds (key cfg) (fs s) else None) with
  | Some c =>
      res1 = res ++ [of_cached c] /\
      cached st tds (key cfg) (fs s1) = cached st tds (key cfg) (fs s)
  | None =>
      match select selector td data with
      | Raises _ =>
          res1 = res /\ cached st tds (key cfg) (fs s1) = cached st tds (key cfg) (fs s)
      | Returns picks ls =>
          let r := fresh_result tds (key cfg) alias picks ls in
          res1 = res ++ [r] /\
          cached st tds (key cfg) (fs s1)
          = if sv && free (fs s) rl tds (key cfg) then Some (to_storage r)
            else cached st tds (key cfg) (fs s)
      end
  end.
Proof.
  intros Hroot Hd Hn Hact Hinst Hlb. unfold loop_body in Hlb.
  rewrite Hact, Hinst in Hlb. change (default "Unknown" (cfg_class cfg)) with (key cfg) in Hlb.
  assert (Hcheck : exists s0,
            check_cache uc st tds (key cfg) s
            = (s0, if uc then cached st tds (key cfg) (fs s) else None) /\
            same_view st rl (fs s) (fs s0)).
  { unfold check_cache, cached. destruct uc.
    - pose proof (load_result_store st tds (key cfg) (fs s)) as Hst.
      destruct (Storage.load_result st tds (key cfg) (fs s)) as [f1 o]. cbn [fst snd] in *.
      eexists. split; [reflexivity|]. cbn [fs]. subst f1. now apply touch_same.
    - exists s. split; [reflexivity | now apply same_view_refl]. }
  destruct Hcheck as (s0 & Hc & Hroot0 & Hfree0 & Hcache0). rewrite Hc in Hlb.
  assert (Hview : same_except st rl tds (key cfg) (fs s) (fs s0)).
  { split; [exact Hroot0|]. split; [exact Hfree0|]. intros d n Hd' Hn' _. now apply Hcache0. }
  destruct (if uc then cached st tds (key cfg) (fs s) else None) as [c|].
  - injection Hlb as <- <-. split; [exact Hview|]. split; [reflexivity | now apply Hcache0].
  - cbv zeta in Hlb. destruct (select selector td data) as [picks ls|e].
    + cbv zeta. change {| selector_name := key cfg; alias := alias; trade_date := tds;
                          selected_stocks := picks; scores := scores_of ls;
                          count := Z.of_nat (length picks) |}
        with (fresh_result tds (key cfg) alias picks ls) in Hlb.
      set (r := fresh_result tds (key cfg) alias picks ls) in *.
      destruct sv; cbn [andb].
      * cbn [fs calls] in Hlb.
        destruct (Storage.save_result st (to_storage r) (fs s0)) as [f3 ok] eqn:Hsv.
        injection Hlb as <- <-. cbn [fs].
        destruct (save_same st (to_storage r) (fs s0) f3 rl ok Hroot0 Hd Hn Hsv)
          as ((Hroot3 & Hfree3 & Hcache3) & Hok & Hkey).
        cbn [to_storage Storage.trade_date Storage.selector_name r fresh_result
             trade_date selector_name] in *.
        split; [split; [exact Hroot3|split]|split; [reflexivity|]].
        -- intros d k. now rewrite Hfree3, Hfree0.
        -- intros d n Hd' Hn' Hne. rewrite Hcache3 by assumption. now apply Hcache0.
        -- rewrite Hkey, Hok, Hfree0.
           destruct (free (fs s) rl tds (key cfg)); [reflexivity | now apply Hcache0].
      * injection Hlb as <- <-. cbn [fs].
        split; [exact Hview|]. split; [reflexivity | now apply Hcache0].
    + injection Hlb as <- <-. cbn [fs].
      split; [exact Hview|]. split; [reflexivity | now apply Hcache0].
Qed.

(** What a run does to the answers of the cache: it changes them under
    its own date and the keys of its configurations only. *)
Lemma run_loop_view (td : Timestamp) (tds : string) (data : Data) (uc sv : bool)
    (st : Storage.ResultStorage) (rl : loc) (cfgs : list Config) :
  forall s res s' out,
  root_at st (fs s) rl -> is_name tds = true ->
  Forall (fun cfg => no_slash (key cfg) = true) (List.filter effective cfgs) ->
  run_loop td tds data uc sv st cfgs s res = (s', out) ->
  root_at st (fs s') rl /\
  (forall d k, free (fs s') rl d k = free (fs s) rl d k) /\
  (forall d n, is_name d = true -> no_slash n = true ->
               d <> tds \/ ~ In n (map key (List.filter effective cfgs)) ->
               cached st d n (fs s') = cached st d n (fs s)).
Proof.
  induction cfgs as [|cfg cfgs IH]; intros s res s' out Hroot Hd Hp Hrun;
    cbn [run_loop List.filter] in *.
  - injection Hrun as <- <-. auto.
  - destruct (effective cfg) eqn:He.
    + destruct (effective_inv cfg He) as (Hact & alias & selector & Hinst).
      inversion Hp as [|? ? Hn Hp']; subst.
      destruct (loop_body td tds data uc sv st cfg s res) as [s1 res1] eqn:Hlb.
      destruct (loop_body_view td tds data uc sv st cfg s s1 res res1 rl alias selector
                  Hroot Hd Hn Hact Hinst Hlb) as ((Hroot1 & Hfree1 & Hcache1) & _).
      destruct (IH s1 res1 s' out Hroot1 Hd Hp' Hrun) as (Hroot' & Hfree' & Hcache').
      split; [exact Hroot'|]. split.
      * intros d k. now rewrite Hfree', Hfree1.
      * intros d n Hd' Hn' Hout. cbn [map In] in Hout.
        rewrite Hcache' by (try assumption; tauto).
        apply Hcache1; try assumption. intros [= -> ->]. destruct Hout as [Ho|Ho]; [now apply Ho|].
        apply Ho. now left.
    + rewrite loop_body_skip in Hrun by exact He. now apply (IH s res s' out).
Qed.

(** A run on a state that answers alike adds the same results. *)
Lemma run_loop_replay (td : Timestamp) (tds : string) (data : Data) (sv sv2 : bool)
    (st : Storage.ResultStorage) (rl : loc) (cfgs : list Config) :
  forall s res s' out t res2,
  root_at st (fs s) rl -> root_at st (fs t) rl -> is_name tds = true ->
  Forall (fun cfg => no_slash (key cfg) = true) (List.filter effective cfgs) ->
  List.NoDup (map key (List.filter effective cfgs)) ->
  (forall cfg, In cfg (List.filter effective cfgs) ->
               cached st tds (key cfg) (fs t) = cached st tds (key cfg) (fs s')) ->
  run_loop td tds data true sv st cfgs s res = (s', out) ->
  exists delta,
    out = res ++ delta /\
    snd (run_loop td tds data true sv2 st cfgs t res2) = res2 ++ delta.
Proof.
  induction cfgs as [|cfg cfgs IH]; intros s res s' out t res2 Hroot Hroot2 Hd Hp Hnd Hsame Hrun;
    cbn [run_loop List.filter] in *.
  - injection Hrun as <- <-. exists []. now rewrite !app_nil_r.
  - destruct (effective cfg) eqn:He.
    + destruct (effective_inv cfg He) as (Hact & alias & selector & Hinst).
      inversion Hp as [|? ? Hn Hp']; subst. cbn [map] in Hnd.
      inversion Hnd as [|? ? Hnotin Hnd']; subst.
      destruct (loop_body td tds data true sv st cfg s res) as [s1 res1] eqn:Hlb.
      destruct (loop_body td tds data true sv2 st cfg t res2) as [t1 res21] eqn:Hlb2.
      destruct (loop_body_view td tds data true sv st cfg s s1 res res1 rl alias selector
                  Hroot Hd Hn Hact Hinst Hlb) as ((Hroot1 & Hfree1 & Hcache1) & Hstep1).
      destruct (loop_body_view td tds data true sv2 st cfg t t1 res2 res21 rl alias selector
                  Hroot2 Hd Hn Hact Hinst Hlb2) as ((Hroot21 & Hfree21 & Hcache21) & Hstep2).
      destruct (run_loop_view td tds data true sv st rl cfgs s1 res1 s' out Hroot1 Hd Hp' Hrun)
        as (_ & _ & Hframe).
      assert (Hkey : cached st tds (key cfg) (fs t) = cached st tds (key cfg) (fs s1)).
      { rewrite Hsame by now left. apply Hframe; auto. }
      assert (Hone : exists d1, res1 = res ++ d1 /\ res21 = res2 ++ d1).
      { destruct (cached st tds (key cfg) (fs s)) as [c|] eqn:Hc0.
        - destruct Hstep1 as [-> Hk1]. rewrite Hk1 in Hkey. rewrite Hkey in Hstep2.
          destruct Hstep2 as [-> _]. eauto.
        - destruct (select selector td data) as [picks ls|e].
          + cbv zeta in Hstep1, Hstep2. destruct Hstep1 as [-> Hk1]. rewrite Hk1 in Hkey.
            destruct (sv && free (fs s) rl tds (key cfg)).
            * rewrite Hkey in Hstep2. destruct Hstep2 as [-> _].
              rewrite of_cached_to_storage. eauto.
            * rewrite Hkey in Hstep2. destruct Hstep2 as [-> _]. eauto.
          + destruct Hstep1 as [-> Hk1]. rewrite Hk1 in Hkey. rewrite Hkey in Hstep2.
            destruct Hstep2 as [-> _]. exists []. now rewrite !app_nil_r. }
      destruct Hone as (d1 & -> & ->).
      destruct (IH s1 (res ++ d1) s' out t1 (res2 ++ d1) Hroot1 Hroot21 Hd Hp' Hnd') as (d2 & -> & Hsnd).
      * intros cfg' Hin. rewrite <- Hsame by now right. apply Hcache21.
        -- exact Hd.
        -- rewrite List.Forall_forall in Hp'. now apply Hp'.
        -- intros [= Heq]. apply Hnotin. rewrite <- Heq. now apply in_map.
      * exact Hrun.
      * exists (d1 ++ d2). rewrite !app_assoc. split; [reflexivity | exact Hsnd].
    + rewrite loop_body_skip in Hrun by exact He. rewrite loop_body_skip by exact He.
      now apply (IH s res s' out t res2).
Qed.

(** X18: a run with the cache is repeatable: run again on the store it
    left, with the same configurations, it returns the same results,
    whether or not either run saves (configurations with distinct class
    names). *)
Theorem cached_run_repeats (td : Timestamp) (tds : string) (data : Data) (sv sv2 : bool)
    (st : Storage.ResultStorage) (cfgs : list Config) (s s' : state)
    (out : list StockSelectionResult) :
  is_dir (fs s) (Storage.result_dir st) = true -> is_name tds = true ->
  Forall (fun cfg => no_slash (key cfg) = true) (List.filter effective cfgs) ->
  List.NoDup (map key (List.filter effective cfgs)) ->
  run_loop td tds data true sv st cfgs s [] = (s', out) ->
  snd (run_loop td tds data true sv2 st cfgs s' []) = out.
Proof.
  intros Hdir Hd Hp Hnd Hrun. destruct (is_dir_root_at st (fs s) Hdir) as [rl Hroot].
  destruct (run_loop_view td tds data true sv st rl cfgs s [] s' out Hroot Hd Hp Hrun)
    as (Hroot' & _).
  destruct (run_loop_replay td tds data sv sv2 st rl cfgs s [] s' out s' []
              Hroot Hroot' Hd Hp Hnd ltac:(reflexivity) Hrun) as (delta & -> & ->).
  reflexivity.
Qed.





(** X21: [GET /results/dates] answers with the status 500 exactly when a
    plain file has the name of the result directory; otherwise the count it
    reports is the number of dates it lists. *)
Theorem get_result_dates_status (f : filesys) :
  (get_result_dates f = Raise (HTTPException 500) <->
   exists_ f DEFAULT_RESULT_DIR = true /\ is_dir f DEFAULT_RESULT_DIR = false) /\
  (forall e, get_result_dates f = Raise e -> e = HTTPException 500) /\
  (forall body, get_result_dates f = Ok body ->
                Storage.list_available_dates result_storage f = Ok (dates body) /\
                dates_success body = true /\
                dates_count body = Z.of_nat (length (dates body))).
Proof.
  unfold get_result_dates, Storage.list_available_dates, exists_, is_dir, iterdir.
  change (Storage.result_dir result_storage) with DEFAULT_RESULT_DIR.
  destruct (lookup f DEFAULT_RESULT_DIR) as [[[c|ents]|]|e]; cbn [negb].
  - split; [split; [auto | reflexivity]|]. split; [now intros e [= <-] | discriminate].
  - split; [split; [discriminate | intros [_ ?]; discriminate]|].
    split; [discriminate | now intros body [= <-]].
  - split; [split; [discriminate | intros [? _]; discriminate]|].
    split; [discriminate | now intros body [= <-]].
  - split; [split; [discriminate | intros [? _]; discriminate]|].
    split; [discriminate | now intros body [= <-]].
Qed.

(** An iteration that probes the cache leaves something under the name of
    the partition. *)
Lemma loop_body_settles (td : Timestamp) (tds : string) (data : Data) (sv : bool)
    (st : Storage.ResultStorage) (cfg : Config) (s s1 : state)
    (res res1 : list StockSelectionResult) (rl : loc) :
  root_at st (fs s) rl -> is_name tds = true -> no_slash (key cfg) = true ->
  effective cfg = true ->
  loop_body td tds data true sv st cfg s res = (s1, res1) ->
  settled (fs s1) rl tds = true.
Proof.
  intros Hroot Hd Hn He Hlb. destruct (effective_inv cfg He) as (Hact & alias & selector & Hinst).
  unfold loop_body in Hlb. rewrite Hact, Hinst in Hlb.
  change (default "Unknown" (cfg_class cfg)) with (key cfg) in Hlb.
  unfold check_cache in Hlb.
  pose proof (load_result_store st tds (key cfg) (fs s)) as Hst.
  destruct (touch_settles st (fs s) rl tds (key cfg) Hroot Hd) as [Hset _].
  destruct (touch_same st (fs s) rl tds (key cfg) Hroot Hd) as [Hroot1 _].
  destruct (Storage.load_result st tds (key cfg) (fs s)) as [f1 o]. cbn [fst] in Hst.
  rewrite <- Hst in Hset, Hroot1.
  destruct o as [c|]; [now injection Hlb as <- <-|].
  cbv zeta in Hlb. destruct (select selector td data) as [picks ls|e];
    [|now injection Hlb as <- <-].
  destruct sv; [|now injection Hlb as <- <-]. cbn [fs calls] in Hlb.
  match type of Hlb with
  | context [Storage.save_result st ?r f1] =>
      destruct (Storage.save_result st r f1) as [f3 ok] eqn:Hsv;
      destruct (save_settles st r f1 f3 rl ok Hroot1 Hd Hn Hsv) as [Hset3 _]
  end.
  now injection Hlb as <- <-.
Qed.

(** An iteration whose result is cached, whose strategy fails or whose
    result cannot be saved leaves a store as it is, once something has the
    name of the partition. *)
Lemma loop_body_still (td : Timestamp) (tds : string) (data : Data) (sv : bool)
    (st : Storage.ResultStorage) (cfg : Config) (s : state)
    (res : list StockSelectionResult) (rl : loc) (alias : string) (selector : Selector) :
  root_at st (fs s) rl -> is_name tds = true -> no_slash (key cfg) = true ->
  activate_is_False cfg = false -> instantiate_selector cfg = Ok (alias, selector) ->
  settled (fs s) rl tds = true ->
  (exists c, cached st tds (key cfg) (fs s) = Some c) \/
  (exists e, select selector td data = Raises e) \/
  free (fs s) rl tds (key cfg) = false ->
  fs (fst (loop_body td tds data true sv st cfg s res)) = fs s.
Proof.
  intros Hroot Hd Hn Hact Hinst Hset Hcond. unfold loop_body. rewrite Hact, Hinst.
  change (default "Unknown" (cfg_class cfg)) with (key cfg). unfold check_cache.
  pose proof (load_result_store st tds (key cfg) (fs s)) as Hst.
  destruct (touch_settles st (fs s) rl tds (key cfg) Hroot Hd) as [_ Hsame].
  rewrite (Hsame Hset) in Hst. unfold cached in Hcond.
  destruct (Storage.load_result st tds (key cfg) (fs s)) as [f1 o]. cbn [fst snd] in *.
  subst f1. destruct o as [c|]; [reflexivity|]. cbv zeta.
  destruct (select selector td data) as [picks ls|e]; [|reflexivity].
  destruct sv; [|reflexivity]. cbn [fs calls].
  match goal with
  | |- context [Storage.save_result st ?r (fs s)] =>
      destruct (Storage.save_result st r (fs s)) as [f3 ok] eqn:Hsv;
      destruct (save_settles st r (fs s) f3 rl ok Hroot Hd Hn Hsv) as [_ Hstill];
      destruct (save_same st r (fs s) f3 rl ok Hroot Hd Hn Hsv) as (_ & Hok & _)
  end.
  cbn [fst fs]. cbn [to_storage Storage.trade_date Storage.selector_name] in Hok, Hstill.
  destruct Hcond as [[c Hc]|[[e He]|Hfree]]; [discriminate | discriminate |].
  apply Hstill; [exact Hset | now rewrite Hok].
Qed.

Lemma run_loop_still (td : Timestamp) (tds : string) (data : Data) (sv : bool)
    (st : Storage.ResultStorage) (rl : loc) (f : filesys) (cfgs : list Config) :
  root_at st f rl -> is_name tds = true ->
  Forall (fun cfg => no_slash (key cfg) = true) (List.filter effective cfgs) ->
  (List.filter effective cfgs <> [] -> settled f rl tds = true) ->
  (forall cfg alias selector,
     In cfg (List.filter effective cfgs) -> instantiate_selector cfg = Ok (alias, selector) ->
     (exists c, cached st tds (key cfg) f = Some c) \/
     (exists e, select selector td data = Raises e) \/
     free f rl tds (key cfg) = false) ->
  forall s res, fs s = f ->
  fs (fst (run_loop td tds data true sv st cfgs s res)) = f.
Proof.
  intros Hroot Hd. induction cfgs as [|cfg cfgs IH]; intros Hp Hset Hcond s res Hs;
    cbn [run_loop List.filter] in *; [exact Hs|].
  destruct (effective cfg) eqn:He.
  - destruct (effective_inv cfg He) as (Hact & alias & selector & Hinst).
    inversion Hp as [|? ? Hn Hp']; subst.
    pose proof (loop_body_still td tds data sv st cfg s res rl alias selector
                  Hroot Hd Hn Hact Hinst (Hset ltac:(discriminate))
                  (Hcond cfg alias selector ltac:(now left) Hinst)) as Hstill.
    destruct (loop_body td tds data true sv st cfg s res) as [s1 res1]. cbn [fst] in Hstill.
    apply IH; [exact Hp' | | | exact Hstill].
    + intros _. apply Hset. discriminate.
    + intros cfg' a' s0' Hin. apply Hcond. now right.
  - rewrite loop_body_skip by exact He. now apply IH.
Qed.

(** What a saving run with the cache leaves: each configuration has its
    result cached, or a strategy that fails, or a result that cannot be
    saved. *)
Lemma run_loop_settles (td : Timestamp) (tds : string) (data : Data)
    (st : Storage.ResultStorage) (rl : loc) (cfgs : list Config) :
  forall s res s' out,
  root_at st (fs s) rl -> is_name tds = true ->
  Forall (fun cfg => no_slash (key cfg) = true) (List.filter effective cfgs) ->
  List.NoDup (map key (List.filter effective cfgs)) ->
  run_loop td tds data true true st cfgs s res = (s', out) ->
  (settled (fs s) rl tds = true \/ List.filter effective cfgs <> [] ->
   settled (fs s') rl tds = true) /\
  (forall cfg alias selector,
     In cfg (List.filter effective cfgs) -> instantiate_selector cfg = Ok (alias, selector) ->
     (exists c, cached st tds (key cfg) (fs s') = Some c) \/
     (exists e, select selector td data = Raises e) \/
     free (fs s') rl tds (key cfg) = false).
Proof.
  induction cfgs as [|cfg cfgs IH]; intros s res s' out Hroot Hd Hp Hnd Hrun;
    cbn [run_loop List.filter] in *.
  - injection Hrun as <- <-. split; [intros [?|?]; congruence | intros ? ? ? []].
  - destruct (effective cfg) eqn:He.
    + destruct (effective_inv cfg He) as (Hact & alias & selector & Hinst).
      inversion Hp as [|? ? Hn Hp']; subst. cbn [map] in Hnd.
      inversion Hnd as [|? ? Hnotin Hnd']; subst.
      destruct (loop_body td tds data true true st cfg s res) as [s1 res1] eqn:Hlb.
      pose proof (loop_body_settles td tds data true st cfg s s1 res res1 rl
                    Hroot Hd Hn He Hlb) as Hset1.
      destruct (loop_body_view td tds data true true st cfg s s1 res res1 rl alias selector
                  Hroot Hd Hn Hact Hinst Hlb) as ((Hroot1 & Hfree1 & Hcache1) & Hstep).
      destruct (run_loop_view td tds data true true st rl cfgs s1 res1 s' out Hroot1 Hd Hp' Hrun)
        as (_ & Hfree' & Hframe).
      destruct (IH s1 res1 s' out Hroot1 Hd Hp' Hnd' Hrun) as [Hset' Hcond'].
      split; [intros _; apply Hset'; now left|].
      intros cfg' a' s0' [<-|Hin] Hinst'; [|now apply (Hcond' cfg' a' s0')].
      rewrite Hinst in Hinst'. injection Hinst' as <- <-.
      rewrite Hframe by auto. rewrite Hfree', Hfree1.
      destruct (cached st tds (key cfg) (fs s)) as [c|] eqn:Hc0.
      * destruct Hstep as [_ ->]. eauto.
      * destruct (select selector td data) as [picks ls|e]; [|eauto].
        cbv zeta in Hstep. destruct Hstep as [_ ->]. cbn [andb].
        destruct (free (fs s) rl tds (key cfg)); eauto.
    + rewrite loop_body_skip in Hrun by exact He. now apply (IH s res s' out).
Qed.

(** X22: a saving run with the cache, repeated on the store it left with
    the same configurations, changes nothing in the store, whether the
    repetition saves or not (conditions as for X18). *)
Theorem cached_rerun_keeps_store (td : Timestamp) (tds : string) (data : Data) (sv2 : bool)
    (st : Storage.ResultStorage) (cfgs : list Config) (s s' : state)
    (out : list StockSelectionResult) :
  is_dir (fs s) (Storage.result_dir st) = true -> is_name tds = true ->
  Forall (fun cfg => no_slash (key cfg) = true) (List.filter effective cfgs) ->
  List.NoDup (map key (List.filter effective cfgs)) ->
  run_loop td tds data true true st cfgs s [] = (s', out) ->
  fs (fst (run_loop td tds data true sv2 st cfgs s' [])) = fs s'.
Proof.
  intros Hdir Hd Hp Hnd Hrun. destruct (is_dir_root_at st (fs s) Hdir) as [rl Hroot].
  destruct (run_loop_view td tds data true true st rl cfgs s [] s' out Hroot Hd Hp Hrun)
    as (Hroot' & _).
  destruct (run_loop_settles td tds data st rl cfgs s [] s' out Hroot Hd Hp Hnd Hrun)
    as [Hset Hcond].
  apply (run_loop_still td tds data sv2 st rl (fs s') cfgs Hroot' Hd Hp); auto.
Qed.

(** X24: the date of a run is the latest date of the loaded series as soon
    as the first series has dates, whether the others have any or not; when
    the first series has none the date is [NaT], whatever the others hold,
    because no comparison with [NaT] holds. *)
Theorem latest_date_needs_first_series (kv : string * DataFrame) (rest : Data) :
  (date_column (snd kv) = [] -> resolve_trade_date None (kv :: rest) = Ok NaT) /\
  (date_column (snd kv) <> [] ->
   exists m, resolve_trade_date None (kv :: rest) = Ok (TS m) /\ latest_date (kv :: rest) m).
Proof.
  cbn [resolve_trade_date map]. split; intros Hfirst.
  - unfold column_max at 1. rewrite Hfirst. now rewrite py_max_NaT.
  - rewrite (ApiFacts.column_max_nonempty _ Hfirst), py_max_skips.
    destruct (ApiFacts.frame_max_spec _ Hfirst) as [Hin0 Hmax0].
    destruct (fold_skip_spec (map (fun kv0 => column_max (snd kv0)) rest)
                (frame_max (snd kv))) as (Hge & Hall & Hwhich).
    eexists. split; [reflexivity|]. split.
    + destruct Hwhich as [->|Hin]; [exists kv; split; [now left | exact Hin0]|].
      apply in_map_iff in Hin as (kv' & Hc & Hin). exists kv'. split; [now right|].
      destruct (date_column (snd kv')) as [|x xs] eqn:Hcol;
        [unfold column_max in Hc; now rewrite Hcol in Hc|].
      assert (Hne : date_column (snd kv') <> []) by (rewrite Hcol; discriminate).
      rewrite (ApiFacts.column_max_nonempty _ Hne) in Hc. injection Hc as Hc.
      destruct (ApiFacts.frame_max_spec _ Hne) as [Hin' _]. rewrite Hcol in *.
      now rewrite <- Hc.
    + intros kv' d [<-|Hin] Hd.
      * specialize (Hmax0 d Hd). lia.
      * assert (Hne : date_column (snd kv') <> []) by (intros Hnil; now rewrite Hnil in Hd).
        destruct (ApiFacts.frame_max_spec _ Hne) as [_ Hmax'].
        specialize (Hmax' d Hd).
        assert (Hle : frame_max (snd kv')
                      <= fold_left (fun m t => match t with TS y => Z.max m y | NaT => m end)
                           (map (fun kv0 => column_max (snd kv0)) rest) (frame_max (snd kv))).
        { apply Hall. rewrite <- (ApiFacts.column_max_nonempty _ Hne).
          apply in_map_iff. eauto. }
        lia.
Qed.

Lemma digit_char_not_slash (n : Z) : Ascii.eqb (digit_char n) Str.slash = false.
Proof.
  unfold digit_char.
  destruct (Z.to_nat n) as [|[|[|[|[|[|[|[|[|[|k]]]]]]]]]]; try reflexivity.
  now destruct k.
Qed.

(** Ten characters of which none is the separator name one directory
    entry. *)
Lemma ten_chars_is_name (c1 c2 c3 c4 c5 c6 c7 c8 c9 c10 : ascii) :
  Forall (fun c => Ascii.eqb c Str.slash = false) [c1; c2; c3; c4; c5; c6; c7; c8; c9; c10] ->
  is_name (String c1 (String c2 (String c3 (String c4 (String c5
            (String c6 (String c7 (String c8 (String c9 (String c10 "")))))))))) = true.
Proof.
  intros Hall.
  repeat match goal with
         | Hf : Forall _ (_ :: _) |- _ => inversion Hf as [|? ? ? ?]; subst; clear Hf
         end.
  unfold is_name, is_component, keep_part. cbn [Str.has_char String.eqb].
  repeat match goal with
         | Hc : Ascii.eqb ?c Str.slash = false |- _ => rewrite Hc; clear Hc
         end.
  cbn [orb negb andb].
  repeat match goal with
         | |- context [Ascii.eqb ?a ?b] => destruct (Ascii.eqb a b)
         end; reflexivity.
Qed.

(** The text [strftime] makes of a timestamp is the name of one directory
    entry. *)
Lemma strftime_is_name (t : Timestamp) (str : string) :
  strftime t = Ok str -> is_name str = true.
Proof.
  destruct t as [|ns]; [discriminate|]. unfold strftime.
  destruct (civil_from_days (ns / ns_per_day)) as [[y m] d]. intros [= <-].
  unfold pad4, pad2. apply ten_chars_is_name.
  repeat constructor; apply digit_char_not_slash.
Qed.

(** X25: whenever [run_selection] gets to its loop, the text of the date
    under which it reads and writes the cache names one directory entry:
    [get_result_path] puts the partition right below the result directory
    (the conditions on the date of X18 to X22 hold in every run). *)
Theorem run_date_is_one_component (trade_date : option Timestamp) (data_dir : Path)
    (tickers : option (list string)) (s : state) (ts : Timestamp) (str : string)
    (data : Data) (st : Storage.ResultStorage) :
  reaches_loop trade_date data_dir tickers s ts str data ->
  is_name str = true /\
  Storage.result_dir st // str = child (Storage.result_dir st) str.
Proof.
  intros (_ & _ & _ & _ & _ & Hstr). pose proof (strftime_is_name ts str Hstr) as Hn.
  split; [exact Hn|]. destruct (is_name_inv str Hn) as [Hc _].
  now rewrite joinpath_component.
Qed.

(** X26: a call of [run_selection] that raises has changed nothing and
    made no call on a strategy or on the store; it raises the status 404
    or 400, the [ValueError] of a date that cannot be put into text, or
    what [load_config] raised. *)
Theorem failed_run_touches_nothing (trade_date : option Timestamp)
    (data_dir config_path : Path) (tickers : option (list string))
    (selector_configs : option (list Config)) (uc sv : bool)
    (st : Storage.ResultStorage) (s s' : state) (e : exn) :
  run_selection trade_date data_dir config_path tickers selector_configs uc sv st s
  = (s', Raise e) ->
  s' = s /\
  (e = HTTPException 404 \/ e = HTTPException 400 \/ e = ValueError \/
   (selector_configs = None /\ load_config (fs s) config_path = Raise e)).
Proof.
  unfold run_selection. destruct (exists_ (fs s) data_dir); cbn [negb];
    [|intros [= <- <-]; auto].
  destruct (match tickers with
            | Some ts => ts
            | None => map stem (glob_suffix (fs s) data_dir ".csv")
            end) as [|c codes]; [intros [= <- <-]; auto|].
  destruct (load_data (fs s) data_dir (c :: codes)) as [|kv data]; [intros [= <- <-]; auto|].
  destruct (resolve_trade_date trade_date (kv :: data)) as [t|e0] eqn:Hr.
  - destruct (strftime t) as [str|e1] eqn:Hs.
    + destruct selector_configs as [cs|].
      * destruct (run_loop t str (kv :: data) uc sv st cs s []). discriminate.
      * destruct (load_config (fs s) config_path) as [cs|e2] eqn:Hc.
        -- destruct (run_loop t str (kv :: data) uc sv st cs s []). discriminate.
        -- intros [= <- <-]. auto 10.
    + intros [= <- <-]. split; [reflexivity|]. right. right. left.
      destruct t; [cbn in Hs; congruence|]. unfold strftime in Hs.
      destruct (civil_from_days (ns / ns_per_day)) as [[? ?] ?]. discriminate.
  - destruct trade_date; cbn in Hr; discriminate.
Qed.

End WithCollaborators.

(** A run on the stubs whose second strategy fails. *)
Lemma cached_run_repeats_witness :
  let cfgs := [Scenario.config "A"; Scenario.config "Boom"; Scenario.config "C"] in
  let first := @run_loop Scenario.strict Scenario.stubs (timestamp_of_date 2024 1 12)
                 "2024-01-12" Scenario.market true true Scenario.store cfgs
                 (Scenario.begin Scenario.fs_app) [] in
  snd (@run_loop Scenario.strict Scenario.stubs (timestamp_of_date 2024 1 12)
         "2024-01-12" Scenario.market true true Scenario.store cfgs (fst first) [])
  = snd first.
Proof.
  apply (@cached_run_repeats Scenario.strict Scenario.stubs (timestamp_of_date 2024 1 12)
           "2024-01-12" Scenario.market true true Scenario.store
           [Scenario.config "A"; Scenario.config "Boom"; Scenario.config "C"]
           (Scenario.begin Scenario.fs_app)).
  - vm_compute; reflexivity.
  - vm_compute; reflexivity.
  - repeat constructor.
  - repeat constructor; cbn; intuition discriminate.
  - apply surjective_pairing.
Defined.



Lemma get_result_dates_status_witness :
  get_result_dates Scenario.fs_listing
  = Ok (mkDates true ["2024-02-01"; "2024-01-10"] 2) /\
  Storage.list_available_dates result_storage Scenario.fs_listing
  = Ok ["2024-02-01"; "2024-01-10"].
Proof.
  assert (Hg : get_result_dates Scenario.fs_listing
               = Ok (mkDates true ["2024-02-01"; "2024-01-10"] 2))
    by (vm_compute; reflexivity).
  split; [exact Hg|].
  exact (proj1 (proj2 (proj2 (get_result_dates_status Scenario.fs_listing))
                 _ Hg)).
Defined.

Lemma cached_rerun_keeps_store_witness :
  let cfgs := [Scenario.config "A"; Scenario.config "Boom"; Scenario.config "C"] in
  let first := @run_loop Scenario.strict Scenario.stubs (timestamp_of_date 2024 1 12)
                 "2024-01-12" Scenario.market true true Scenario.store cfgs
                 (Scenario.begin Scenario.fs_app) [] in
  fs (fst (@run_loop Scenario.strict Scenario.stubs (timestamp_of_date 2024 1 12)
             "2024-01-12" Scenario.market true true Scenario.store cfgs (fst first) []))
  = fs (fst first).
Proof.
  intros cfgs first.
  apply (@cached_rerun_keeps_store Scenario.strict Scenario.stubs
           (timestamp_of_date 2024 1 12) "2024-01-12" Scenario.market true Scenario.store
           cfgs (Scenario.begin Scenario.fs_app) (fst first) (snd first)
           ltac:(vm_compute; reflexivity) ltac:(vm_compute; reflexivity)
           ltac:(repeat constructor)
           ltac:(repeat constructor; cbn; intuition discriminate)
           ltac:(apply surjective_pairing)).
Defined.

Lemma run_date_is_one_component_witness :
  is_name "2024-01-12" = true /\
  Storage.result_dir Scenario.store // "2024-01-12"
  = child (Storage.result_dir Scenario.store) "2024-01-12".
Proof.
  apply (@run_date_is_one_component Scenario.stubs None Scenario.data_dir Scenario.tickers
           (Scenario.begin Scenario.fs_app) (timestamp_of_date 2024 1 12) "2024-01-12"
           Scenario.market Scenario.store).
  repeat split; try (intros Heq; vm_compute in Heq; discriminate); vm_compute; reflexivity.
Defined.

Lemma failed_run_touches_nothing_witness :
  fst (Scenario.run None [Scenario.config "A"] Scenario.fs_fresh)
  = Scenario.begin Scenario.fs_fresh.
Proof.
  apply (proj1 (@failed_run_touches_nothing Scenario.strict Scenario.stubs None
                  Scenario.data_dir Scenario.config_path Scenario.tickers
                  (Some [Scenario.config "A"]) true true Scenario.store
                  (Scenario.begin Scenario.fs_fresh) _ (HTTPException 404)
                  ltac:(vm_compute; reflexivity))).
Defined.

End RunExtras.
